(** * SpreadWatch: a shallow embedding of the spread monitor and its properties

    The development follows the Python sources of the repository:

    - [app/utils/stats.py]            interpolated quantile, median and IQR
    - [app/state.py], [app/config.py] the per-asset market record and the settings
    - [app/engine/spread_engine.py]   the baseline/anomaly tick and the confirmation tick
    - [app/feeds/lighter_ws.py]       payload normalisation and the reconnect loop
    - [app/main.py]                   batch quote ingestion and the chart series buffers

    Numbers.  Python [int]s are [Z].  A Python [float] is modelled by the type
    [float] below: an exact rational ([Fin x]) or the not-a-number value [NaN],
    which the source tests for explicitly ([math.isnan]).  Rounding error,
    infinities and overflow of binary64 arithmetic are outside the model.
    A raised exception is the [None] of an [option] result. *)

From Stdlib Require Import ZArith QArith Qround Qabs Qminmax Lia Lqa Ascii String.
From Stdlib Require Import Sorting.Sorted Sorting.Permutation.
From Stdlib Require PrimFloat.
From stdpp Require Import base option list gmap strings.

Local Open Scope Z_scope.

(** ** Python floats *)

Inductive float : Type :=
| Fin (x : Q)
| NaN.

Module PyFloat.

Definition of_Z (z : Z) : float := Fin (inject_Z z).

Definition lift2 (op : Q -> Q -> Q) (a b : float) : float :=
  match a, b with
  | Fin x, Fin y => Fin (op x y)
  | _, _ => NaN
  end.

Definition add : float -> float -> float := lift2 Qplus.
Definition sub : float -> float -> float := lift2 Qminus.
Definition mul : float -> float -> float := lift2 Qmult.
(** Every division of the sources is guarded by a test that the divisor is
    non-zero, so [ZeroDivisionError] has no counterpart here. *)
Definition div : float -> float -> float := lift2 Qdiv.

Definition abs (a : float) : float :=
  match a with
  | Fin x => Fin (Qabs x)
  | NaN => NaN
  end.

(** Comparisons are false as soon as one side is [NaN]. *)
Definition cmp (test : Q -> Q -> bool) (a b : float) : bool :=
  match a, b with
  | Fin x, Fin y => test x y
  | _, _ => false
  end.

Definition qlt (x y : Q) : bool := negb (Qle_bool y x).

Definition le : float -> float -> bool := cmp Qle_bool.
Definition lt : float -> float -> bool := cmp qlt.
Definition ge (a b : float) : bool := le b a.
Definition gt (a b : float) : bool := lt b a.

(** [bool(x)] for a float: zero is the only falsy value. *)
Definition truthy (a : float) : bool :=
  match a with
  | Fin x => negb (Qeq_bool x 0)
  | NaN => true
  end.

(** [max(a, b)]: the first argument is kept unless the second is greater. *)
Definition max (a b : float) : float := if gt b a then b else a.
(** [min(a, b)]: the first argument is kept unless the second is smaller. *)
Definition min (a b : float) : float := if lt b a then b else a.

(** Equality of floats as values. *)
Definition eqv (a b : float) : Prop :=
  match a, b with
  | Fin x, Fin y => Qeq x y
  | NaN, NaN => True
  | _, _ => False
  end.

End PyFloat.

(** ** Python built-ins used by the sources *)

(** [bool(x)] for an optional float: [None] and zero are falsy. *)
Definition truthy_opt (a : option float) : bool :=
  match a with
  | Some x => PyFloat.truthy x
  | None => false
  end.

(** [a or b] on optional floats. *)
Definition or_opt (a b : option float) : option float :=
  if truthy_opt a then a else b.

(** [l[i]] on a Python list: negative indices count from the end, and an index
    outside [-len, len) raises [IndexError]. *)
Definition py_index {A : Type} (l : list A) (i : Z) : option A :=
  let n := Z.of_nat (length l) in
  if 0 <=? i then l !! Z.to_nat i
  else if - n <=? i then l !! Z.to_nat (n + i)
  else None.

(** [round(x)] with one argument: to the nearest integer, a tie going to the
    even neighbour. *)
Definition py_round (x : Q) : Z :=
  let f := Qfloor x in
  let r := (x - inject_Z f)%Q in
  match Qcompare r (1 # 2) with
  | Lt => f
  | Gt => f + 1
  | Eq => if Z.even f then f else f + 1
  end.

(** [int(x)] on a float truncates towards zero. *)
Definition py_int (x : Q) : Z :=
  if Qle_bool 0 x then Qfloor x else Qceiling x.

(** [str.upper] and [str.strip], on the ASCII range. *)
Definition upper_ascii (c : ascii) : ascii :=
  let n := nat_of_ascii c in
  if ((97 <=? n) && (n <=? 122))%nat then ascii_of_nat (n - 32) else c.

Definition is_space (c : ascii) : bool :=
  let n := nat_of_ascii c in
  ((9 <=? n) && (n <=? 13) || (28 <=? n) && (n <=? 32))%nat.

Fixpoint lstrip_chars (l : list ascii) : list ascii :=
  match l with
  | [] => []
  | c :: l' => if is_space c then lstrip_chars l' else l
  end.

Definition upper (s : string) : string :=
  string_of_list_ascii (upper_ascii <$> list_ascii_of_string s).

Definition strip (s : string) : string :=
  string_of_list_ascii
    (rev (lstrip_chars (rev (lstrip_chars (list_ascii_of_string s))))).

Definition endswith (s : string) (c : ascii) : bool :=
  match rev (list_ascii_of_string s) with
  | c' :: _ => bool_decide (c' = c)
  | [] => false
  end.

(** [s[:-1]] *)
Definition drop_last (s : string) : string :=
  string_of_list_ascii (rev (drop 1 (rev (list_ascii_of_string s)))).

Definition lower_ascii (c : ascii) : ascii :=
  let n := nat_of_ascii c in
  if ((65 <=? n) && (n <=? 90))%nat then ascii_of_nat (n + 32) else c.

Definition lower (s : string) : string :=
  string_of_list_ascii (lower_ascii <$> list_ascii_of_string s).

(** A value of a decoded JSON document ([Any] in the sources).  Containers
    only occur where the sources test them for emptiness or reject them. *)
Inductive pyval : Type :=
| PNone
| PBool (b : bool)
| PInt (z : Z)
| PFloat (f : float)
| PStr (s : string)
| POther (nonempty : bool).

Definition truthy_val (v : pyval) : bool :=
  match v with
  | PNone => false
  | PBool b => b
  | PInt z => negb (z =? 0)
  | PFloat f => PyFloat.truthy f
  | PStr s => negb (bool_decide (s = ""%string))
  | POther nonempty => nonempty
  end.

(** [a or b] *)
Definition or_val (a b : pyval) : pyval := if truthy_val a then a else b.

(** [d.get(k)] *)
Definition dict_get (d : gmap string pyval) (k : string) : pyval :=
  default PNone (d !! k).

(** The two conversions the interpreter provides and the sources rely on:
    [float(s)] for a string ([None] when it raises [ValueError]) and [str(x)]
    for a value that is not a string. *)
Class Builtins : Type := {
  float_of_str : string -> option float;
  str_of : pyval -> string
}.

Definition py_str `{Builtins} (v : pyval) : string :=
  match v with
  | PStr s => s
  | _ => str_of v
  end.

(** [collections.deque(maxlen=...)] *)
Record deque (A : Type) : Type := Deque {
  maxlen : option Z;
  items : list A
}.
Arguments Deque {A} _ _.
Arguments maxlen {A} _.
Arguments items {A} _.

(** [dq.append(x)]: once the length exceeds [maxlen] an item is discarded
    from the left end. *)
Definition deque_append {A : Type} (dq : deque A) (x : A) : deque A :=
  let l := items dq ++ [x] in
  Deque (maxlen dq)
    (match maxlen dq with
     | Some n => if n <? Z.of_nat (length l) then drop 1 l else l
     | None => l
     end).

(** ** app/utils/stats.py *)

Module Stats.

(** [sorted(vals)]: a stable ascending sort.  The insertion puts [x] in
    front of the first element that is not smaller, so equal values keep
    the order they had in the input. *)
Fixpoint insert (x : Q) (l : list Q) : list Q :=
  match l with
  | [] => [x]
  | y :: l' => if Qle_bool x y then x :: l else y :: insert x l'
  end.

Definition sorted (vals : list Q) : list Q := foldr insert [] vals.

Definition _quantile (sorted_vals : list Q) (q : Q) : option float :=
  let n := Z.of_nat (length sorted_vals) in
  if n =? 0 then Some NaN
  else if n =? 1 then Fin <$> py_index sorted_vals 0
  else
    let pos := (inject_Z (n - 1) * q)%Q in
    let lo := Qfloor pos in
    let hi := Qceiling pos in
    if lo =? hi then Fin <$> py_index sorted_vals lo
    else
      let w := (pos - inject_Z lo)%Q in
      a ← py_index sorted_vals lo;
      b ← py_index sorted_vals hi;
      Some (Fin (a * (1 - w) + b * w)%Q).

(** [[v for v in vals if v is not None and not math.isnan(v)]] *)
Definition keep (v : option float) : option Q :=
  match v with
  | Some (Fin x) => Some x
  | Some NaN => None
  | None => None
  end.

Definition clean (vals : list (option float)) : list Q := omap keep vals.

Definition median_iqr (vals : list (option float))
  : option (option float * option float) :=
  let vals := clean vals in
  if (length vals <? 20)%nat then Some (None, None)
  else
    let s := sorted vals in
    med ← _quantile s (1 # 2);
    q25 ← _quantile s (1 # 4);
    q75 ← _quantile s (3 # 4);
    let iqr := PyFloat.sub q75 q25 in
    Some (Some med, Some iqr).

End Stats.

(** ** app/config.py *)

Record Settings : Type := {
  VAR_NOTIONAL_USD : float;
  CONFIRM_NOTIONAL_USD : float;
  VAR_CONFIRM_COOLDOWN_SEC : float;
  BASELINE_WINDOW_SEC : Z;
  PERSIST_SEC : Z;
  MIN_DELTA_BPS : float
}.

(** The values taken when no environment variable overrides them. *)
Definition settings : Settings := {|
  VAR_NOTIONAL_USD := Fin 1500;
  CONFIRM_NOTIONAL_USD := Fin 3000;
  VAR_CONFIRM_COOLDOWN_SEC := Fin 30;
  BASELINE_WINDOW_SEC := 1800;
  PERSIST_SEC := 6;
  MIN_DELTA_BPS := Fin 8
|}.

(** ** app/state.py *)

Record BookTop : Type := {
  best_ask : option float;
  best_bid : option float
}.

Record MarketStats : Type := {
  daily_quote_volume : option float;
  mark_price : option float
}.

(** [ts_ms] of the source is [var_ts_ms] here, the name being taken by
    [ConfirmInfo]. *)
Record VarQuote : Type := {
  buy_1500 : option float;
  var_ts_ms : Z
}.

Record ConfirmInfo : Type := {
  notional : float;
  var_buy : option float;
  lighter_vwap_ask : option float;
  spread_bps_exec : option float;
  spread_usd_exec : option float;
  ts_ms : Z
}.

Record Computed : Type := {
  spread_usd : option float;
  spread_bps : option float;
  baseline_median_bps : option float;
  baseline_iqr_bps : option float;
  deviation_bps : option float;
  anomaly : bool;
  anomaly_started_s : option Z;
  last_confirm_s : option Z;
  confirm : option ConfirmInfo
}.

Record Market : Type := {
  market_id : Z;
  symbol : string;
  base : string;
  book : BookTop;
  stats : MarketStats;
  var : VarQuote;
  computed : Computed;
  spread_bps_hist : deque (Z * float)
}.

Definition new_Computed : Computed := {|
  spread_usd := None; spread_bps := None;
  baseline_median_bps := None; baseline_iqr_bps := None;
  deviation_bps := None;
  anomaly := false; anomaly_started_s := None;
  last_confirm_s := None; confirm := None
|}.

(** [Market(market_id, symbol, base)] with every other field at its default. *)
Definition new_Market (market_id : Z) (symbol base : string) : Market := {|
  market_id := market_id; symbol := symbol; base := base;
  book := {| best_ask := None; best_bid := None |};
  stats := {| daily_quote_volume := None; mark_price := None |};
  var := {| buy_1500 := None; var_ts_ms := 0 |};
  computed := new_Computed;
  spread_bps_hist := Deque (Some 7200) []
|}.

(** Assignments to the fields of [m.computed] and to [m]. *)
Definition set_spread (usd bps : option float) (c : Computed) : Computed := {|
  spread_usd := usd; spread_bps := bps;
  baseline_median_bps := baseline_median_bps c;
  baseline_iqr_bps := baseline_iqr_bps c;
  deviation_bps := deviation_bps c;
  anomaly := anomaly c; anomaly_started_s := anomaly_started_s c;
  last_confirm_s := last_confirm_s c; confirm := confirm c
|}.

Definition set_baseline (med iqr : option float) (c : Computed) : Computed := {|
  spread_usd := spread_usd c; spread_bps := spread_bps c;
  baseline_median_bps := med; baseline_iqr_bps := iqr;
  deviation_bps := deviation_bps c;
  anomaly := anomaly c; anomaly_started_s := anomaly_started_s c;
  last_confirm_s := last_confirm_s c; confirm := confirm c
|}.

Definition set_deviation_bps (dev : option float) (c : Computed) : Computed := {|
  spread_usd := spread_usd c; spread_bps := spread_bps c;
  baseline_median_bps := baseline_median_bps c;
  baseline_iqr_bps := baseline_iqr_bps c;
  deviation_bps := dev;
  anomaly := anomaly c; anomaly_started_s := anomaly_started_s c;
  last_confirm_s := last_confirm_s c; confirm := confirm c
|}.

Definition set_anomaly (a : bool) (c : Computed) : Computed := {|
  spread_usd := spread_usd c; spread_bps := spread_bps c;
  baseline_median_bps := baseline_median_bps c;
  baseline_iqr_bps := baseline_iqr_bps c;
  deviation_bps := deviation_bps c;
  anomaly := a; anomaly_started_s := anomaly_started_s c;
  last_confirm_s := last_confirm_s c; confirm := confirm c
|}.

Definition set_anomaly_started_s (s : option Z) (c : Computed) : Computed := {|
  spread_usd := spread_usd c; spread_bps := spread_bps c;
  baseline_median_bps := baseline_median_bps c;
  baseline_iqr_bps := baseline_iqr_bps c;
  deviation_bps := deviation_bps c;
  anomaly := anomaly c; anomaly_started_s := s;
  last_confirm_s := last_confirm_s c; confirm := confirm c
|}.

Definition set_confirmation (info : ConfirmInfo) (now_s : Z) (c : Computed)
  : Computed := {|
  spread_usd := spread_usd c; spread_bps := spread_bps c;
  baseline_median_bps := baseline_median_bps c;
  baseline_iqr_bps := baseline_iqr_bps c;
  deviation_bps := deviation_bps c;
  anomaly := anomaly c; anomaly_started_s := anomaly_started_s c;
  last_confirm_s := Some now_s; confirm := Some info
|}.

Definition set_computed (c : Computed) (m : Market) : Market := {|
  market_id := market_id m; symbol := symbol m; base := base m;
  book := book m; stats := stats m; var := var m;
  computed := c;
  spread_bps_hist := spread_bps_hist m
|}.

Definition set_spread_bps_hist (h : deque (Z * float)) (m : Market) : Market := {|
  market_id := market_id m; symbol := symbol m; base := base m;
  book := book m; stats := stats m; var := var m;
  computed := computed m;
  spread_bps_hist := h
|}.

(** What the feed and the quote provider write between two ticks. *)
Definition set_inputs (b : BookTop) (v : VarQuote) (m : Market) : Market := {|
  market_id := market_id m; symbol := symbol m; base := base m;
  book := b; stats := stats m; var := v;
  computed := computed m;
  spread_bps_hist := spread_bps_hist m
|}.

(** ** app/engine/spread_engine.py *)

Definition _calc_bps (spread_usd ref_price : float) : option float :=
  if negb (PyFloat.truthy ref_price) || PyFloat.le ref_price (Fin 0) then None
  else Some (PyFloat.mul (PyFloat.div spread_usd ref_price) (Fin 10000)).

(** The loop of [_trim_hist] on the content of the deque. *)
Fixpoint trim_items (now window_sec : Z) (l : list (Z * float))
  : list (Z * float) :=
  match l with
  | [] => []
  | h :: l' =>
      if window_sec <? now - h.1 then trim_items now window_sec l' else l
  end.

(** [now] is the clock as [_trim_hist] reads it itself, after the caller read
    its own [now_s]. *)
Definition _trim_hist (now : Z) (hist : deque (Z * float)) (window_sec : Z)
  : deque (Z * float) :=
  Deque (maxlen hist) (trim_items now window_sec (items hist)).

(** Lines 48 to 55: the debounce of the anomaly flag, given the condition. *)
Definition debounce (cfg : Settings) (now_s : Z) (cond : bool) (c : Computed)
  : Computed :=
  if cond then
    let started :=
      match anomaly_started_s c with
      | None => now_s
      | Some s => s
      end in
    let c := set_anomaly_started_s (Some started) c in
    if PERSIST_SEC cfg <=? now_s - started then set_anomaly true c else c
  else
    set_anomaly_started_s None (set_anomaly false c).

(** The body of the [for] loop of [spread_engine_loop] for one market.
    Besides the market as the tick leaves it, the result carries the value of
    the local variable [cond] when the tick got as far as computing it.
    [None] stands for an exception escaping the loop. *)
Definition engine_market (cfg : Settings) (now_s now_trim : Z) (m : Market)
  : option (Market * option bool) :=
  let ask := best_ask (book m) in
  let var_buy := buy_1500 (var m) in
  match ask, var_buy with
  | Some ask, Some var_buy =>
      if PyFloat.truthy ask && PyFloat.truthy var_buy then
        let spread_usd := PyFloat.sub var_buy ask in
        let spread_bps := _calc_bps spread_usd ask in
        let m := set_computed
                   (set_spread (Some spread_usd) spread_bps (computed m)) m in
        match spread_bps with
        | Some bps =>
            let hist := deque_append (spread_bps_hist m) (now_s, bps) in
            let hist := _trim_hist now_trim hist (BASELINE_WINDOW_SEC cfg) in
            let m := set_spread_bps_hist hist m in
            let vals := snd <$> items (spread_bps_hist m) in
            '(med, iqr) ← Stats.median_iqr (Some <$> vals);
            let m := set_computed (set_baseline med iqr (computed m)) m in
            match med, iqr with
            | Some med, Some iqr =>
                let dev := PyFloat.sub bps med in
                let m := set_computed
                           (set_deviation_bps (Some dev) (computed m)) m in
                let delta :=
                  PyFloat.max (MIN_DELTA_BPS cfg) (PyFloat.mul (Fin 2) iqr) in
                let cond := PyFloat.ge (PyFloat.abs dev) delta in
                Some (set_computed (debounce cfg now_s cond (computed m)) m,
                      Some cond)
            | _, _ => Some (m, None)
            end
        | None => Some (m, None)
        end
      else Some (m, None)
  | _, _ => Some (m, None)
  end.

(** One pass of the [while] loop over [STATE.markets], a dict in insertion
    order; [clock base] is what [_trim_hist] reads when it is called for
    [base]. *)
Definition spread_engine_tick (cfg : Settings) (now_s : Z) (clock : string -> Z)
  (markets : list (string * Market)) : option (list (string * Market)) :=
  mapM (fun '(b, m) =>
          r ← engine_market cfg now_s (clock b) m; Some (b, r.1)) markets.

(** What a callback of the confirmation loop does when awaited. *)
Inductive outcome : Type :=
| Raised
| Returned (price : option float).

(** How far the confirmation body went for a market. *)
Inductive confirm_event : Type :=
| NotDue
| Attempted_failed
| Confirmed.

(** The body of the [for] loop of [confirm_executor_loop] for one market;
    [now_ms] is [int(time.time()*1000)] as read when the record is built. *)
Definition confirm_market (cfg : Settings) (now_s now_ms : Z)
  (var_get_quote_cb lighter_vwap_cb : string -> float -> outcome)
  (b : string) (m : Market) : Market * confirm_event :=
  if negb (anomaly (computed m)) then (m, NotDue)
  else if
    match last_confirm_s (computed m) with
    | Some last =>
        negb (last =? 0)
        && PyFloat.lt (PyFloat.of_Z (now_s - last)) (VAR_CONFIRM_COOLDOWN_SEC cfg)
    | None => false
    end
  then (m, NotDue)
  else
    match var_get_quote_cb b (CONFIRM_NOTIONAL_USD cfg) with
    | Raised => (m, Attempted_failed)
    | Returned var_buy =>
        match lighter_vwap_cb b (CONFIRM_NOTIONAL_USD cfg) with
        | Raised => (m, Attempted_failed)
        | Returned vwap =>
            match var_buy, vwap with
            | Some vb, Some vw =>
                let spread_usd := PyFloat.sub vb vw in
                let spread_bps := _calc_bps spread_usd vw in
                let info := {|
                  notional := CONFIRM_NOTIONAL_USD cfg;
                  var_buy := Some vb;
                  lighter_vwap_ask := Some vw;
                  spread_usd_exec := Some spread_usd;
                  spread_bps_exec := spread_bps;
                  ts_ms := now_ms
                |} in
                (set_computed (set_confirmation info now_s (computed m)) m,
                 Confirmed)
            | _, _ => (m, Attempted_failed)
            end
        end
    end.

(** ** app/feeds/lighter_ws.py *)

Section lighter_ws.
Context `{Builtins}.

Definition _to_float (x : pyval) : option float :=
  match x with
  | PNone => None
  | PBool b => Some (Fin (if b then 1 else 0))
  | PInt z => Some (PyFloat.of_Z z)
  | PFloat f => Some f
  | PStr s => float_of_str s
  | POther _ => None
  end.

Definition bid_keys : list string :=
  ["best_bid"; "bid"; "bid_price"; "bestBid"; "bestBidPrice"]%string.
Definition ask_keys : list string :=
  ["best_ask"; "ask"; "ask_price"; "bestAsk"; "bestAskPrice"]%string.

(** [for k in keys: if k in d and d[k] is not None: x = _to_float(d[k]); break],
    with [x = None] before the loop. *)
Fixpoint pick_first (d : gmap string pyval) (keys : list string) : option float :=
  match keys with
  | [] => None
  | k :: keys' =>
      match d !! k with
      | Some PNone | None => pick_first d keys'
      | Some v => _to_float v
      end
  end.

Definition _pick_best_bid_ask (d : gmap string pyval)
  : option float * option float :=
  let bid := pick_first d bid_keys in
  let ask := pick_first d ask_keys in
  if bool_decide (bid = None) || bool_decide (ask = None) then
    let mp := _to_float (or_val (dict_get d "mark_price") (dict_get d "markPrice")) in
    (if bool_decide (bid = None) then mp else bid,
     if bool_decide (ask = None) then mp else ask)
  else (bid, ask).

End lighter_ws.

(** The shared state of the feed; [market_stats] is a dict in insertion
    order, from market id to the normalised entry. *)
Record LighterWSState : Type := {
  session_id : option string;
  last_error : option string;
  last_message_ts : option float;
  market_stats : list (Z * gmap string pyval);
  markets_seen : gset Z
}.

(** How a connection that was established comes to its end: an exception
    other than a cancellation, the stop event found set, or a cancellation. *)
Inductive session_end : Type :=
| Session_error (err : string)
| Session_stopped
| Session_cancelled.

(** What one pass of the outer [while] of [lighter_ws_loop] runs into;
    [acked] tells whether a ["connected"] message came in, whose handling
    clears the last error. *)
Inductive attempt : Type :=
| Connect_failed (err : string)
| Connect_cancelled
| Connected (acked : bool) (e : session_end).

(** The local [backoff], [STATE.last_error], and the arguments of the calls
    to [asyncio.sleep] so far. *)
Record ws_loop : Type := {
  backoff : float;
  ws_error : option string;
  slept : list float
}.

Definition set_backoff (b : float) (st : ws_loop) : ws_loop :=
  {| backoff := b; ws_error := ws_error st; slept := slept st |}.

Definition set_error (err : option string) (st : ws_loop) : ws_loop :=
  {| backoff := backoff st; ws_error := err; slept := slept st |}.

(** The handler [except Exception as e]. *)
Definition ws_failure (err : string) (st : ws_loop) : ws_loop := {|
  ws_error := Some err;
  slept := slept st ++ [backoff st];
  backoff := PyFloat.min (PyFloat.mul (backoff st) (Fin (16 # 10))) (Fin 15)
|}.

(** One pass, and whether the loop goes on after it. *)
Definition ws_attempt (st : ws_loop) (a : attempt) : ws_loop * bool :=
  match a with
  | Connect_failed err => (ws_failure err st, true)
  | Connect_cancelled => (st, false)
  | Connected acked e =>
      let st := set_backoff (Fin 1) st in
      let st := if acked then set_error None st else st in
      match e with
      | Session_error err => (ws_failure err st, true)
      | Session_stopped => (st, false)
      | Session_cancelled => (st, false)
      end
  end.

Fixpoint ws_passes (st : ws_loop) (trace : list attempt) : ws_loop :=
  match trace with
  | [] => st
  | a :: trace' =>
      let '(st', continue) := ws_attempt st a in
      if continue then ws_passes st' trace' else st'
  end.

(** The loop run against a trace of attempts, up to the pass at which the stop
    event is found set or the task is cancelled. *)
Definition lighter_ws_loop (trace : list attempt) : ws_loop :=
  let st := ws_passes {| backoff := Fin 1; ws_error := None; slept := [] |} trace in
  {| backoff := backoff st;
     ws_error := Some (default "stopped"%string
                         (if bool_decide (ws_error st = Some ""%string)
                          then None else ws_error st));
     slept := slept st |}.

(** ** app/main.py *)

(** A Python dict whose iteration order matters: keys in insertion order. *)
Fixpoint alist_get {K V : Type} `{EqDecision K} (k : K) (l : list (K * V))
  : option V :=
  match l with
  | [] => None
  | (k', v) :: l' => if decide (k = k') then Some v else alist_get k l'
  end.

(** [d[k] = v]: an existing key keeps its place, a new one goes last. *)
Fixpoint alist_set {K V : Type} `{EqDecision K} (k : K) (v : V) (l : list (K * V))
  : list (K * V) :=
  match l with
  | [] => [(k, v)]
  | (k', v') :: l' =>
      if decide (k = k') then (k', v) :: l' else (k', v') :: alist_set k v l'
  end.

Definition of_opt (o : option float) : pyval :=
  match o with
  | Some f => PFloat f
  | None => PNone
  end.

Definition MAX_WINDOW_S : Z := 2 * 60 * 60.

(** [int(MAX_WINDOW_S / max(SAMPLE_EVERY_S, 0.25)) + 50] *)
Definition MAX_POINTS (SAMPLE_EVERY_S : Q) : Z :=
  let d := if PyFloat.qlt SAMPLE_EVERY_S (1 # 4) then 1 # 4 else SAMPLE_EVERY_S in
  py_int (inject_Z MAX_WINDOW_S / d) + 50.

(** The module-level state of [app.main]. *)
Record App : Type := {
  SAMPLE_EVERY_S : Q;
  LIGHTER_STATE : option LighterWSState;
  VAR_BATCH : list ((string * Z) * gmap string pyval);
  ACTIVE_BASES : gset string;
  SPREAD_SERIES : gmap (string * string) (deque (Z * float * float))
}.

Definition set_VAR_BATCH (vb : list ((string * Z) * gmap string pyval)) (app : App)
  : App := {|
  SAMPLE_EVERY_S := SAMPLE_EVERY_S app; LIGHTER_STATE := LIGHTER_STATE app;
  VAR_BATCH := vb;
  ACTIVE_BASES := ACTIVE_BASES app; SPREAD_SERIES := SPREAD_SERIES app
|}.

Definition set_ACTIVE_BASES (ab : gset string) (app : App) : App := {|
  SAMPLE_EVERY_S := SAMPLE_EVERY_S app; LIGHTER_STATE := LIGHTER_STATE app;
  VAR_BATCH := VAR_BATCH app;
  ACTIVE_BASES := ab; SPREAD_SERIES := SPREAD_SERIES app
|}.

Definition set_SPREAD_SERIES
  (ss : gmap (string * string) (deque (Z * float * float))) (app : App) : App := {|
  SAMPLE_EVERY_S := SAMPLE_EVERY_S app; LIGHTER_STATE := LIGHTER_STATE app;
  VAR_BATCH := VAR_BATCH app;
  ACTIVE_BASES := ACTIVE_BASES app; SPREAD_SERIES := ss
|}.

(** The dict [{"bid": .., "ask": .., "mark": ..}] of [_get_lighter_price]. *)
Record LighterPrice : Type := {
  lp_bid : option float;
  lp_ask : option float;
  lp_mark : option float
}.

(** The dict returned by [_compute_spread]. *)
Record SpreadRow : Type := {
  row_base : string;
  row_notional : float;
  row_mode : string;
  lighter_bid : option float;
  lighter_ask : option float;
  lighter_mid : option float;
  var_bid : option float;
  var_ask : option float;
  var_mid : option float;
  row_spread_usd : option float;
  row_spread_bps : option float
}.

(** The response of [chart_series]; a point [{"t": t, "v": v}] is a pair. *)
Record SeriesResponse : Type := {
  resp_base : string;
  resp_metric : string;
  resp_mode : string;
  resp_window : string;
  count : nat;
  points : list (Z * float);
  latest : option (Z * float)
}.

(** A member of the list [payload["quotes"]]. *)
Inductive quote_item : Type :=
| Not_a_dict
| Row (q : gmap string pyval).

(** What became of one record of a batch. *)
Inductive ingest_event : Type :=
| Skipped
| Rejected_off_mark
| Stored
| Raised_error.

Section main.
Context `{Builtins}.

Definition _to_f (x : pyval) : option float :=
  match x with
  | PNone => None
  | PBool b => Some (Fin (if b then 1 else 0))
  | PInt z => Some (PyFloat.of_Z z)
  | PFloat f => Some f
  | _ =>
      let s := strip (py_str x) in
      if bool_decide (s = ""%string) then None else float_of_str s
  end.

(** [None]: [round] raised on a not-a-number. *)
Definition _notional_key (notional : pyval) : option Z :=
  match _to_f notional with
  | None => Some 0
  | Some (Fin f) => Some (py_round f)
  | Some NaN => None
  end.

Definition _get_ws_market_stats (app : App) : list (Z * gmap string pyval) :=
  match LIGHTER_STATE app with
  | None => []
  | Some st => market_stats st
  end.

Definition symbol_of (v : gmap string pyval) : string :=
  strip (upper (py_str (or_val (dict_get v "symbol") (PStr "")))).

Definition _get_lighter_price (app : App) (base : string) : LighterPrice :=
  let base := strip (upper base) in
  match List.find (fun kv => bool_decide (symbol_of kv.2 = base))
                  (_get_ws_market_stats app) with
  | Some (_, v) => {|
      lp_bid := _to_f (dict_get v "best_bid");
      lp_ask := _to_f (dict_get v "best_ask");
      lp_mark := _to_f (or_val (dict_get v "mark_price") (dict_get v "index_price"))
    |}
  | None => {| lp_bid := None; lp_ask := None; lp_mark := None |}
  end.

(** The body of the fallback loop of [_get_var_quote]; the accumulator is
    [(best, best_d)]. *)
Definition nearest_step (base : string) (notional_int : Z)
  (acc : option (gmap string pyval * Z)) (e : (string * Z) * gmap string pyval)
  : option (gmap string pyval * Z) :=
  let '((b, n), q) := e in
  if bool_decide (b = base) then
    let d := Z.abs (n - notional_int) in
    match acc with
    | None => Some (q, d)
    | Some (_, best_d) => if d <? best_d then Some (q, d) else acc
    end
  else acc.

Definition _get_var_quote (app : App) (base : string) (notional_int : Z)
  : option (gmap string pyval) :=
  let base := strip (upper base) in
  if bool_decide (base = ""%string) then None
  else
    let nearest := fst <$> foldl (nearest_step base notional_int) None (VAR_BATCH app) in
    match alist_get (base, notional_int) (VAR_BATCH app) with
    | Some exact => if bool_decide (exact = ∅) then nearest else Some exact
    | None => nearest
    end.

Definition default_mode : string := "lighter_bid_minus_var_sell".

(** [float(x) if x else None] *)
Definition nonzero (x : float) : option float :=
  if PyFloat.truthy x then Some x else None.

Definition _compute_spread (app : App) (base : string) (notional : float)
  (mode : string) : option SpreadRow :=
  let base_u := strip (upper base) in
  let mode := strip (if bool_decide (mode = ""%string) then default_mode else mode) in
  let lp := _get_lighter_price app base_u in
  let lighter_bid := lp_bid lp in
  let lighter_ask := lp_ask lp in
  let lighter_mid :=
    match lighter_bid, lighter_ask with
    | Some b, Some a => Some (PyFloat.div (PyFloat.add b a) (Fin 2))
    | _, _ => lp_mark lp
    end in
  n_key ← _notional_key (PFloat notional);
  let '(var_bid, var_ask, var_mid) :=
    match _get_var_quote app base_u n_key with
    | Some vq =>
        if bool_decide (vq = ∅) then (None, None, None)
        else
          let var_bid := _to_f (dict_get vq "bid") in
          let var_ask := _to_f (dict_get vq "ask") in
          let var_mid := _to_f (dict_get vq "mid") in
          (var_bid, var_ask,
           match var_mid, var_bid, var_ask with
           | None, Some b, Some a => Some (PyFloat.div (PyFloat.add b a) (Fin 2))
           | _, _, _ => var_mid
           end)
    | None => (None, None, None)
    end in
  let side (l v : option float) : option float * option float :=
    match l, v with
    | Some l, Some v => (Some (PyFloat.sub l v), nonzero v)
    | _, _ => (None, None)
    end in
  let '(spread_usd, ref) :=
    if bool_decide (mode = "lighter_bid_minus_var_sell"%string) then
      side lighter_bid var_bid
    else if bool_decide (mode = "lighter_ask_minus_var_buy"%string) then
      side lighter_ask var_ask
    else side lighter_mid var_mid in
  let spread_bps :=
    match spread_usd, ref with
    | Some usd, Some r =>
        if negb (PyFloat.truthy r) then None
        else Some (PyFloat.mul (PyFloat.div usd r) (Fin 10000))
    | _, _ => None
    end in
  Some {|
    row_base := base_u; row_notional := notional; row_mode := mode;
    lighter_bid := lighter_bid; lighter_ask := lighter_ask;
    lighter_mid := lighter_mid;
    var_bid := var_bid; var_ask := var_ask; var_mid := var_mid;
    row_spread_usd := spread_usd; row_spread_bps := spread_bps
  |}.

End main.

Section main_requests.
Context `{Builtins}.

(** [now_ms] is the reading of [_now_ms()] that stamps the point. *)
Definition _push_point (app : App) (now_ms : Z) (base mode : string)
  (spread_usd spread_bps : option float) : App :=
  match spread_usd, spread_bps with
  | Some usd, Some bps =>
      let base := strip (upper base) in
      if bool_decide (base = ""%string) then app
      else
        let mode := strip mode in
        let mode := if bool_decide (mode = ""%string) then default_mode else mode in
        let key := (base, mode) in
        let dq :=
          match SPREAD_SERIES app !! key with
          | Some dq => dq
          | None => Deque (Some (MAX_POINTS (SAMPLE_EVERY_S app))) []
          end in
        set_SPREAD_SERIES
          (<[key := deque_append dq (now_ms, usd, bps)]> (SPREAD_SERIES app)) app
  | _, _ => app
  end.

(** The chart points pushed for a stored record, one per mode. *)
Fixpoint push_modes (app : App) (now_ms : Z) (base : string) (notional_int : Z)
  (modes : list string) : option App :=
  match modes with
  | [] => Some app
  | mode :: modes' =>
      s ← _compute_spread app base (PyFloat.of_Z notional_int) mode;
      push_modes
        (_push_point app now_ms base mode (row_spread_usd s) (row_spread_bps s))
        now_ms base notional_int modes'
  end.

(** The body of the [for] loop of [ingest_var_batch] for one member of the
    list; the clock readings taken while the record is served are all
    [now_ms]. *)
Definition ingest_quote (app : App) (now_ms : Z) (item : quote_item)
  : App * ingest_event :=
  match item with
  | Not_a_dict => (app, Skipped)
  | Row q =>
      let base := strip (upper (py_str (or_val (dict_get q "base") (PStr "")))) in
      if bool_decide (base = ""%string) then (app, Skipped)
      else
        match _notional_key
                (or_val (or_val (dict_get q "notional_usd") (dict_get q "notional"))
                        (PInt 0)) with
        | None => (app, Raised_error)
        | Some notional_int =>
            let bid := _to_f (dict_get q "bid") in
            let ask := _to_f (dict_get q "ask") in
            let mid := _to_f (dict_get q "mid") in
            let qty_used := _to_f (dict_get q "qty_used") in
            match bid, ask with
            | Some bid0, Some ask0 =>
                let '(bid, ask) :=
                  if PyFloat.gt bid0 ask0 then (ask0, bid0) else (bid0, ask0) in
                let lp := _get_lighter_price app base in
                let ref := or_opt (or_opt (lp_mark lp) (lp_bid lp)) (lp_ask lp) in
                if match ref with
                   | Some r =>
                       PyFloat.truthy r
                       && PyFloat.gt
                            (PyFloat.div
                               (PyFloat.abs
                                  (PyFloat.sub
                                     (PyFloat.div (PyFloat.add ask bid) (Fin 2)) r))
                               r)
                            (Fin (5 # 100))
                   | None => false
                   end
                then
                  (set_ACTIVE_BASES ({[ base ]} ∪ ACTIVE_BASES app) app,
                   Rejected_off_mark)
                else
                  let entry : gmap string pyval :=
                    <["ts_ms"%string := PInt now_ms]>
                    (<["base"%string := PStr base]>
                    (<["notional_int"%string := PInt notional_int]>
                    (<["bid"%string := PFloat bid]>
                    (<["ask"%string := PFloat ask]>
                    (<["mid"%string := of_opt mid]>
                    (<["qty_used"%string := of_opt qty_used]> ∅)))))) in
                  let app :=
                    set_VAR_BATCH
                      (alist_set (base, notional_int) entry (VAR_BATCH app)) app in
                  let app := set_ACTIVE_BASES ({[ base ]} ∪ ACTIVE_BASES app) app in
                  match push_modes app now_ms base notional_int
                          ["lighter_bid_minus_var_sell"%string;
                           "lighter_ask_minus_var_buy"%string] with
                  | Some app' => (app', Stored)
                  | None => (app, Raised_error)
                  end
            | _, _ => (app, Skipped)
            end
        end
  end.

(** The loop over the list, stopping at an exception; [clock i] is the time
    at which member [i] is served and [stored] counts the records kept. *)
Fixpoint ingest_quotes (app : App) (clock : nat -> Z) (i : nat) (stored : nat)
  (quotes : list quote_item) : App * option nat :=
  match quotes with
  | [] => (app, Some stored)
  | item :: quotes' =>
      match ingest_quote app (clock i) item with
      | (app', Raised_error) => (app', None)
      | (app', Stored) => ingest_quotes app' clock (S i) (S stored) quotes'
      | (app', _) => ingest_quotes app' clock (S i) stored quotes'
      end
  end.

(** [quotes] is [None] when the payload has no list under ["quotes"]; the
    second component is the ["count"] of the response, or [None] when an
    exception ended the request. *)
Definition ingest_var_batch (app : App) (clock : nat -> Z)
  (quotes : option (list quote_item)) : App * option nat :=
  match quotes with
  | None => (app, Some 0%nat)
  | Some quotes => ingest_quotes app clock 0 0 quotes
  end.

(** [int(x)] of a float; [None] when it raises. *)
Definition int_of_float (x : float) : option Z :=
  match x with
  | Fin q => Some (py_int q)
  | NaN => None
  end.

Definition _parse_window_s (window : string) : option Z :=
  let w := lower (strip (if bool_decide (window = ""%string) then "5m"%string else window)) in
  if endswith w "m" then
    x ← float_of_str (drop_last w); int_of_float (PyFloat.mul x (Fin 60))
  else if endswith w "h" then
    x ← float_of_str (drop_last w); int_of_float (PyFloat.mul x (Fin 3600))
  else
    x ← float_of_str w; int_of_float x.

(** The selection loop of [chart_series] over the content of a buffer. *)
Fixpoint select_points (cutoff_ms : Z) (metric : string)
  (l : list (Z * float * float)) : list (Z * float) :=
  match l with
  | [] => []
  | (t_ms, usd, bps) :: l' =>
      if t_ms <? cutoff_ms then select_points cutoff_ms metric l'
      else
        (t_ms, if bool_decide (metric = "bps"%string) then bps else usd)
        :: select_points cutoff_ms metric l'
  end.

Definition chart_series (app : App) (now_ms : Z) (base window metric mode : string)
  : option SeriesResponse :=
  let base := strip (upper base) in
  let metric := strip (lower (if bool_decide (metric = ""%string) then "bps"%string else metric)) in
  let mode := strip (if bool_decide (mode = ""%string) then default_mode else mode) in
  win_s ← _parse_window_s window;
  let cutoff_ms := now_ms - win_s * 1000 in
  let points :=
    match SPREAD_SERIES app !! (base, mode) with
    | Some dq => select_points cutoff_ms metric (items dq)
    | None => []
    end in
  Some {|
    resp_base := base; resp_metric := metric; resp_mode := mode;
    resp_window := window;
    count := length points;
    points := points;
    latest := last points
  |}.

End main_requests.

(** ** app/feeds/lighter_ws.py: the message handler and the shared state *)

(** A decoded JSON document, as [json.loads] returns it.  An object is given
    by its members in the order of the text. *)
#[warnings="-register-all"]
Inductive json : Type :=
| JNull
| JBool (b : bool)
| JInt (z : Z)
| JFloat (f : float)
| JStr (s : string)
| JList (l : list json)
| JDict (members : list (string * json)).

(** The value as the code below a container sees it. *)
Definition val_of (j : json) : pyval :=
  match j with
  | JNull => PNone
  | JBool b => PBool b
  | JInt z => PInt z
  | JFloat f => PFloat f
  | JStr s => PStr s
  | JList l => POther (match l with [] => false | _ => true end)
  | JDict members => POther (match members with [] => false | _ => true end)
  end.

(** The dict built from the members of an object, in insertion order: a name
    that comes again keeps its place and takes the later value. *)
Definition dict_of (members : list (string * json)) : list (string * json) :=
  foldl (fun d kv => alist_set kv.1 kv.2 d) [] members.

(** The same for an object whose values are only looked at as values. *)
Definition entry_of (members : list (string * json)) : gmap string pyval :=
  foldl (fun d kv => <[kv.1 := val_of kv.2]> d) ∅ members.

(** [d.get(k)] *)
Definition jget (d : list (string * json)) (k : string) : json :=
  default JNull (alist_get k d).

(** [a or b] *)
Definition jor (a b : json) : json := if truthy_val (val_of a) then a else b.

(** [j == s] for a string [s]. *)
Definition is_str (j : json) (s : string) : bool :=
  match j with
  | JStr s' => bool_decide (s' = s)
  | _ => false
  end.

(** [x in s] for two strings. *)
Definition substring_of (x s : string) : bool :=
  match String.index 0 x s with
  | Some _ => true
  | None => false
  end.

(** [x in c] for a string [x]: a substring of a string, a member of a list,
    a key of a dict; [None] when [c] is not iterable and the test raises
    [TypeError]. *)
Definition contains (x : string) (c : json) : option bool :=
  match c with
  | JStr s => Some (substring_of x s)
  | JList l => Some (existsb (fun j => is_str j x) l)
  | JDict members =>
      Some (match alist_get x (dict_of members) with
            | Some _ => true
            | None => false
            end)
  | _ => None
  end.

(** The calls that [_handle_message] awaits on [STATE], with their
    arguments. *)
Inductive call : Type :=
| Set_session (sid : json)
| Set_error (err : option string)
| Update_market (market_id : Z) (stats : gmap string pyval).

Section handler.
Context `{Builtins}.
(** [int(s)] for a string; [None] when it raises [ValueError]. *)
Variable int_of_str : string -> option Z.

(** [int(x)] for a value that is not [None]; [None] when it raises. *)
Definition py_int_of (x : pyval) : option Z :=
  match x with
  | PNone => None
  | PBool b => Some (if b then 1 else 0)
  | PInt z => Some z
  | PFloat f => int_of_float f
  | PStr s => int_of_str s
  | POther _ => None
  end.

(** The market id of an item: that of the entry if it carries one, else its
    key; [None] when the conversion raises. *)
Definition item_market_id (k : string) (v : gmap string pyval) : option Z :=
  match dict_get v "market_id" with
  | PNone => int_of_str k
  | mid => py_int_of mid
  end.

(** The body of the [for] loop of [_handle_message]: the call it ends with,
    or [None] when the item is passed over. *)
Definition handle_item (k : string) (v : json) : option call :=
  match v with
  | JDict members =>
      let v := entry_of members in
      mid ← item_market_id k v;
      let symbol := dict_get v "symbol" in
      let index_price :=
        _to_float (or_val (dict_get v "index_price") (dict_get v "indexPrice")) in
      let mark_price :=
        _to_float (or_val (dict_get v "mark_price") (dict_get v "markPrice")) in
      let '(bid, ask) := _pick_best_bid_ask v in
      let vol :=
        _to_float
          (or_val (or_val (or_val (dict_get v "daily_quote_volume")
                                  (dict_get v "dailyQuoteVolume"))
                          (dict_get v "quote_volume_24h"))
                  (dict_get v "quoteVolume24h")) in
      let out : gmap string pyval :=
        <["symbol"%string := symbol]>
        (<["market_id"%string := PInt mid]>
        (<["index_price"%string := of_opt index_price]>
        (<["mark_price"%string := of_opt mark_price]>
        (<["best_bid"%string := of_opt bid]>
        (<["best_ask"%string := of_opt ask]>
        (<["daily_quote_volume"%string := of_opt vol]> ∅)))))) in
      Some (Update_market mid out)
  | _ => None
  end.

(** [msg] is [None] when [json.loads] raised; the result is [None] when an
    exception leaves the handler. *)
Definition _handle_message (msg : option json) : option (list call) :=
  match msg with
  | None => Some []
  | Some (JDict members) =>
      let msg := dict_of members in
      if is_str (jget msg "type") "connected" then
        Some [Set_session (jget msg "session_id"); Set_error None]
      else
        let channel := jor (jget msg "channel") (JStr "") in
        in_channel ← contains "market_stats" channel;
        if negb in_channel then Some []
        else
          match jget msg "market_stats" with
          | JDict market_stats =>
              Some (omap (fun kv : string * json => handle_item kv.1 kv.2)
                      (dict_of market_stats))
          | _ => Some []
          end
  | Some _ => Some []
  end.

End handler.

(** The methods of [LighterWSState]. *)
Module WSState.

(** [LighterWSState()] *)
Definition new : LighterWSState := {|
  session_id := None; last_error := None; last_message_ts := None;
  market_stats := []; markets_seen := ∅
|}.

Definition set_error (err : option string) (st : LighterWSState)
  : LighterWSState := {|
  session_id := session_id st; last_error := err;
  last_message_ts := last_message_ts st;
  market_stats := market_stats st; markets_seen := markets_seen st
|}.

Definition set_session (sid : option string) (st : LighterWSState)
  : LighterWSState := {|
  session_id := sid; last_error := last_error st;
  last_message_ts := last_message_ts st;
  market_stats := market_stats st; markets_seen := markets_seen st
|}.

(** [now] is the reading of [time.time()]. *)
Definition update_market (now : float) (market_id : Z) (stats : gmap string pyval)
  (st : LighterWSState) : LighterWSState := {|
  session_id := session_id st; last_error := last_error st;
  last_message_ts := Some now;
  market_stats := alist_set market_id stats (market_stats st);
  markets_seen := {[ market_id ]} ∪ markets_seen st
|}.

(** The dict returned by [snapshot]. *)
Record Snapshot : Type := {
  snap_session_id : option string;
  snap_last_error : option string;
  snap_last_message_ts : option float;
  market_stats_keys : nat;
  snap_markets_seen : nat
}.

Definition snapshot (st : LighterWSState) : Snapshot := {|
  snap_session_id := session_id st;
  snap_last_error := last_error st;
  snap_last_message_ts := last_message_ts st;
  market_stats_keys := length (market_stats st);
  snap_markets_seen := size (markets_seen st)
|}.

End WSState.

(** A call of one of the three methods that write the state, with arguments
    of the types the methods declare. *)
Inductive method : Type :=
| Call_set_error (err : option string)
| Call_set_session (sid : option string)
| Call_update_market (now : float) (market_id : Z) (stats : gmap string pyval).

Definition run_method (st : LighterWSState) (c : method) : LighterWSState :=
  match c with
  | Call_set_error err => WSState.set_error err st
  | Call_set_session sid => WSState.set_session sid st
  | Call_update_market now market_id stats =>
      WSState.update_market now market_id stats st
  end.

(** The updates among the calls, by market id, the latest first. *)
Definition updates_of (calls : list method) : list (Z * gmap string pyval) :=
  rev (omap (fun c => match c with
                      | Call_update_market _ market_id stats => Some (market_id, stats)
                      | _ => None
                      end) calls).

(** The keys of an entry that the handler writes. *)
Definition entry_keys : list string :=
  ["symbol"; "market_id"; "index_price"; "mark_price"; "best_bid"; "best_ask";
   "daily_quote_volume"]%string.

(** ** Sorting with a key *)

(** [list.sort] and [sorted] are stable and only ask whether one item is
    less than another.  The model is the stable insertion sort: an item goes
    in front of the first item of the sorted rest that is not less than it.
    When [lt] compares the items as a strict weak order, every stable sort
    gives this list. *)
Fixpoint insert_by {A : Type} (lt : A -> A -> bool) (x : A) (l : list A) : list A :=
  match l with
  | [] => [x]
  | y :: l' => if lt y x then y :: insert_by lt x l' else x :: l
  end.

Definition sort_by {A : Type} (lt : A -> A -> bool) (l : list A) : list A :=
  foldr (insert_by lt) [] l.

(** [-x] *)
Definition neg (a : float) : float :=
  match a with
  | Fin x => Fin (- x)
  | NaN => NaN
  end.

(** [a == b] on floats. *)
Definition float_eqb (a b : float) : bool :=
  match a, b with
  | Fin x, Fin y => Qeq_bool x y
  | _, _ => false
  end.

(** [(a1, i1) < (a2, i2)] on tuples of a float and an int: the first
    components decide unless they are equal. *)
Definition lt_key (k1 k2 : float * Z) : bool :=
  if float_eqb k1.1 k2.1 then k1.2 <? k2.2 else PyFloat.lt k1.1 k2.1.

(** ** app/main.py: the rows of the most traded markets *)

(** A row of [_pick_ws_rows]. *)
Record WsRow : Type := {
  ws_base : string;
  lighter_market_id : Z;
  lighter_best_bid : option float;
  lighter_best_ask : option float;
  lighter_mark_price : option float;
  lighter_daily_quote_volume : option float
}.

(** The sort key [sk] of [_pick_ws_rows]. *)
Definition sk (r : WsRow) : float * Z :=
  let vol_key := default (Fin (-1)) (lighter_daily_quote_volume r) in
  (neg vol_key, lighter_market_id r).

Section ws_rows.
Context `{Builtins}.
Variable int_of_str : string -> option Z.

(** The row of an entry [v] under the key [k]; [None] at the outside when
    the entry has no symbol and is passed over, at the inside when [int]
    raises. *)
Definition ws_row (k : Z) (v : gmap string pyval) : option (option WsRow) :=
  let base := strip (upper (py_str (or_val (dict_get v "symbol") (PStr "")))) in
  if bool_decide (base = ""%string) then None
  else
    let given := default (PInt k) (v !! "market_id"%string) in
    Some (market_id ← match _to_f given with
                      | Some _ => py_int_of int_of_str given
                      | None => Some k
                      end;
          Some {|
            ws_base := base;
            lighter_market_id := market_id;
            lighter_best_bid := _to_f (dict_get v "best_bid");
            lighter_best_ask := _to_f (dict_get v "best_ask");
            lighter_mark_price :=
              _to_f (or_val (dict_get v "mark_price") (dict_get v "index_price"));
            lighter_daily_quote_volume := _to_f (dict_get v "daily_quote_volume")
          |}).

(** [None] when an exception leaves the function. *)
Definition _pick_ws_rows (app : App) (top_n : Z) : option (list WsRow) :=
  rows ← mapM id (omap (fun kv : Z * gmap string pyval => ws_row kv.1 kv.2)
                    (_get_ws_market_stats app));
  let rows := sort_by (fun r1 r2 => lt_key (sk r1) (sk r2)) rows in
  Some (take (Z.to_nat (Z.max 0 (Z.min top_n 200))) rows).

End ws_rows.

(** ** app/feeds/var_playwright.py: the bases to poll *)

(** [s.startswith(p)] and [s.endswith(p)] *)
Definition startswith (s p : string) : bool :=
  bool_decide (take (String.length p) (list_ascii_of_string s)
               = list_ascii_of_string p).

Definition endswith_str (s p : string) : bool :=
  bool_decide (take (String.length p) (rev (list_ascii_of_string s))
               = rev (list_ascii_of_string p)).

Definition _is_crypto_symbol (base : string) : bool :=
  let b := upper base in
  if startswith b "USD" && bool_decide (String.length b = 6%nat) then false
  else if endswith_str b "USD" && bool_decide (String.length b = 6%nat) then false
  else true.

(** [l[:n]] *)
Definition py_take {A : Type} (n : Z) (l : list A) : list A :=
  if 0 <=? n then take (Z.to_nat n) l
  else take (length l - Z.to_nat (- n)) l.

(** The list [rows] of [_top_bases_from_lighter] before it is sorted:
    [markets] is [STATE.markets]. *)
Definition volume_rows (markets : list (string * Market)) : list (string * float) :=
  omap (fun bm : string * Market =>
          if negb (_is_crypto_symbol bm.1) then None
          else pair bm.1 <$> daily_quote_volume (stats bm.2)) markets.

(** [rows.sort(key=lambda x: x[1], reverse=True)]: a sort in reverse
    reverses the list, sorts it, and reverses the result, so that items with
    equal keys stay in their order. *)
Definition sort_rows (rows : list (string * float)) : list (string * float) :=
  rev (sort_by (fun r1 r2 : string * float => PyFloat.lt r1.2 r2.2) (rev rows)).

Definition _top_bases_from_lighter (markets : list (string * Market)) (limit : Z)
  : list string :=
  (py_take limit (sort_rows (volume_rows markets))).*1.

(** ** app/feeds/lighter_markets.py *)

(** [_CACHE] *)
Record MarketsCache : Type := {
  cache_ts : float;
  cache_data : option json
}.

Definition _CACHE : MarketsCache := {| cache_ts := Fin 0; cache_data := None |}.

Definition CACHE_TTL_SEC : float := PyFloat.of_Z 60.

(** [fetch_lighter_markets]: [now] is the reading of the clock and [response]
    what the request and its decoding give if they are made, [None] when any
    of them raises.  The result is the value returned, the cache afterwards
    and whether the request was made. *)
Definition fetch_lighter_markets (now : float) (response : option json)
  (cache : MarketsCache) : json * MarketsCache * bool :=
  let request :=
    match response with
    | Some (JList items) =>
        (JList items, {| cache_ts := now; cache_data := Some (JList items) |}, true)
    | _ => (JList [], cache, true)
    end in
  match cache_data cache with
  | Some data =>
      if PyFloat.lt (PyFloat.sub now (cache_ts cache)) CACHE_TTL_SEC
      then (data, cache, false)
      else request
  | None => request
  end.

(** Calls of [fetch_lighter_markets] one after the other: the values
    returned with whether a request was made, and the cache at the end. *)
Fixpoint fetch_calls (calls : list (float * option json)) (cache : MarketsCache)
  : list (json * bool) * MarketsCache :=
  match calls with
  | [] => ([], cache)
  | (now, response) :: calls' =>
      let '(r, cache', requested) := fetch_lighter_markets now response cache in
      let '(rs, cache'') := fetch_calls calls' cache' in
      ((r, requested) :: rs, cache'')
  end.

(** ** The statistics in the words of the specification *)

(** [quantile(sortedValues, q)]: the position is [(n-1)*q]; on an index the
    value there, otherwise the interpolation between the floor and the ceil
    index, weighted by the fractional part. *)
Definition quantile_ref (sortedValues : list Q) (q : Q) : Q :=
  let n := Z.of_nat (length sortedValues) in
  let position := (inject_Z (n - 1) * q)%Q in
  let value_at (i : Z) := nth (Z.to_nat i) sortedValues 0%Q in
  if Qeq_bool (inject_Z (Qfloor position)) position then
    value_at (Qfloor position)
  else
    let weight := (position - inject_Z (Qfloor position))%Q in
    (value_at (Qfloor position) * (1 - weight)
     + value_at (Qceiling position) * weight)%Q.

(** ** Runs of the engine on one market *)

(** What a tick finds: the two readings of the clock, and the book and quote
    as the feed and the quote provider left them. *)
Record tick : Type := {
  now_s : Z;
  now_trim : Z;
  tick_book : BookTop;
  tick_var : VarQuote
}.

(** The market after the ticks, with the log of the times and of the values
    that [cond] took. *)
Fixpoint engine_run (cfg : Settings) (ticks : list tick) (m : Market)
  : option (Market * list (Z * option bool)) :=
  match ticks with
  | [] => Some (m, [])
  | t :: ticks' =>
      r ← engine_market cfg (now_s t) (now_trim t)
            (set_inputs (tick_book t) (tick_var t) m);
      r' ← engine_run cfg ticks' r.1;
      Some (r'.1, (now_s t, r.2) :: r'.2)
  end.

(** The ticks of a log on which the condition was evaluated. *)
Definition evaluated (log : list (Z * option bool)) : list (Z * bool) :=
  omap (fun e : Z * option bool => pair e.1 <$> e.2) log.

(** ** The debounce in the words of the specification *)

Fixpoint leading_true (obs : list (Z * bool)) : list Z :=
  match obs with
  | (t, true) :: obs' => t :: leading_true obs'
  | _ => []
  end.

(** The times of the evaluations since the condition last became true: the
    longest final stretch of the observations on which it held. *)
Definition current_run (obs : list (Z * bool)) : list Z :=
  rev (leading_true (rev obs)).

(** [anomalyStartedAt] is the time of the first evaluation of the current
    stretch, and [anomalyActive] holds when some evaluation of the stretch
    came at least [persistSec] after it. *)
Definition anomaly_ref (persistSec : Z) (obs : list (Z * bool)) : bool * option Z :=
  match current_run obs with
  | [] => (false, None)
  | t0 :: _ =>
      (existsb (fun t => persistSec <=? t - t0) (current_run obs), Some t0)
  end.

(** The condition holding on [k] ticks, one second apart, from [t0] on. *)
Definition held (t0 : Z) (k : nat) : list (Z * bool) :=
  (fun i : nat => (t0 + Z.of_nat i, true)) <$> seq 0 k.

(** The condition holding on the ticks of [persistSec] consecutive seconds
    from [t0], an elapsed time of [persistSec - 1], and false one second
    later. *)
Definition held_then_cleared (t0 persistSec : Z) : list (Z * bool) :=
  held t0 (Z.to_nat persistSec) ++ [(t0 + persistSec, false)].

(** The two fields of the debounce. *)
Definition anomaly_state (m : Market) : bool * option Z :=
  (anomaly (computed m), anomaly_started_s (computed m)).

(** One more evaluation, in terms of the two fields before it. *)
Definition debounce_step (persistSec now : Z) (c : bool) (st : bool * option Z)
  : bool * option Z :=
  if c then
    let t0 := default now st.2 in (st.1 || (persistSec <=? now - t0), Some t0)
  else (false, None).

(** A tick on which both venues quote 100, and one on which the secondary
    venue quotes 101, a spread of 100 bps. *)
Definition quiet_tick (t : Z) : tick := {|
  now_s := t; now_trim := t;
  tick_book := {| best_ask := Some (Fin 100); best_bid := None |};
  tick_var := {| buy_1500 := Some (Fin 100); var_ts_ms := 0 |}
|}.

Definition wide_tick (t : Z) : tick := {|
  now_s := t; now_trim := t;
  tick_book := {| best_ask := Some (Fin 100); best_bid := None |};
  tick_var := {| buy_1500 := Some (Fin 101); var_ts_ms := 0 |}
|}.

(** A tick on which the feed has no best ask. *)
Definition blind_tick (t : Z) : tick := {|
  now_s := t; now_trim := t;
  tick_book := {| best_ask := None; best_bid := None |};
  tick_var := {| buy_1500 := Some (Fin 101); var_ts_ms := 0 |}
|}.

(** A market after twenty quiet ticks, at the seconds 1 to 20: the baseline
    is defined, with median and inter-quartile range zero. *)
Definition warm_market : Market :=
  match engine_run settings (quiet_tick <$> seqZ 1 20) (new_Market 1 "ETH" "ETH") with
  | Some r => r.1
  | None => new_Market 1 "ETH" "ETH"
  end.

(** A market that has seen nothing yet, as the first wide tick finds it. *)
Definition first_wide_market : Market :=
  set_inputs (tick_book (wide_tick 1)) (tick_var (wide_tick 1))
    (new_Market 1 "ETH" "ETH").

(** The settings with a baseline window of 10000 seconds. *)
Definition long_window : Settings := {|
  VAR_NOTIONAL_USD := VAR_NOTIONAL_USD settings;
  CONFIRM_NOTIONAL_USD := CONFIRM_NOTIONAL_USD settings;
  VAR_CONFIRM_COOLDOWN_SEC := VAR_CONFIRM_COOLDOWN_SEC settings;
  BASELINE_WINDOW_SEC := 10000;
  PERSIST_SEC := PERSIST_SEC settings;
  MIN_DELTA_BPS := MIN_DELTA_BPS settings
|}.

(** A market whose history is full: 7200 samples, of the seconds 1 to 7200,
    as a tick every second fills it under [long_window]; the next tick finds
    both venues at 100. *)
Definition full_market : Market :=
  set_inputs (tick_book (quiet_tick 7201)) (tick_var (quiet_tick 7201))
    (set_spread_bps_hist
       (Deque (Some 7200) ((fun t : Z => (t, Fin 0)) <$> seqZ 1 7200))
       (new_Market 1 "ETH" "ETH")).

(** The spread in bps that a tick computes for the market, if any. *)
Definition live_bps (m : Market) : option float :=
  match best_ask (book m), buy_1500 (var m) with
  | Some a, Some v =>
      if PyFloat.truthy a && PyFloat.truthy v
      then _calc_bps (PyFloat.sub v a) a else None
  | _, _ => None
  end.

(** The timestamps of a history never decrease and none lies after [now]. *)
Definition ordered_until (now : Z) (l : list (Z * float)) : Prop :=
  Sorted Z.le l.*1 /\ Forall (fun e : Z * float => e.1 <= now) l.

(** The same with timestamps that strictly increase, as when every tick
    comes at a later second than the one before. *)
Definition increasing_until (now : Z) (l : list (Z * float)) : Prop :=
  Sorted Z.lt l.*1 /\ Forall (fun e : Z * float => e.1 <= now) l.

(** ** The paths through the body of the engine loop *)

Definition quotes_present (m : Market) : bool :=
  truthy_opt (best_ask (book m)) && truthy_opt (buy_1500 (var m)).

Definition history_after (cfg : Settings) (now_s now_trim : Z) (bps : float)
  (m : Market) : deque (Z * float) :=
  _trim_hist now_trim (deque_append (spread_bps_hist m) (now_s, bps))
    (BASELINE_WINDOW_SEC cfg).

Definition history_values (h : deque (Z * float)) : list (option float) :=
  Some <$> (snd <$> items h).

Inductive engine_case (cfg : Settings) (now_s now_trim : Z) (m : Market)
  : Market -> option bool -> Prop :=
| no_quotes :
    quotes_present m = false ->
    engine_case cfg now_s now_trim m m None
| no_bps (a v : float) :
    best_ask (book m) = Some a -> buy_1500 (var m) = Some v ->
    quotes_present m = true ->
    _calc_bps (PyFloat.sub v a) a = None ->
    engine_case cfg now_s now_trim m
      (set_computed (set_spread (Some (PyFloat.sub v a)) None (computed m)) m)
      None
| no_baseline (a v bps : float) :
    best_ask (book m) = Some a -> buy_1500 (var m) = Some v ->
    quotes_present m = true ->
    _calc_bps (PyFloat.sub v a) a = Some bps ->
    (length (Stats.clean (history_values (history_after cfg now_s now_trim bps m)))
     < 20)%nat ->
    engine_case cfg now_s now_trim m
      (set_computed
         (set_baseline None None
            (set_spread (Some (PyFloat.sub v a)) (Some bps) (computed m)))
         (set_spread_bps_hist (history_after cfg now_s now_trim bps m) m))
      None
| cond_evaluated (a v bps : float) (med iqr : Q) :
    best_ask (book m) = Some a -> buy_1500 (var m) = Some v ->
    quotes_present m = true ->
    _calc_bps (PyFloat.sub v a) a = Some bps ->
    (20 <= length (Stats.clean (history_values (history_after cfg now_s now_trim bps m))))%nat ->
    Stats.median_iqr (history_values (history_after cfg now_s now_trim bps m))
    = Some (Some (Fin med), Some (Fin iqr)) ->
    let dev := PyFloat.sub bps (Fin med) in
    let delta := PyFloat.max (MIN_DELTA_BPS cfg) (PyFloat.mul (Fin 2) (Fin iqr)) in
    let cond := PyFloat.ge (PyFloat.abs dev) delta in
    engine_case cfg now_s now_trim m
      (set_computed
         (debounce cfg now_s cond
            (set_deviation_bps (Some dev)
               (set_baseline (Some (Fin med)) (Some (Fin iqr))
                  (set_spread (Some (PyFloat.sub v a)) (Some bps) (computed m)))))
         (set_spread_bps_hist (history_after cfg now_s now_trim bps m) m))
      (Some cond).

(** ** The deviation condition in the words of the specification *)

(** Step 4 of the tick.  With the baseline defined,
    [deviation = spreadBps - median], [threshold = max(minDeltaBps, 2 × iqr)]
    and [condition = |deviation| ≥ threshold]; without it there is no
    condition. *)
Definition deviation_condition (minDeltaBps spreadBps : float)
  (baseline : option float * option float) : option bool :=
  match baseline with
  | (Some median, Some iqr) =>
      let deviation := PyFloat.sub spreadBps median in
      let threshold := PyFloat.max minDeltaBps (PyFloat.mul (Fin 2) iqr) in
      Some (PyFloat.ge (PyFloat.abs deviation) threshold)
  | _ => None
  end.

(** Step 2: the history that a tick leaves, from the quotes and the history
    that it finds. *)
Definition tick_history (cfg : Settings) (now_s now_trim : Z) (m : Market)
  : deque (Z * float) :=
  match live_bps m with
  | Some bps => history_after cfg now_s now_trim bps m
  | None => spread_bps_hist m
  end.

(** The condition of a tick, from the quotes, the history and the settings:
    that of the live spread against the baseline of the history with the
    sample of the tick in it; [None] when the tick has no spread in bps or
    no baseline. *)
Definition tick_condition (cfg : Settings) (now_s now_trim : Z) (m : Market)
  : option bool :=
  bps ← live_bps m;
  baseline ← Stats.median_iqr (history_values (history_after cfg now_s now_trim bps m));
  deviation_condition (MIN_DELTA_BPS cfg) bps baseline.

(** The conditions of the ticks of a run, each from the quotes that the tick
    finds and the history that the ticks before it left. *)
Fixpoint run_conditions (cfg : Settings) (ticks : list tick)
  (hist : deque (Z * float)) (m : Market) : list (Z * option bool) :=
  match ticks with
  | [] => []
  | t :: ticks' =>
      let found :=
        set_spread_bps_hist hist (set_inputs (tick_book t) (tick_var t) m) in
      (now_s t, tick_condition cfg (now_s t) (now_trim t) found)
      :: run_conditions cfg ticks'
           (tick_history cfg (now_s t) (now_trim t) found) m
  end.

(** ** Runs of the confirmation executor on one market *)

(** What a tick of the executor finds: the clock in seconds and in
    milliseconds, the anomaly flag as the engine left it, and what the two
    quote sources answer if they are asked. *)
Record confirm_tick : Type := {
  at_s : Z;
  at_ms : Z;
  flag : bool;
  var_answer : outcome;
  vwap_answer : outcome
}.

Definition confirm_step (cfg : Settings) (b : string) (m : Market) (t : confirm_tick)
  : Market * confirm_event :=
  confirm_market cfg (at_s t) (at_ms t)
    (fun _ _ => var_answer t) (fun _ _ => vwap_answer t) b
    (set_computed (set_anomaly (flag t) (computed m)) m).

Fixpoint confirm_run (cfg : Settings) (b : string) (ticks : list confirm_tick)
  (m : Market) : Market * list (Z * confirm_event) :=
  match ticks with
  | [] => (m, [])
  | t :: ticks' =>
      let r := confirm_step cfg b m t in
      let r' := confirm_run cfg b ticks' r.1 in
      (r'.1, (at_s t, r.2) :: r'.2)
  end.

(** The times of the confirmations that completed. *)
Definition confirmed_at (log : list (Z * confirm_event)) : list Z :=
  omap (fun e : Z * confirm_event =>
          match e.2 with
          | Confirmed => Some e.1
          | _ => None
          end) log.

(** Each time is at least [cooldown] after the one before it, the first
    being counted from [prev] when there is one. *)
Fixpoint spaced (cooldown : Q) (prev : option Z) (times : list Z) : Prop :=
  match times with
  | [] => True
  | t :: times' =>
      match prev with
      | Some p => (cooldown <= inject_Z (t - p))%Q
      | None => True
      end
      /\ spaced cooldown (Some t) times'
  end.

(** Five ticks of the executor on a market whose flag stays raised. *)
Definition retry_ticks : list confirm_tick :=
  [ {| at_s := 100; at_ms := 100000; flag := true;
       var_answer := Returned None; vwap_answer := Returned (Some (Fin 100)) |};
    {| at_s := 101; at_ms := 101000; flag := true;
       var_answer := Returned (Some (Fin 101));
       vwap_answer := Returned (Some (Fin 100)) |};
    {| at_s := 130; at_ms := 130000; flag := true;
       var_answer := Returned (Some (Fin 102));
       vwap_answer := Returned (Some (Fin 100)) |};
    {| at_s := 131; at_ms := 131000; flag := true;
       var_answer := Returned (Some (Fin 102)); vwap_answer := Raised |};
    {| at_s := 132; at_ms := 132000; flag := true;
       var_answer := Returned (Some (Fin 102));
       vwap_answer := Returned (Some (Fin 100)) |} ].

(** Whether the executor goes on to ask for quotes. *)
Definition due (cfg : Settings) (now : Z) (c : Computed) : bool :=
  anomaly c
  && negb match last_confirm_s c with
          | Some last =>
              negb (last =? 0)
              && PyFloat.lt (PyFloat.of_Z (now - last)) (VAR_CONFIRM_COOLDOWN_SEC cfg)
          | None => false
          end.

(** The record a confirmation writes, from the two prices. *)
Definition fresh_ConfirmInfo (cfg : Settings) (now_ms : Z) (vb vw : float)
  : ConfirmInfo := {|
  notional := CONFIRM_NOTIONAL_USD cfg;
  var_buy := Some vb;
  lighter_vwap_ask := Some vw;
  spread_usd_exec := Some (PyFloat.sub vb vw);
  spread_bps_exec := _calc_bps (PyFloat.sub vb vw) vw;
  ts_ms := now_ms
|}.

(** The warm market with the flag raised, as the executor finds it. *)
Definition anomalous_market : Market :=
  set_computed (set_anomaly true (computed warm_market)) warm_market.

(** ** The reconnect delays in the words of the specification *)

(** [backoff = min(backoff * 1.6, 15.0)] *)
Definition next_backoff (b : float) : float :=
  PyFloat.min (PyFloat.mul b (Fin (16 # 10))) (Fin 15).

(** The [n] delays that start with [b], each got from the one before. *)
Fixpoint delays (b : float) (n : nat) : list float :=
  match n with
  | O => []
  | S n' => b :: delays (next_backoff b) n'
  end.

(** [1.6] to the power [i]. *)
Fixpoint growth (i : nat) : Q :=
  match i with
  | O => 1
  | S j => growth j * (16 # 10)
  end.

(** The same recurrence in binary64 arithmetic, to measure what the exact
    model of floats leaves out. *)
Module Binary64.
Import PrimFloat.

Definition next_backoff (b : float) : float :=
  let x := (b * 0x1.999999999999ap+0)%float in
  if (15 <? x)%float then 15%float else x.

Fixpoint delays (b : float) (n : nat) : list float :=
  match n with
  | O => []
  | S n' => b :: delays (next_backoff b) n'
  end.

(** The first eight delays of consecutive failures. *)
Definition first_delays : list float := delays 1%float 8.

(** [|x - y| < 2^-46], about [1.4e-14]. *)
Definition close_to (x y : float) : bool := (abs (x - y) <? 0x1p-46)%float.

(** The doubles nearest to 1.0, 1.6, 2.56, 4.096, 6.5536, 10.48576, 15.0
    and 15.0. *)
Definition decimals : list float :=
  [1; 0x1.999999999999ap+0; 0x1.47ae147ae147bp+1; 0x1.0624dd2f1a9fcp+2;
   0x1.a36e2eb1c432dp+2; 0x1.4f8b588e368f1p+3; 15; 15]%float.

End Binary64.

(** ** Payloads and states used in the examples *)

(** An interpreter whose [float] rejects every string; the examples convert
    none. *)
Definition no_builtins : Builtins := {|
  float_of_str := fun _ => None;
  str_of := fun _ => ""%string
|}.

(** An interpreter whose [float] reads strings of decimal digits and
    rejects the others. *)
Fixpoint digits_value (acc : Z) (l : list ascii) : option Z :=
  match l with
  | [] => Some acc
  | c :: l' =>
      let n := Z.of_nat (nat_of_ascii c) in
      if (48 <=? n) && (n <=? 57) then digits_value (10 * acc + (n - 48)) l'
      else None
  end.

Definition digits_builtins : Builtins := {|
  float_of_str := fun s =>
    match list_ascii_of_string s with
    | [] => None
    | l => PyFloat.of_Z <$> digits_value 0 l
    end;
  str_of := fun _ => ""%string
|}.

(** An application that samples every 7200 seconds, so that [MAX_POINTS] is
    51, after 52 pushes for ETH at the seconds 1 to 52. *)
Definition slow_app : App := {|
  SAMPLE_EVERY_S := 7200;
  LIGHTER_STATE := None;
  VAR_BATCH := [];
  ACTIVE_BASES := ∅;
  SPREAD_SERIES := ∅
|}.

Definition pushed_app : App :=
  foldl (fun (app : App) (t : Z) =>
           _push_point app (t * 1000) "eth" ""
             (Some (Fin 1)) (Some (PyFloat.of_Z t)))
        slow_app (seqZ 1 52).

(** A market entry that carries an index price and nothing else. *)
Definition index_only : gmap string pyval :=
  {[ "index_price"%string := PFloat (Fin 100) ]}.

(** The numbers 1 to 20 in some disorder, and the same with an undefined
    and a not-a-number entry in place of two of them. *)
Definition twenty_values : list (option float) :=
  (fun z : Z => Some (PyFloat.of_Z z))
  <$> [11; 3; 20; 7; 1; 15; 9; 18; 5; 13; 2; 16; 10; 4; 19; 8; 12; 6; 17; 14].

Definition eighteen_values : list (option float) :=
  None :: Some NaN :: drop 2 twenty_values.

(** An application whose feed has seen ETH at a mark price of 200. *)
Definition eth_at_200 : App := {|
  SAMPLE_EVERY_S := 2;
  LIGHTER_STATE := Some {|
    session_id := Some "s1"%string;
    last_error := None;
    last_message_ts := None;
    market_stats :=
      [(1, <["symbol"%string := PStr "ETH"]>
           (<["mark_price"%string := PFloat (Fin 200)]> ∅))];
    markets_seen := {[ 1 ]}
  |};
  VAR_BATCH := [];
  ACTIVE_BASES := ∅;
  SPREAD_SERIES := ∅
|}.

(** The state of [app.main] at start-up, before the feed is attached. *)
Definition new_App : App := {|
  SAMPLE_EVERY_S := 2;
  LIGHTER_STATE := None;
  VAR_BATCH := [];
  ACTIVE_BASES := ∅;
  SPREAD_SERIES := ∅
|}.

(** [{base: "eth", notional_usd: 1499.6, bid: 101, ask: 100}] *)
Definition eth_quote : gmap string pyval :=
  <["base"%string := PStr "eth"]>
  (<["notional_usd"%string := PFloat (Fin (14996 # 10))]>
  (<["bid"%string := PInt 101]>
  (<["ask"%string := PInt 100]> ∅))).

(** The parts of [ingest_var_batch] that the statements about it name. *)
Section quote_parts.
Context `{Builtins}.

Definition quote_base (q : gmap string pyval) : string :=
  strip (upper (py_str (or_val (dict_get q "base") (PStr "")))).

Definition quote_notional (q : gmap string pyval) : pyval :=
  or_val (or_val (dict_get q "notional_usd") (dict_get q "notional")) (PInt 0).

(** The price on the primary venue that a quote is checked against. *)
Definition reference_price (app : App) (base : string) : option float :=
  let lp := _get_lighter_price app base in
  or_opt (or_opt (lp_mark lp) (lp_bid lp)) (lp_ask lp).

End quote_parts.

(** The dict stored in [VAR_BATCH]. *)
Definition var_entry (now_ms : Z) (base : string) (notional_int : Z)
  (bid ask : float) (mid qty_used : option float) : gmap string pyval :=
  <["ts_ms"%string := PInt now_ms]>
  (<["base"%string := PStr base]>
  (<["notional_int"%string := PInt notional_int]>
  (<["bid"%string := PFloat bid]>
  (<["ask"%string := PFloat ask]>
  (<["mid"%string := of_opt mid]>
  (<["qty_used"%string := of_opt qty_used]> ∅)))))).

(** The value charted for a sample under [metric]. *)
Definition charted (metric : string) (p : Z * float * float) : Z * float :=
  (p.1.1, if bool_decide (metric = "bps"%string) then p.2 else p.1.2).

(** The key of the series that [_push_point] addresses. *)
Definition series_key (base mode : string) : string * string :=
  (strip (upper base),
   if bool_decide (strip mode = ""%string) then default_mode else strip mode).

(** The key that [chart_series] addresses: the default mode stands in for an
    empty one before the trimming, not after it as in [_push_point]. *)
Definition query_key (base mode : string) : string * string :=
  (strip (upper base),
   strip (if bool_decide (mode = ""%string) then default_mode else mode)).

(** A buffer as [_push_point] creates it. *)
Definition new_series (app : App) : deque (Z * float * float) :=
  Deque (Some (MAX_POINTS (SAMPLE_EVERY_S app))) [].

(** The test of [ingest_var_batch] against the reference price [ref]. *)
Definition off_mark (ref : option float) (bid ask : float) : bool :=
  match ref with
  | Some r =>
      PyFloat.truthy r
      && PyFloat.gt
           (PyFloat.div
              (PyFloat.abs
                 (PyFloat.sub (PyFloat.div (PyFloat.add ask bid) (Fin 2)) r))
              r)
           (Fin (5 # 100))
  | None => false
  end.

(** The first value of [d] under one of [keys], in their order, that is
    present and not [None]. *)
Definition first_present (d : gmap string pyval) (keys : list string)
  : option pyval :=
  head (omap (fun k : string =>
                match d !! k with
                | Some PNone | None => None
                | Some v => Some v
                end) keys).

(** How many entries of [l] have the value [v]. *)
Fixpoint occurrences (v : Q) (l : list Q) : nat :=
  match l with
  | [] => 0
  | x :: l' => (if Qeq_bool v x then 1 else 0) + occurrences v l'
  end.

(** An entry that [median_iqr] keeps: neither [None] nor not-a-number. *)
Definition is_number (v : option float) : Prop :=
  match v with
  | Some (Fin _) => True
  | _ => False
  end.

#[global] Instance is_number_dec (v : option float) : Decision (is_number v).
Proof. destruct v as [[x |] |]; simpl; apply _. Defined.

(** ** Further notions used in the statements *)

(** A reconnect delay within its bounds. *)
Definition delay_in_range (d : float) : Prop :=
  match d with
  | Fin x => (1 <= x)%Q /\ (x <= 15)%Q
  | NaN => False
  end.

(** The entry [q] is the first of those of [b] in [l] whose notional is
    nearest to [n]. *)
Definition first_nearest (b : string) (n : Z)
  (l : list ((string * Z) * gmap string pyval)) (q : gmap string pyval) : Prop :=
  exists (pre post : list ((string * Z) * gmap string pyval)) (n' : Z),
    l = pre ++ ((b, n'), q) :: post
    /\ Forall (fun e => e.1.1 = b -> Z.abs (n' - n) < Z.abs (e.1.2 - n)) pre
    /\ Forall (fun e => e.1.1 = b -> Z.abs (n' - n) <= Z.abs (e.1.2 - n)) post.

(** The state [app'] holds what [app] held: the same feed and sampling
    period, and every active base, quote key and series key of [app]. *)
Definition extends (app app' : App) : Prop :=
  SAMPLE_EVERY_S app' = SAMPLE_EVERY_S app
  /\ LIGHTER_STATE app' = LIGHTER_STATE app
  /\ ACTIVE_BASES app ⊆ ACTIVE_BASES app'
  /\ (forall k : string * Z,
         is_Some (alist_get k (VAR_BATCH app)) ->
         is_Some (alist_get k (VAR_BATCH app')))
  /\ (forall k : string * string,
         is_Some (SPREAD_SERIES app !! k) -> is_Some (SPREAD_SERIES app' !! k)).

(** [int] reading strings of decimal digits and rejecting the others. *)
Definition digits_int (s : string) : option Z :=
  match list_ascii_of_string s with
  | [] => None
  | l => digits_value 0 l
  end.

(** An item of a market-stats message: ETH with a bid, an ask under its
    second name, a mark price under its second name and an index price. *)
Definition eth_item : list (string * json) :=
  [("symbol", JStr "ETH"); ("best_bid", JInt 199); ("ask", JFloat (Fin 201));
   ("markPrice", JInt 200); ("index_price", JInt 198)]%string.

(** What the handler stores for it under the key ["7"]. *)
Definition eth_entry : gmap string pyval :=
  <["symbol"%string := PStr "ETH"]>
  (<["market_id"%string := PInt 7]>
  (<["index_price"%string := PFloat (Fin 198)]>
  (<["mark_price"%string := PFloat (Fin 200)]>
  (<["best_bid"%string := PFloat (Fin 199)]>
  (<["best_ask"%string := PFloat (Fin 201)]>
  (<["daily_quote_volume"%string := PNone]> ∅)))))).

(** A market-stats message with that item, an item that is no object, and an
    item whose key is no number. *)
Definition stats_message : json :=
  JDict [("channel", JStr "market_stats:all");
         ("market_stats",
          JDict [("7", JDict eth_item); ("8", JStr "n/a");
                 ("x", JDict [("symbol", JStr "BTC")])])]%string.

(** An application whose feed has handled that message. *)
Definition eth_feed_app : App := {|
  SAMPLE_EVERY_S := 2;
  LIGHTER_STATE := Some (WSState.update_market (Fin 1) 7 eth_entry WSState.new);
  VAR_BATCH := [];
  ACTIVE_BASES := ∅;
  SPREAD_SERIES := ∅
|}.

(** A market whose flag is raised and whose last confirmation is stamped
    with second zero. *)
Definition epoch_confirmed_market : Market :=
  set_computed
    (set_confirmation (fresh_ConfirmInfo settings 0 (Fin 101) (Fin 100)) 0
       (computed anomalous_market))
    anomalous_market.

(** The two modes for which [ingest_var_batch] pushes chart points. *)
Definition pushed_modes : list string :=
  ["lighter_bid_minus_var_sell"; "lighter_ask_minus_var_buy"]%string.

(** The row [r1] comes before [r2] in the order of [_pick_ws_rows]: by
    volume, the larger first and a missing one counting as [-1], then by
    market id. *)
Definition ranks_before (r1 r2 : WsRow) : Prop :=
  match default (Fin (-1)) (lighter_daily_quote_volume r1),
        default (Fin (-1)) (lighter_daily_quote_volume r2) with
  | Fin x1, Fin x2 => (x2 < x1)%Q \/ ((x1 == x2)%Q /\ lighter_market_id r1 <= lighter_market_id r2)
  | _, _ => False
  end.

(** [r1] has at least the volume of [r2]. *)
Definition volume_ge (r1 r2 : string * float) : Prop :=
  match r1.2, r2.2 with
  | Fin a, Fin b => (b <= a)%Q
  | _, _ => False
  end.

(** A record for ETH within five percent of the mark price of the feed. *)
Definition eth_near_quote : gmap string pyval :=
  <["base"%string := PStr "eth"]>
  (<["notional_usd"%string := PInt 1500]>
  (<["bid"%string := PInt 198]>
  (<["ask"%string := PInt 202]> ∅))).

(** A cache filled at second ten. *)
Definition old_cache : MarketsCache :=
  {| cache_ts := Fin 10; cache_data := Some (JList [JNull]) |}.

(** ** Batch ingestion in the words of the specification *)



Section receipts.
Context `{Builtins}.





End receipts.


(** * Properties *)

(** ** Quantiles, median and inter-quartile range *)

Module StatsFacts.
Import Stats.

Lemma insert_Permutation (x : Q) (l : list Q) : Permutation (x :: l) (insert x l).
Proof.
  induction l as [| y l IH]; simpl.
  - reflexivity.
  - destruct (Qle_bool x y).
    + reflexivity.
    + rewrite perm_swap. apply perm_skip. exact IH.
Qed.

Lemma sorted_Permutation (l : list Q) : Permutation l (sorted l).
Proof.
  induction l as [| x l IH]; simpl.
  - reflexivity.
  - rewrite <- insert_Permutation. apply perm_skip. exact IH.
Qed.

Lemma sorted_length (l : list Q) : length (sorted l) = length l.
Proof. symmetry. apply Permutation_length, sorted_Permutation. Qed.

Lemma insert_HdRel (a x : Q) (l : list Q) :
  (a <= x)%Q -> HdRel Qle a l -> HdRel Qle a (insert x l).
Proof.
  intros Hax Hl. destruct l as [| y l]; simpl.
  - constructor. exact Hax.
  - destruct (Qle_bool x y); constructor.
    + exact Hax.
    + inversion Hl; subst. assumption.
Qed.

Lemma insert_Sorted (x : Q) (l : list Q) :
  Sorted Qle l -> Sorted Qle (insert x l).
Proof.
  induction l as [| y l IH]; simpl; intros Hs.
  - repeat constructor.
  - destruct (Qle_bool x y) eqn:Hxy.
    + constructor; [exact Hs |]. constructor. apply Qle_bool_iff. exact Hxy.
    + inversion Hs as [| ? ? Hs' Hhd]; subst.
      constructor; [apply IH; exact Hs' |].
      apply insert_HdRel; [| exact Hhd].
      apply Qlt_le_weak, Qnot_le_lt. intros Hle.
      apply Qle_bool_iff in Hle. congruence.
Qed.

Lemma sorted_Sorted (l : list Q) : Sorted Qle (sorted l).
Proof.
  induction l as [| x l IH]; simpl.
  - constructor.
  - apply insert_Sorted. exact IH.
Qed.

(** *** Indices and positions *)

Lemma py_index_nth {A : Type} (d : A) (l : list A) (i : Z) :
  0 <= i < Z.of_nat (length l) -> py_index l i = Some (nth (Z.to_nat i) l d).
Proof.
  intros [H0 Hn]. unfold py_index.
  destruct (Z.leb_spec 0 i) as [_ | Hneg]; [| lia].
  assert (Hlt : (Z.to_nat i < length l)%nat) by lia.
  destruct (lookup_lt_is_Some_2 l _ Hlt) as [x Hx].
  rewrite Hx. f_equal. rewrite nth_lookup, Hx. reflexivity.
Qed.

(** A position is either on an index, where floor and ceiling coincide, or
    strictly between two neighbouring indices. *)
Lemma floor_ceiling_cases (pos : Q) :
  ((inject_Z (Qfloor pos) == pos)%Q /\ Qceiling pos = Qfloor pos)
  \/ (~ (inject_Z (Qfloor pos) == pos)%Q
      /\ Qceiling pos = Qfloor pos + 1
      /\ (0 < pos - inject_Z (Qfloor pos) < 1)%Q).
Proof.
  destruct (Qeq_dec (inject_Z (Qfloor pos)) pos) as [Heq | Hne].
  - left. split; [exact Heq |].
    rewrite <- (Qceiling_comp _ _ Heq). apply Qceiling_Z.
  - right. split; [exact Hne |].
    pose proof (Qfloor_le pos) as Hfl.
    pose proof (Qlt_floor pos) as Hlt.
    pose proof (Qle_ceiling pos) as Hce.
    pose proof (Qceiling_lt pos) as Hcl.
    assert (Hstrict : (inject_Z (Qfloor pos) < pos)%Q).
    { apply Qle_lteq in Hfl. destruct Hfl as [Hfl | Hfl]; [exact Hfl | contradiction]. }
    assert (H1 : Qfloor pos < Qceiling pos).
    { rewrite Zlt_Qlt. eapply Qlt_le_trans; eassumption. }
    assert (H2 : Qceiling pos - 1 < Qfloor pos + 1).
    { rewrite Zlt_Qlt. eapply Qlt_trans; eassumption. }
    split; [lia |].
    rewrite inject_Z_plus in Hlt. change (inject_Z 1) with 1%Q in Hlt.
    split; lra.
Qed.

(** For [q] in [[0, 1]] both indices fall inside the list. *)
Lemma position_in_range (n : Z) (q : Q) :
  1 <= n -> (0 <= q)%Q -> (q <= 1)%Q ->
  0 <= Qfloor (inject_Z (n - 1) * q)
  /\ Qfloor (inject_Z (n - 1) * q) <= Qceiling (inject_Z (n - 1) * q)
  /\ Qceiling (inject_Z (n - 1) * q) <= n - 1.
Proof.
  intros Hn Hq0 Hq1.
  assert (Hn' : (0 <= inject_Z (n - 1))%Q).
  { change 0%Q with (inject_Z 0). rewrite <- Zle_Qle. lia. }
  assert (Hpos0 : (0 <= inject_Z (n - 1) * q)%Q) by (apply Qmult_le_0_compat; assumption).
  assert (Hpos1 : (inject_Z (n - 1) * q <= inject_Z (n - 1))%Q).
  { rewrite <- (Qmult_1_r (inject_Z (n - 1))) at 2.
    rewrite !(Qmult_comm (inject_Z (n - 1))).
    apply Qmult_le_compat_r; assumption. }
  split; [| split].
  - change 0 with (Qfloor (inject_Z 0)). apply Qfloor_resp_le. exact Hpos0.
  - rewrite Zle_Qle. apply Qle_floor_ceiling.
  - rewrite <- (Qceiling_Z (n - 1)) at 2. apply Qceiling_resp_le. exact Hpos1.
Qed.

(** The source function computes the quantile of the specification, and
    never raises, for a non-empty list and [q] in [[0, 1]]. *)
Lemma quantile_refines (vals : list Q) (q : Q) :
  (1 <= length vals)%nat -> (0 <= q)%Q -> (q <= 1)%Q ->
  _quantile vals q = Some (Fin (quantile_ref vals q)).
Proof.
  intros Hlen Hq0 Hq1.
  pose proof (position_in_range (Z.of_nat (length vals)) q ltac:(lia) Hq0 Hq1)
    as (Hlo & Hlohi & Hhi).
  unfold _quantile, quantile_ref.
  set (pos := (inject_Z (Z.of_nat (length vals) - 1) * q)%Q) in *.
  destruct (Z.eqb_spec (Z.of_nat (length vals)) 0) as [H0 | _]; [lia |].
  destruct (floor_ceiling_cases pos) as [[Heq Hce] | (Hne & Hce & Hw)].
  - apply Qeq_bool_iff in Heq as Hb. rewrite Hb.
    rewrite Hce, Z.eqb_refl.
    assert (Hidx : py_index vals (Qfloor pos)
                   = Some (nth (Z.to_nat (Qfloor pos)) vals 0%Q))
      by (apply py_index_nth; lia).
    destruct (Z.eqb_spec (Z.of_nat (length vals)) 1) as [H1 | _].
    + assert (Hfl : Qfloor pos = 0) by lia.
      rewrite Hfl in *. rewrite Hidx. reflexivity.
    + rewrite Hidx. reflexivity.
  - destruct (Qeq_bool (inject_Z (Qfloor pos)) pos) eqn:Hb.
    { apply Qeq_bool_iff in Hb. contradiction. }
    destruct (Z.eqb_spec (Z.of_nat (length vals)) 1) as [H1 | _]; [lia |].
    destruct (Z.eqb_spec (Qfloor pos) (Qceiling pos)) as [Hsame | _]; [lia |].
    rewrite (py_index_nth 0%Q vals (Qfloor pos)) by lia.
    rewrite (py_index_nth 0%Q vals (Qceiling pos)) by lia.
    reflexivity.
Qed.

(** *** An ascending arrangement is unique up to the value of its entries *)

Lemma occurrences_Permutation (v : Q) (l1 l2 : list Q) :
  Permutation l1 l2 -> occurrences v l1 = occurrences v l2.
Proof.
  induction 1; simpl; lia.
Qed.

Lemma occurrences_pos (v : Q) (l : list Q) :
  (0 < occurrences v l)%nat -> exists x, In x l /\ (v == x)%Q.
Proof.
  induction l as [| y l IH]; simpl; [lia |].
  destruct (Qeq_bool v y) eqn:Hvy.
  - intros _. exists y. split; [now left | now apply Qeq_bool_iff].
  - intros Hpos. destruct (IH Hpos) as (x & Hin & Hx).
    exists x. split; [now right | exact Hx].
Qed.

Lemma occurrences_head (x : Q) (l : list Q) : (0 < occurrences x (x :: l))%nat.
Proof.
  simpl. assert (Hxx : Qeq_bool x x = true) by (apply Qeq_bool_iff; reflexivity).
  rewrite Hxx. lia.
Qed.

Lemma Sorted_head_le (a : Q) (l : list Q) (x : Q) :
  Sorted Qle (a :: l) -> In x (a :: l) -> (a <= x)%Q.
Proof.
  intros Hs Hin.
  apply Sorted_StronglySorted in Hs; [| intros u v w; apply Qle_trans].
  inversion Hs as [| ? ? _ Hall]; subst.
  destruct Hin as [-> | Hin].
  - apply Qle_refl.
  - rewrite List.Forall_forall in Hall. apply Hall. exact Hin.
Qed.

Lemma Sorted_occurrences_unique (s1 : list Q) :
  forall s2 : list Q,
    Sorted Qle s1 -> Sorted Qle s2 ->
    (forall v, occurrences v s1 = occurrences v s2) ->
    Forall2 Qeq s1 s2.
Proof.
  induction s1 as [| a s1 IH]; intros s2 Hs1 Hs2 Hocc.
  - destruct s2 as [| b s2]; [constructor |].
    pose proof (occurrences_head b s2) as Hb. rewrite <- Hocc in Hb.
    simpl in Hb. lia.
  - destruct s2 as [| b s2].
    { pose proof (occurrences_head a s1) as Ha. rewrite Hocc in Ha.
      simpl in Ha. lia. }
    assert (Hab : (a == b)%Q).
    { apply Qle_antisym.
      - pose proof (occurrences_head b s2) as Hb. rewrite <- Hocc in Hb.
        destruct (occurrences_pos _ _ Hb) as (x & Hin & Hx).
        rewrite Hx. eapply Sorted_head_le; eassumption.
      - pose proof (occurrences_head a s1) as Ha. rewrite Hocc in Ha.
        destruct (occurrences_pos _ _ Ha) as (x & Hin & Hx).
        rewrite Hx. eapply Sorted_head_le; eassumption. }
    constructor; [exact Hab |].
    apply IH.
    + now inversion Hs1.
    + now inversion Hs2.
    + intros v. specialize (Hocc v). simpl in Hocc.
      assert (Heqb : Qeq_bool v a = Qeq_bool v b).
      { destruct (Qeq_bool v a) eqn:Ha, (Qeq_bool v b) eqn:Hb; try reflexivity.
        - apply Qeq_bool_iff in Ha. rewrite Hab in Ha.
          apply Qeq_bool_iff in Ha. congruence.
        - apply Qeq_bool_iff in Hb. rewrite <- Hab in Hb.
          apply Qeq_bool_iff in Hb. congruence. }
      rewrite Heqb in Hocc. lia.
Qed.

Lemma Sorted_Permutation_unique (s1 s2 : list Q) :
  Sorted Qle s1 -> Sorted Qle s2 -> Permutation s1 s2 -> Forall2 Qeq s1 s2.
Proof.
  intros Hs1 Hs2 Hp. apply Sorted_occurrences_unique; try assumption.
  intros v. apply occurrences_Permutation. exact Hp.
Qed.

Lemma Forall2_Qeq_nth (s1 s2 : list Q) (i : nat) :
  Forall2 Qeq s1 s2 -> (nth i s1 0 == nth i s2 0)%Q.
Proof.
  intros HF. revert i.
  induction HF as [| x y l1 l2 Hxy _ IH]; intros [| i]; simpl;
    try reflexivity; auto.
Qed.

(** The quantile depends on the values only. *)
Lemma quantile_ref_Qeq (s1 s2 : list Q) (q : Q) :
  Forall2 Qeq s1 s2 -> (quantile_ref s1 q == quantile_ref s2 q)%Q.
Proof.
  intros HF. unfold quantile_ref.
  rewrite <- (Forall2_length _ _ _ HF).
  set (pos := (inject_Z (Z.of_nat (length s1) - 1) * q)%Q).
  destruct (Qeq_bool (inject_Z (Qfloor pos)) pos).
  - apply Forall2_Qeq_nth. exact HF.
  - rewrite (Forall2_Qeq_nth s1 s2 (Z.to_nat (Qfloor pos)) HF).
    rewrite (Forall2_Qeq_nth s1 s2 (Z.to_nat (Qceiling pos)) HF).
    reflexivity.
Qed.

(** *** The two functions of [stats.py] *)

Lemma clean_filter (vals : list (option float)) :
  (fun x => Some (Fin x)) <$> clean vals = filter is_number vals.
Proof.
  unfold clean. induction vals as [| v vals IH]; [reflexivity |].
  destruct v as [[x |] |]; simpl.
  - rewrite filter_cons_True by exact I. simpl. f_equal. exact IH.
  - rewrite filter_cons_False by (intros []). exact IH.
  - rewrite filter_cons_False by (intros []). exact IH.
Qed.

Lemma median_iqr_unfold (vals : list (option float)) :
  median_iqr vals =
  if (length (clean vals) <? 20)%nat then Some (None, None)
  else
    Some (Some (Fin (quantile_ref (sorted (clean vals)) (1 # 2))),
          Some (Fin (quantile_ref (sorted (clean vals)) (3 # 4)
                     - quantile_ref (sorted (clean vals)) (1 # 4))%Q)).
Proof.
  unfold median_iqr.
  destruct (Nat.ltb_spec (length (clean vals)) 20) as [Hlt | Hge]; [reflexivity |].
  assert (Hlen : (1 <= length (sorted (clean vals)))%nat)
    by (rewrite sorted_length; lia).
  rewrite !quantile_refines by (assumption || discriminate).
  reflexivity.
Qed.

(** C7.  For every list of [n >= 1] values (sorted or not) and every [q] in
    [[0,1]], [_quantile] takes the position [(n-1)*q]; both the floor and the
    ceiling of the position are indices of the list; when the position is
    integral the result is the element at that index, and otherwise it is the
    interpolation of the elements at the floor and ceiling indices, which are
    neighbours, weighted by the fractional part [w] with [0 < w < 1].  A list
    of one value yields that value for any [q] whatsoever.  On [[1,2,3,4]]
    the result is [2.5] at [q = 0.5] and [1.75] at [q = 0.25]. *)
Theorem quantile_interpolates :
  (forall (vals : list Q) (q : Q),
      (1 <= length vals)%nat -> (0 <= q)%Q -> (q <= 1)%Q ->
      let n := Z.of_nat (length vals) in
      let pos := (inject_Z (n - 1) * q)%Q in
      let lo := Qfloor pos in
      let hi := Qceiling pos in
      let w := (pos - inject_Z lo)%Q in
      exists a b : Q,
        vals !! Z.to_nat lo = Some a /\ vals !! Z.to_nat hi = Some b
        /\ 0 <= lo /\ lo <= hi /\ hi <= n - 1
        /\ (((inject_Z lo == pos)%Q /\ _quantile vals q = Some (Fin a))
            \/ (~ (inject_Z lo == pos)%Q /\ hi = lo + 1 /\ (0 < w < 1)%Q
                /\ _quantile vals q = Some (Fin (a * (1 - w) + b * w)%Q)))
        /\ _quantile vals q = Some (Fin (quantile_ref vals q)))
  /\ (forall x q : Q, _quantile [x] q = Some (Fin x))
  /\ (exists r : Q,
         _quantile [1; 2; 3; 4]%Q (1 # 2) = Some (Fin r) /\ (r == 5 # 2)%Q)
  /\ (exists r : Q,
         _quantile [1; 2; 3; 4]%Q (1 # 4) = Some (Fin r) /\ (r == 7 # 4)%Q)
  /\ (forall q : Q, _quantile [5%Q] q = Some (Fin 5)).
Proof.
  split; [| split; [| split; [| split]]].
  - intros vals q Hlen Hq0 Hq1 n pos lo hi w.
    pose proof (position_in_range n q ltac:(lia) Hq0 Hq1) as (Hlo & Hlohi & Hhi).
    fold pos lo hi in Hlo, Hlohi, Hhi.
    destruct (lookup_lt_is_Some_2 vals (Z.to_nat lo) ltac:(lia)) as [a Ha].
    destruct (lookup_lt_is_Some_2 vals (Z.to_nat hi) ltac:(lia)) as [b Hb].
    exists a, b.
    pose proof (quantile_refines vals q Hlen Hq0 Hq1) as Href.
    repeat (split; [assumption |]).
    split; [| exact Href].
    rewrite Href. unfold quantile_ref. fold n pos lo hi w.
    rewrite !nth_lookup, Ha, Hb. simpl.
    destruct (floor_ceiling_cases pos) as [[Heq Hce] | (Hne & Hce & Hw)].
    + left. split; [exact Heq |].
      apply Qeq_bool_iff in Heq. fold lo in Heq. rewrite Heq. reflexivity.
    + right. fold lo hi w in Hne, Hce, Hw.
      repeat (split; [assumption || apply Hw |]).
      destruct (Qeq_bool (inject_Z lo) pos) eqn:Hbool; [| reflexivity].
      apply Qeq_bool_iff in Hbool. contradiction.
  - intros x q. reflexivity.
  - eexists. split; [vm_compute; reflexivity | vm_compute; reflexivity].
  - eexists. split; [vm_compute; reflexivity | vm_compute; reflexivity].
  - intros q. reflexivity.
Qed.

(** C6.  [median_iqr] keeps exactly the entries that are neither [None] nor
    not-a-number, in their order.  When fewer than 20 are kept the result is
    [(None, None)], whatever the values.  Otherwise the kept values are
    sorted ascending (the sorted list is ordered and a permutation of the
    kept values, and any ascending arrangement of them has the same values
    entry by entry) and the result is exactly the quantile at [0.5] and the
    difference of the quantiles at [0.75] and [0.25] of the sorted list.  The
    function never raises. *)
Theorem median_iqr_correct (vals : list (option float)) :
  let kept := clean vals in
  let s := sorted kept in
  (fun x => Some (Fin x)) <$> kept = filter is_number vals
  /\ Sorted Qle s /\ Permutation kept s
  /\ (forall s' : list Q,
         Sorted Qle s' -> Permutation kept s' ->
         Forall2 Qeq s s'
         /\ (quantile_ref s (1 # 2) == quantile_ref s' (1 # 2))%Q
         /\ (quantile_ref s (3 # 4) - quantile_ref s (1 # 4)
             == quantile_ref s' (3 # 4) - quantile_ref s' (1 # 4))%Q)
  /\ median_iqr vals =
     if (length kept <? 20)%nat then Some (None, None)
     else Some (Some (Fin (quantile_ref s (1 # 2))),
                Some (Fin (quantile_ref s (3 # 4) - quantile_ref s (1 # 4))%Q)).
Proof.
  intros kept s. subst kept s.
  split; [apply clean_filter |].
  split; [apply sorted_Sorted |].
  split; [apply sorted_Permutation |].
  split; [| apply median_iqr_unfold].
  intros s' Hs' Hp.
  assert (HF : Forall2 Qeq (sorted (clean vals)) s').
  { apply Sorted_Permutation_unique; [apply sorted_Sorted | exact Hs' |].
    rewrite <- Hp. symmetry. apply sorted_Permutation. }
  split; [exact HF |].
  rewrite !(quantile_ref_Qeq _ _ _ HF). split; reflexivity.
Qed.

(** Twenty values give the median [10.5] and the inter-quartile range
    [15.25 - 5.75]; eighteen values and two entries that do not count give
    nothing. *)
Example median_iqr_of_twenty :
  (exists med iqr : Q,
      median_iqr twenty_values = Some (Some (Fin med), Some (Fin iqr))
      /\ (med == 21 # 2)%Q /\ (iqr == 19 # 2)%Q)
  /\ length eighteen_values = 20%nat
  /\ median_iqr eighteen_values = Some (None, None).
Proof.
  split; [| split; reflexivity].
  eexists _, _. split; [vm_compute; reflexivity |].
  split; vm_compute; reflexivity.
Qed.

(** *** The order of the entries, and the behaviour outside [[0,1]] *)

(** X3.  The result of [median_iqr] depends on the numbers among its
    entries only, not on their order nor on the entries that are [None] or
    not-a-number: two lists whose kept entries are a rearrangement of each
    other give the same median and the same inter-quartile range. *)
Theorem median_iqr_order_insensitive (vals1 vals2 : list (option float)) :
  Permutation (clean vals1) (clean vals2) ->
  option_Forall2
    (prod_relation (option_Forall2 PyFloat.eqv) (option_Forall2 PyFloat.eqv))
    (median_iqr vals1) (median_iqr vals2).
Proof.
  intros Hp. rewrite !median_iqr_unfold.
  rewrite (Permutation_length Hp).
  destruct (length (clean vals2) <? 20)%nat.
  - constructor. split; constructor.
  - assert (HF : Forall2 Qeq (sorted (clean vals1)) (sorted (clean vals2))).
    { apply Sorted_Permutation_unique;
        [apply sorted_Sorted | apply sorted_Sorted |].
      rewrite <- !sorted_Permutation. exact Hp. }
    constructor. split; constructor; cbn [PyFloat.eqv fst snd].
    + apply quantile_ref_Qeq. exact HF.
    + rewrite !(quantile_ref_Qeq _ _ _ HF). reflexivity.
Qed.

(** The twenty values in reverse, with a not-a-number in front and a [None]
    at the end, give what the twenty values give. *)
Lemma median_iqr_order_insensitive_witness :
  option_Forall2
    (prod_relation (option_Forall2 PyFloat.eqv) (option_Forall2 PyFloat.eqv))
    (median_iqr twenty_values) (median_iqr (Some NaN :: rev twenty_values ++ [None])).
Proof.
  apply (median_iqr_order_insensitive twenty_values
           (Some NaN :: rev twenty_values ++ [None])).
  vm_compute. 
  apply Permutation_rev.
Defined.

(** [l[-1]] is the last element. *)
Lemma py_index_last {A : Type} (l : list A) : py_index l (-1) = last l.
Proof.
  unfold py_index. cbn [Z.leb Z.compare].
  destruct l as [| x l]; [reflexivity |].
  destruct (Z.leb_spec (- Z.of_nat (length (x :: l))) (-1)) as [_ | Hc];
    [| simpl length in Hc; lia].
  rewrite last_lookup. f_equal. simpl length. lia.
Qed.

(** An index at or past the length raises [IndexError]. *)
Lemma py_index_out {A : Type} (l : list A) (i : Z) :
  Z.of_nat (length l) <= i -> py_index l i = None.
Proof.
  intros Hi. unfold py_index.
  destruct (Z.leb_spec 0 i) as [_ | Hneg]; [| lia].
  apply lookup_ge_None. lia.
Qed.

(** X4.  [_quantile] at and outside the ends of [[0,1]].  The empty list
    gives not-a-number for any [q].  On a longer list [q = 0] gives the
    first element and [q = 1] the last.  With two or more elements every
    [q > 1] raises [IndexError].  A negative [q] whose position [(n-1)*q]
    is still above [-1] does not raise: the floor index [-1] reads the last
    element, and the result interpolates between the last element and the
    first, with weight [position + 1] on the first. *)
Theorem quantile_out_of_range :
  (forall q : Q, _quantile [] q = Some NaN)
  /\ (forall s : list Q,
         (1 <= length s)%nat ->
         _quantile s 0 = Fin <$> head s /\ _quantile s 1 = Fin <$> last s)
  /\ (forall (s : list Q) (q : Q),
         (2 <= length s)%nat -> (1 < q)%Q -> _quantile s q = None)
  /\ (forall (s : list Q) (q : Q),
         (2 <= length s)%nat ->
         let pos := (inject_Z (Z.of_nat (length s) - 1) * q)%Q in
         (-1 < pos)%Q -> (pos < 0)%Q ->
         exists first final w : Q,
           head s = Some first /\ last s = Some final /\ (w == pos + 1)%Q
           /\ _quantile s q = Some (Fin (final * (1 - w) + first * w)%Q)).
Proof.
  split; [reflexivity |].
  split; [| split].
  - intros s Hlen. unfold _quantile.
    destruct s as [| x [| y s]]; [simpl in Hlen; lia | split; reflexivity |].
    set (l := x :: y :: s). set (n := Z.of_nat (length l)).
    assert (Hn : 2 <= n) by (subst n l; simpl length; lia).
    destruct (Z.eqb_spec n 0) as [? | _]; [lia |].
    destruct (Z.eqb_spec n 1) as [? | _]; [lia |].
    split.
    + assert (Hf : Qfloor (inject_Z (n - 1) * 0) = 0)
        by (unfold Qfloor, Qmult, inject_Z; simpl; rewrite Z.mul_0_r; reflexivity).
      assert (Hc : Qceiling (inject_Z (n - 1) * 0) = 0)
        by (unfold Qceiling, Qfloor, Qopp, Qmult, inject_Z; simpl;
            rewrite Z.mul_0_r; reflexivity).
      rewrite Hf, Hc. reflexivity.
    + assert (Hf : Qfloor (inject_Z (n - 1) * 1) = n - 1)
        by (unfold Qfloor, Qmult, inject_Z; simpl; rewrite Z.mul_1_r, Z.div_1_r; reflexivity).
      assert (Hc : Qceiling (inject_Z (n - 1) * 1) = n - 1).
      { unfold Qceiling, Qfloor, Qopp, Qmult, inject_Z. simpl.
        rewrite Z.mul_1_r, Z.div_1_r. lia. }
      rewrite Hf, Hc, Z.eqb_refl.
      unfold py_index. destruct (Z.leb_spec 0 (n - 1)) as [_ | ?]; [| lia].
      rewrite last_lookup. do 2 f_equal. subst n. lia.
  - intros s q Hlen Hq. unfold _quantile.
    set (n := Z.of_nat (length s)).
    assert (Hn : 2 <= n) by (subst n; lia).
    destruct (Z.eqb_spec n 0) as [? | _]; [lia |].
    destruct (Z.eqb_spec n 1) as [? | _]; [lia |].
    set (pos := (inject_Z (n - 1) * q)%Q).
    assert (Hpos : (inject_Z (n - 1) < pos)%Q).
    { subst pos.
      assert (0 < inject_Z (n - 1))%Q
        by (change 0%Q with (inject_Z 0); rewrite <- Zlt_Qlt; lia).
      nra. }
    assert (Hhi : n <= Qceiling pos).
    { pose proof (Qle_ceiling pos) as Hce.
      assert (Hlt : (inject_Z (n - 1) < inject_Z (Qceiling pos))%Q) by lra.
      rewrite <- Zlt_Qlt in Hlt. lia. }
    destruct (Z.eqb_spec (Qfloor pos) (Qceiling pos)) as [Heq | Hne].
    + rewrite py_index_out by (fold n; lia). reflexivity.
    + rewrite (py_index_out s (Qceiling pos)) by (fold n; lia).
      destruct (py_index s (Qfloor pos)); reflexivity.
  - intros s q Hlen pos Hlo Hhi. unfold _quantile. fold pos.
    set (n := Z.of_nat (length s)).
    assert (Hn : 2 <= n) by (subst n; lia).
    destruct (Z.eqb_spec n 0) as [? | _]; [lia |].
    destruct (Z.eqb_spec n 1) as [? | _]; [lia |].
    assert (Hf : Qfloor pos = -1).
    { pose proof (Qfloor_le pos) as H1. pose proof (Qlt_floor pos) as H2.
      assert (Ha : (inject_Z (Qfloor pos) < inject_Z 0)%Q)
        by (change (inject_Z 0) with 0%Q; lra).
      assert (Hb : (inject_Z (-1) < inject_Z (Qfloor pos + 1))%Q)
        by (change (inject_Z (-1)) with (-1)%Q; lra).
      rewrite <- Zlt_Qlt in Ha, Hb. lia. }
    assert (Hc : Qceiling pos = 0).
    { pose proof (Qle_ceiling pos) as H1. pose proof (Qceiling_lt pos) as H2.
      assert (Ha : (inject_Z (-1) < inject_Z (Qceiling pos))%Q)
        by (change (inject_Z (-1)) with (-1)%Q; lra).
      assert (Hb : (inject_Z (Qceiling pos - 1) < inject_Z 0)%Q)
        by (change (inject_Z 0) with 0%Q; lra).
      rewrite <- Zlt_Qlt in Ha, Hb. lia. }
    rewrite Hf, Hc. cbn [Z.eqb].
    rewrite py_index_last.
    destruct s as [| x s']; [simpl in Hlen; lia |].
    destruct (last (x :: s')) as [final |] eqn:Hlast;
      [| apply last_None in Hlast; discriminate].
    exists x, final, (pos - inject_Z (-1))%Q.
    split; [reflexivity |]. split; [reflexivity |].
    split; [change (inject_Z (-1)) with (-1)%Q; ring |].
    reflexivity.
Qed.

End StatsFacts.

(** ** The baseline and anomaly tick *)

Module EngineFacts.

(** The body of the loop never raises, and takes one of four paths. *)
Lemma engine_market_case (cfg : Settings) (now_s now_trim : Z) (m : Market) :
  exists (m' : Market) (obs : option bool),
    engine_market cfg now_s now_trim m = Some (m', obs)
    /\ engine_case cfg now_s now_trim m m' obs.
Proof.
  unfold engine_market.
  destruct (best_ask (book m)) as [a |] eqn:Ha;
    [| exists m, None; split; [reflexivity | constructor; unfold quotes_present; rewrite Ha; reflexivity]].
  destruct (buy_1500 (var m)) as [v |] eqn:Hv;
    [| exists m, None; split; [reflexivity | constructor; unfold quotes_present; rewrite Ha, Hv; apply andb_false_r]].
  destruct (PyFloat.truthy a && PyFloat.truthy v) eqn:Htr;
    [| exists m, None; split; [reflexivity | constructor; unfold quotes_present; rewrite Ha, Hv; exact Htr]].
  assert (Hq : quotes_present m = true)
    by (unfold quotes_present; rewrite Ha, Hv; exact Htr).
  destruct (_calc_bps (PyFloat.sub v a) a) as [bps |] eqn:Hbps.
  2:{ eexists _, None. split; [reflexivity |]. eapply no_bps; eassumption. }
  cbv beta iota zeta.
  change (Stats.median_iqr _)
    with (Stats.median_iqr (history_values (history_after cfg now_s now_trim bps m))).
  pose proof (StatsFacts.median_iqr_unfold
                (history_values (history_after cfg now_s now_trim bps m))) as Hmi.
  rewrite Hmi.
  destruct (Nat.ltb_spec
              (length (Stats.clean (history_values (history_after cfg now_s now_trim bps m))))
              20) as [Hlt | Hge];
    cbn [mbind option_bind].
  - eexists _, None. split; [reflexivity |].
    exact (no_baseline cfg now_s now_trim m a v bps Ha Hv Hq Hbps Hlt).
  - eexists _, (Some _). split; [reflexivity |].
    exact (cond_evaluated cfg now_s now_trim m a v bps _ _ Ha Hv Hq Hbps Hge Hmi).
Qed.

(** A pass over all the markets never raises, and leaves each market as the
    body of the loop leaves it. *)
Lemma spread_engine_tick_each (cfg : Settings) (now_s : Z) (clock : string -> Z)
  (markets : list (string * Market)) :
  exists markets' : list (string * Market),
    spread_engine_tick cfg now_s clock markets = Some markets'
    /\ Forall2 (fun bm bm' : string * Market =>
                  bm'.1 = bm.1
                  /\ exists obs : option bool,
                      engine_market cfg now_s (clock bm.1) bm.2 = Some (bm'.2, obs))
         markets markets'.
Proof.
  unfold spread_engine_tick.
  induction markets as [| [b m] markets IH].
  - exists []. split; [reflexivity | constructor].
  - destruct IH as (markets' & Hrest & Hall).
    destruct (engine_market_case cfg now_s (clock b) m) as (m' & obs & Hrun & _).
    exists ((b, m') :: markets').
    cbn [mapM]. rewrite Hrun. cbn [mbind option_bind fst].
    rewrite Hrest. cbn [mbind option_bind mret option_ret fmap option_fmap option_map].
    split; [reflexivity |].
    constructor; [| exact Hall].
    split; [reflexivity |]. exists obs. exact Hrun.
Qed.

(** *** The debounce of the anomaly flag *)

Lemma current_run_snoc_true (obs : list (Z * bool)) (t : Z) :
  current_run (obs ++ [(t, true)]) = current_run obs ++ [t].
Proof. unfold current_run. rewrite rev_app_distr. reflexivity. Qed.

Lemma current_run_snoc_false (obs : list (Z * bool)) (t : Z) :
  current_run (obs ++ [(t, false)]) = [].
Proof. unfold current_run. rewrite rev_app_distr. reflexivity. Qed.

Lemma anomaly_ref_snoc (persistSec : Z) (obs : list (Z * bool)) (t : Z) (c : bool) :
  anomaly_ref persistSec (obs ++ [(t, c)])
  = debounce_step persistSec t c (anomaly_ref persistSec obs).
Proof.
  unfold anomaly_ref, debounce_step. destruct c.
  - rewrite current_run_snoc_true.
    destruct (current_run obs) as [| t0 run]; simpl.
    + rewrite orb_false_r. reflexivity.
    + rewrite existsb_app. simpl. rewrite orb_false_r, orb_assoc. reflexivity.
  - rewrite current_run_snoc_false. reflexivity.
Qed.

Lemma debounce_state (cfg : Settings) (now : Z) (c : bool) (cm : Computed) (m : Market) :
  anomaly_state (set_computed (debounce cfg now c cm) m)
  = debounce_step (PERSIST_SEC cfg) now c (anomaly cm, anomaly_started_s cm).
Proof.
  unfold anomaly_state, debounce, debounce_step. destruct c; simpl; [| reflexivity].
  destruct (anomaly_started_s cm) as [s |]; simpl;
    match goal with |- context [?p <=? ?d] => destruct (p <=? d) end;
    simpl; rewrite ?orb_true_r, ?orb_false_r; reflexivity.
Qed.

(** One tick, as far as the two fields go. *)
Lemma engine_market_debounce (cfg : Settings) (now nt : Z) (m : Market) :
  exists (m' : Market) (obs : option bool),
    engine_market cfg now nt m = Some (m', obs)
    /\ anomaly_state m'
       = match obs with
         | Some c => debounce_step (PERSIST_SEC cfg) now c (anomaly_state m)
         | None => anomaly_state m
         end.
Proof.
  destruct (engine_market_case cfg now nt m) as (m' & obs & Hrun & Hcase).
  exists m', obs. split; [exact Hrun |].
  destruct Hcase; try reflexivity.
  apply debounce_state.
Qed.

Lemma evaluated_cons (t : Z) (o : option bool) (log : list (Z * option bool)) :
  evaluated ((t, o) :: log)
  = match o with Some c => [(t, c)] | None => [] end ++ evaluated log.
Proof. destruct o; reflexivity. Qed.

(** A run, started in a state that agrees with the observations made before
    it, ends in the state that the specification gives for all of them. *)
Lemma engine_run_debounce (cfg : Settings) (ticks : list tick) :
  forall (m : Market) (past : list (Z * bool)),
    anomaly_state m = anomaly_ref (PERSIST_SEC cfg) past ->
    exists (m' : Market) (log : list (Z * option bool)),
      engine_run cfg ticks m = Some (m', log)
      /\ log.*1 = now_s <$> ticks
      /\ anomaly_state m' = anomaly_ref (PERSIST_SEC cfg) (past ++ evaluated log).
Proof.
  induction ticks as [| t ticks IH]; intros m past Hst.
  - exists m, []. simpl. rewrite app_nil_r. auto.
  - destruct (engine_market_debounce cfg (now_s t) (now_trim t)
                (set_inputs (tick_book t) (tick_var t) m))
      as (m1 & obs & Hstep & Hst1).
    change (anomaly_state (set_inputs (tick_book t) (tick_var t) m))
      with (anomaly_state m) in Hst1.
    set (seen := match obs with Some c => [(now_s t, c)] | None => [] end).
    assert (Hst1' : anomaly_state m1
                    = anomaly_ref (PERSIST_SEC cfg) (past ++ seen)).
    { rewrite Hst1. subst seen. destruct obs as [c |].
      - rewrite anomaly_ref_snoc, Hst. reflexivity.
      - rewrite app_nil_r. exact Hst. }
    destruct (IH m1 (past ++ seen) Hst1') as (m' & log & Hrun & Htimes & Hfin).
    exists m', ((now_s t, obs) :: log).
    cbn [engine_run]. rewrite Hstep. cbn [mbind option_bind fst snd].
    rewrite Hrun. cbn [mbind option_bind fst snd].
    split; [reflexivity |]. split; [cbn; f_equal; exact Htimes |].
    rewrite evaluated_cons. fold seen. rewrite app_assoc. exact Hfin.
Qed.

Lemma held_S (t0 : Z) (k : nat) :
  held t0 (S k) = held t0 k ++ [(t0 + Z.of_nat k, true)].
Proof. unfold held. rewrite seq_S, fmap_app. reflexivity. Qed.

(** While the condition holds on ticks one second apart, the flag is raised
    exactly from the tick on that comes [persistSec] after the first. *)
Lemma anomaly_ref_held (persistSec t0 : Z) (k : nat) :
  anomaly_ref persistSec (held t0 k)
  = match k with
    | O => (false, None)
    | S j => (persistSec <=? Z.of_nat j, Some t0)
    end.
Proof.
  induction k as [| k IH]; [reflexivity |].
  rewrite held_S, anomaly_ref_snoc, IH. unfold debounce_step.
  destruct k as [| j]; simpl default; cbn [fst snd].
  - rewrite Z.add_0_r, Z.sub_diag. reflexivity.
  - f_equal.
    replace (t0 + Z.of_nat (S j) - t0) with (Z.of_nat (S j)) by lia.
    destruct (Z.leb_spec persistSec (Z.of_nat j)),
             (Z.leb_spec persistSec (Z.of_nat (S j))); simpl; try reflexivity; lia.
Qed.

Lemma anomaly_ref_held_prefix (persistSec t0 : Z) (k : nat) :
  (anomaly_ref persistSec (take k (held_then_cleared t0 persistSec))).1 = false.
Proof.
  unfold held_then_cleared.
  assert (Hlen : length (held t0 (Z.to_nat persistSec)) = Z.to_nat persistSec)
    by (unfold held; rewrite length_fmap, length_seq; reflexivity).
  destruct (Nat.le_gt_cases k (Z.to_nat persistSec)) as [Hle | Hgt].
  - rewrite take_app_le by lia.
    assert (Htake : take k (held t0 (Z.to_nat persistSec)) = held t0 k).
    { unfold held. rewrite <- fmap_take. f_equal.
      rewrite take_seq. f_equal. lia. }
    rewrite Htake, anomaly_ref_held. destruct k as [| j]; [reflexivity |].
    simpl. apply Z.leb_gt. lia.
  - rewrite take_ge by (rewrite length_app, Hlen; simpl; lia).
    rewrite anomaly_ref_snoc. reflexivity.
Qed.

(** The flag stays down when the spread is wide on the six ticks of the
    seconds 21 to 26 and back to normal at second 27. *)
Example five_seconds_do_not_raise :
  exists m' : Market,
    engine_run settings ((wide_tick <$> seqZ 21 6) ++ [quiet_tick 27]) warm_market
    = Some (m', (fun e : Z * bool => (e.1, Some e.2)) <$> held_then_cleared 21 6)
    /\ anomaly_state m' = (false, None).
Proof. eexists. split; vm_compute; reflexivity. Qed.

(** It goes up at second 27, six seconds after the first wide tick, and down
    at second 28 when the spread is back to normal. *)
Example six_seconds_raise :
  exists m' m'' : Market,
    engine_run settings (wide_tick <$> seqZ 21 7) warm_market
    = Some (m', (fun e : Z * bool => (e.1, Some e.2)) <$> held 21 7)
    /\ anomaly_state m' = (true, Some 21)
    /\ engine_run settings [quiet_tick 28] m' = Some (m'', [(28, Some false)])
    /\ anomaly_state m'' = (false, None).
Proof.
  eexists _, _.
  split; [vm_compute; reflexivity |].
  split; [vm_compute; reflexivity |].
  split; vm_compute; reflexivity.
Qed.

(** *** The history of spreads *)

Lemma trim_items_split (now w : Z) (l : list (Z * float)) :
  exists evicted : list (Z * float),
    l = evicted ++ trim_items now w l
    /\ Forall (fun e : Z * float => w < now - e.1) evicted.
Proof.
  induction l as [| h l IH]; simpl.
  - exists []. split; [reflexivity | constructor].
  - destruct (Z.ltb_spec w (now - h.1)) as [Hold | Hin].
    + destruct IH as (ev & Heq & Hall).
      exists (h :: ev). split; [simpl; f_equal; exact Heq |].
      constructor; assumption.
    + exists []. split; [reflexivity | constructor].
Qed.

Lemma trim_items_head (now w : Z) (l : list (Z * float)) :
  match trim_items now w l with
  | e :: _ => now - e.1 <= w
  | [] => True
  end.
Proof.
  induction l as [| h l IH]; simpl; [exact I |].
  destruct (Z.ltb_spec w (now - h.1)) as [Hold | Hin]; [exact IH | exact Hin].
Qed.

Lemma Sorted_fst_head_le (h : Z * float) (l : list (Z * float)) :
  Sorted Z.le (h :: l).*1 -> Forall (fun e : Z * float => h.1 <= e.1) l.
Proof.
  intros Hs. cbn in Hs.
  apply Sorted_StronglySorted in Hs; [| intros x y z; apply Z.le_trans].
  inversion Hs as [| ? ? _ Hall]; subst.
  rewrite Forall_fmap in Hall. exact Hall.
Qed.

Lemma Sorted_fst_app_r (l1 l2 : list (Z * float)) :
  Sorted Z.le (l1 ++ l2).*1 -> Sorted Z.le l2.*1.
Proof.
  induction l1 as [| h l1 IH]; simpl; [auto |].
  intros Hs. apply IH. now inversion Hs.
Qed.

Lemma Sorted_fst_snoc (l : list (Z * float)) (x : Z * float) :
  Sorted Z.le l.*1 -> Forall (fun e : Z * float => e.1 <= x.1) l ->
  Sorted Z.le (l ++ [x]).*1.
Proof.
  induction l as [| h l IH]; simpl; intros Hs Hall.
  - repeat constructor.
  - inversion Hs as [| ? ? Hs' Hhd]; subst.
    inversion Hall as [| ? ? Hh Hall']; subst.
    constructor; [apply IH; assumption |].
    destruct l as [| h' l]; simpl in *.
    + constructor. exact Hh.
    + constructor. now inversion Hhd.
Qed.

(** With timestamps in order, what the trim leaves lies within the window. *)
Lemma trim_items_within (now w : Z) (l : list (Z * float)) :
  Sorted Z.le l.*1 ->
  Forall (fun e : Z * float => now - e.1 <= w) (trim_items now w l).
Proof.
  intros Hs.
  destruct (trim_items_split now w l) as (ev & Heq & _).
  pose proof (trim_items_head now w l) as Hhead.
  rewrite Heq in Hs. apply Sorted_fst_app_r in Hs.
  destruct (trim_items now w l) as [| h rest]; [constructor |].
  constructor; [exact Hhead |].
  eapply Forall_impl; [apply Sorted_fst_head_le; exact Hs |].
  intros e He. simpl in He. lia.
Qed.

Lemma ordered_until_append (prev now : Z) (x : float) (l : list (Z * float)) :
  ordered_until prev l -> prev <= now -> ordered_until now (l ++ [(now, x)]).
Proof.
  intros [Hs Hall] Hle.
  assert (Hall' : Forall (fun e : Z * float => e.1 <= now) l)
    by (eapply Forall_impl; [exact Hall | intros e He; simpl in He; lia]).
  split.
  - apply Sorted_fst_snoc; assumption.
  - apply Forall_app. split; [exact Hall' |]. repeat constructor. simpl. lia.
Qed.

Lemma ordered_until_suffix (now : Z) (l1 l2 : list (Z * float)) :
  ordered_until now (l1 ++ l2) -> ordered_until now l2.
Proof.
  intros [Hs Hall]. split.
  - eapply Sorted_fst_app_r. exact Hs.
  - apply Forall_app in Hall. apply Hall.
Qed.

Lemma engine_case_live_bps (cfg : Settings) (now nt : Z) (m m' : Market)
  (obs : option bool) :
  engine_case cfg now nt m m' obs ->
  match live_bps m with
  | None => spread_bps_hist m' = spread_bps_hist m
  | Some bps => spread_bps_hist m' = history_after cfg now nt bps m
  end.
Proof.
  intros [Hq | a v Ha Hv Hq Hbps | a v bps Ha Hv Hq Hbps Hlen
          | a v bps med iqr Ha Hv Hq Hbps Hlen Hmi];
    unfold live_bps; unfold quotes_present in Hq.
  - destruct (best_ask (book m)) as [a |]; [| reflexivity].
    destruct (buy_1500 (var m)) as [v |]; [| reflexivity].
    cbn [truthy_opt] in Hq. rewrite Hq. reflexivity.
  - rewrite Ha, Hv in *. cbn [truthy_opt] in Hq. rewrite Hq, Hbps. reflexivity.
  - rewrite Ha, Hv in *. cbn [truthy_opt] in Hq. rewrite Hq, Hbps. reflexivity.
  - rewrite Ha, Hv in *. cbn [truthy_opt] in Hq. rewrite Hq, Hbps. reflexivity.
Qed.

Lemma engine_case_maxlen (cfg : Settings) (now nt : Z) (m m' : Market)
  (obs : option bool) :
  engine_case cfg now nt m m' obs ->
  maxlen (spread_bps_hist m') = maxlen (spread_bps_hist m).
Proof. intros []; reflexivity. Qed.

(** Integers that strictly increase within [[lo, hi]] are at most
    [hi - lo + 1]. *)
Lemma increasing_length (l : list (Z * float)) :
  forall lo hi : Z,
    Sorted Z.lt l.*1 ->
    Forall (fun e : Z * float => lo <= e.1 <= hi) l ->
    Z.of_nat (length l) <= Z.max 0 (hi - lo + 1).
Proof.
  induction l as [| h l IH]; intros lo hi Hs Hall; [simpl; lia |].
  inversion Hall as [| ? ? Hh Hall']; subst.
  cbn in Hs.
  assert (Hs' : Sorted Z.lt l.*1) by now inversion Hs.
  apply Sorted_StronglySorted in Hs; [| intros x y z; apply Z.lt_trans].
  inversion Hs as [| ? ? _ Hgt]; subst.
  rewrite Forall_fmap in Hgt.
  assert (Hall'' : Forall (fun e : Z * float => h.1 + 1 <= e.1 <= hi) l).
  { rewrite Forall_forall in *. intros e He.
    specialize (Hgt e He). specialize (Hall' e He). simpl in Hgt. lia. }
  specialize (IH (h.1 + 1) hi Hs' Hall'').
  cbn [length]. lia.
Qed.

Lemma Sorted_lt_fst_app_r (l1 l2 : list (Z * float)) :
  Sorted Z.lt (l1 ++ l2).*1 -> Sorted Z.lt l2.*1.
Proof.
  induction l1 as [| h l1 IH]; simpl; [auto |].
  intros Hs. apply IH. now inversion Hs.
Qed.

Lemma Sorted_lt_fst_snoc (l : list (Z * float)) (x : Z * float) :
  Sorted Z.lt l.*1 -> Forall (fun e : Z * float => e.1 < x.1) l ->
  Sorted Z.lt (l ++ [x]).*1.
Proof.
  induction l as [| h l IH]; simpl; intros Hs Hall.
  - repeat constructor.
  - inversion Hs as [| ? ? Hs' Hhd]; subst.
    inversion Hall as [| ? ? Hh Hall']; subst.
    constructor; [apply IH; assumption |].
    destruct l as [| h' l]; simpl in *.
    + constructor. exact Hh.
    + constructor. now inversion Hhd.
Qed.

(** With a window below the capacity and ticks at strictly later seconds
    the deque never overflows: the history stays within [w + 1] entries. *)
Lemma history_after_short_window (cfg : Settings) (now nt prev cap : Z)
  (bps : float) (m : Market) :
  increasing_until prev (items (spread_bps_hist m)) ->
  prev < now -> now <= nt -> 0 <= BASELINE_WINDOW_SEC cfg ->
  maxlen (spread_bps_hist m) = Some cap ->
  BASELINE_WINDOW_SEC cfg + 2 <= cap ->
  Z.of_nat (length (items (spread_bps_hist m))) <= BASELINE_WINDOW_SEC cfg + 1 ->
  items (deque_append (spread_bps_hist m) (now, bps))
  = items (spread_bps_hist m) ++ [(now, bps)]
  /\ increasing_until now (items (history_after cfg now nt bps m))
  /\ Z.of_nat (length (items (history_after cfg now nt bps m)))
     <= BASELINE_WINDOW_SEC cfg + 1.
Proof.
  intros [Hs Hall] Hlt Hnt Hw Hcap Hroom Hlen.
  assert (Happ : items (deque_append (spread_bps_hist m) (now, bps))
                 = items (spread_bps_hist m) ++ [(now, bps)]).
  { unfold deque_append. cbn [items]. rewrite Hcap.
    destruct (Z.ltb_spec cap
                (Z.of_nat (length (items (spread_bps_hist m) ++ [(now, bps)]))))
      as [Hover | _]; [| reflexivity].
    rewrite length_app in Hover. cbn [length] in Hover. lia. }
  split; [exact Happ |].
  unfold history_after. cbn [_trim_hist items]. rewrite Happ.
  set (full := items (spread_bps_hist m) ++ [(now, bps)]).
  assert (Hfull : increasing_until now full).
  { split.
    - apply Sorted_lt_fst_snoc; [exact Hs |].
      eapply Forall_impl; [exact Hall |]. intros e He. simpl in *. lia.
    - apply Forall_app. split.
      + eapply Forall_impl; [exact Hall |]. intros e He. simpl in *. lia.
      + repeat constructor. simpl. lia. }
  destruct (trim_items_split nt (BASELINE_WINDOW_SEC cfg) full) as (ev & Heq & _).
  assert (Hkept : increasing_until now (trim_items nt (BASELINE_WINDOW_SEC cfg) full)).
  { destruct Hfull as [Hs1 Hall1]. rewrite Heq in Hs1, Hall1. split.
    - eapply Sorted_lt_fst_app_r. exact Hs1.
    - apply Forall_app in Hall1. apply Hall1. }
  split; [exact Hkept |].
  destruct Hkept as [Hs2 Hall2].
  assert (Hin : Forall (fun e : Z * float => nt - e.1 <= BASELINE_WINDOW_SEC cfg)
                  (trim_items nt (BASELINE_WINDOW_SEC cfg) full)).
  { apply trim_items_within.
    destruct Hfull as [Hs1 _].
    clear -Hs1. induction full as [| h l IH]; [constructor |].
    cbn in *. inversion Hs1 as [| ? ? Hs' Hhd]; subst.
    constructor; [apply IH; exact Hs' |].
    destruct l; cbn in *; constructor. inversion Hhd; subst. lia. }
  pose proof (increasing_length (trim_items nt (BASELINE_WINDOW_SEC cfg) full)
                (nt - BASELINE_WINDOW_SEC cfg) now Hs2) as Hbound.
  assert (Hrange : Forall (fun e : Z * float => nt - BASELINE_WINDOW_SEC cfg <= e.1 <= now)
                     (trim_items nt (BASELINE_WINDOW_SEC cfg) full)).
  { rewrite Forall_forall in *. intros e He.
    specialize (Hall2 e He). specialize (Hin e He). simpl in *. lia. }
  specialize (Hbound Hrange). lia.
Qed.

(** Against the reading that the history is trimmed on every tick and by
    age only.  A tick that finds no best ask does not trim: the sample of second 1 is still in the history at
    second 5000, far outside the window of 1800 seconds.  And the history is
    a deque of at most 7200 entries: under a window of 10000 seconds the
    sample of second 1 is dropped at second 7201, when it is 7200 seconds
    old and within the window. *)
Lemma history_stale_or_dropped_by_count :
  ((fun r : Market * list (Z * option bool) => ((items (spread_bps_hist r.1)).*1, r.2))
   <$> engine_run settings [wide_tick 1; blind_tick 5000] (new_Market 1 "ETH" "ETH")
   = Some ([1], [(1, None); (5000, None)])
   /\ BASELINE_WINDOW_SEC settings < 5000 - 1)
  /\ (maxlen (spread_bps_hist full_market) = Some 7200
      /\ Z.of_nat (length (items (spread_bps_hist full_market))) = 7200
      /\ head (items (spread_bps_hist full_market)).*1 = Some 1
      /\ 7201 - 1 <= BASELINE_WINDOW_SEC long_window
      /\ (fun r : Market * option bool =>
            (Z.of_nat (length (items (spread_bps_hist r.1))),
             head (items (spread_bps_hist r.1)).*1, r.2))
         <$> engine_market long_window 7201 7201 full_market
         = Some (7200, Some 2, Some false)).
Proof.
  split.
  - split; [vm_compute; reflexivity | vm_compute; reflexivity].
  - split; [reflexivity |].
    split; [vm_compute; reflexivity |].
    split; [reflexivity |].
    split; [vm_compute; discriminate |].
    vm_compute; reflexivity.
Qed.

(** C2, amended.  A tick never raises and never changes the capacity of the
    history.  A tick that computes no spread in bps (a quote is missing or
    zero, or the ask is negative) leaves the history untouched.  A tick that
    computes one appends the sample, the deque dropping its oldest entry when
    that takes it over its capacity, and then trims: what the trim evicts is
    a prefix of the history (oldest first) whose every entry is strictly
    older than the window by the clock of the trim, the first entry that is
    kept is within the window, and, timestamps being in order, every entry
    that is kept is within the window.  When moreover the timestamps strictly
    increase and the capacity exceeds the window by two or more (as 7200
    does the default 1800), the deque never drops an entry, and the history
    stays within one entry per second of the window. *)
Theorem history_trimmed_on_live_ticks (cfg : Settings) (now nt : Z) (m : Market) :
  exists (m' : Market) (obs : option bool),
    engine_market cfg now nt m = Some (m', obs)
    /\ maxlen (spread_bps_hist m') = maxlen (spread_bps_hist m)
    /\ match live_bps m with
       | None => spread_bps_hist m' = spread_bps_hist m
       | Some bps =>
           let full := items (spread_bps_hist m) ++ [(now, bps)] in
           let appended := items (deque_append (spread_bps_hist m) (now, bps)) in
           let kept := items (spread_bps_hist m') in
           (appended = full
            \/ exists n : Z,
                maxlen (spread_bps_hist m) = Some n
                /\ n < Z.of_nat (length full) /\ appended = drop 1 full)
           /\ (exists evicted : list (Z * float),
                  appended = evicted ++ kept
                  /\ Forall (fun e : Z * float => BASELINE_WINDOW_SEC cfg < nt - e.1)
                       evicted)
           /\ match kept with
              | e :: _ => nt - e.1 <= BASELINE_WINDOW_SEC cfg
              | [] => True
              end
           /\ (forall prev : Z,
                  ordered_until prev (items (spread_bps_hist m)) -> prev <= now ->
                  ordered_until now kept
                  /\ Forall (fun e : Z * float => nt - e.1 <= BASELINE_WINDOW_SEC cfg)
                       kept)
           /\ (forall prev cap : Z,
                  increasing_until prev (items (spread_bps_hist m)) ->
                  prev < now -> now <= nt -> 0 <= BASELINE_WINDOW_SEC cfg ->
                  maxlen (spread_bps_hist m) = Some cap ->
                  BASELINE_WINDOW_SEC cfg + 2 <= cap ->
                  Z.of_nat (length (items (spread_bps_hist m)))
                  <= BASELINE_WINDOW_SEC cfg + 1 ->
                  appended = full
                  /\ increasing_until now kept
                  /\ Z.of_nat (length kept) <= BASELINE_WINDOW_SEC cfg + 1)
       end.
Proof.
  destruct (engine_market_case cfg now nt m) as (m' & obs & Hrun & Hcase).
  exists m', obs. split; [exact Hrun |].
  split; [eapply engine_case_maxlen; exact Hcase |].
  pose proof (engine_case_live_bps _ _ _ _ _ _ Hcase) as Hh.
  destruct (live_bps m) as [bps |]; [| exact Hh].
  rewrite Hh.
  assert (Hshort := history_after_short_window cfg now nt).
  unfold history_after in *. cbn [_trim_hist items] in *.
  set (appended := items (deque_append (spread_bps_hist m) (now, bps))) in *.
  split; [| split; [| split; [| split]]];
    [| | | | intros prev cap; apply Hshort].
  - subst appended. unfold deque_append. cbn [items].
    destruct (maxlen (spread_bps_hist m)) as [n |]; [| left; reflexivity].
    destruct (Z.ltb_spec n (Z.of_nat (length (items (spread_bps_hist m) ++ [(now, bps)]))))
      as [Hover | Hfit]; [| left; reflexivity].
    right. exists n. auto.
  - apply trim_items_split.
  - apply trim_items_head.
  - intros prev Hord Hle.
    assert (Happ : ordered_until now appended).
    { pose proof (ordered_until_append prev now bps _ Hord Hle) as Hfull.
      subst appended. unfold deque_append. cbn [items].
      destruct (maxlen (spread_bps_hist m)) as [n |]; [| exact Hfull].
      destruct (n <? _); [| exact Hfull].
      rewrite <- (take_drop 1 (items (spread_bps_hist m) ++ [(now, bps)])) in Hfull.
      eapply ordered_until_suffix. exact Hfull. }
    split.
    + destruct (trim_items_split nt (BASELINE_WINDOW_SEC cfg) appended) as (ev & Heq & _).
      rewrite Heq in Happ. eapply ordered_until_suffix. exact Happ.
    + apply trim_items_within. apply Happ.
Qed.

(** A live tick at second 1820 evicts the samples of the seconds 1 to 19,
    more than 1800 seconds old, and keeps that of second 20. *)
Example live_tick_trims_by_age :
  (fun r : Market * list (Z * option bool) => (items (spread_bps_hist r.1)).*1)
  <$> engine_run settings [quiet_tick 1820] warm_market
  = Some [20; 1820].
Proof. vm_compute. reflexivity. Qed.

(** *** What a tick leaves alone *)

Lemma debounce_others (cfg : Settings) (now : Z) (c : bool) (cm : Computed) :
  spread_usd (debounce cfg now c cm) = spread_usd cm
  /\ spread_bps (debounce cfg now c cm) = spread_bps cm
  /\ baseline_median_bps (debounce cfg now c cm) = baseline_median_bps cm
  /\ baseline_iqr_bps (debounce cfg now c cm) = baseline_iqr_bps cm
  /\ deviation_bps (debounce cfg now c cm) = deviation_bps cm
  /\ last_confirm_s (debounce cfg now c cm) = last_confirm_s cm
  /\ confirm (debounce cfg now c cm) = confirm cm.
Proof.
  unfold debounce. destruct c; [| repeat split].
  cbv zeta. match goal with |- context [?p <=? ?d] => destruct (p <=? d) end;
    repeat split.
Qed.

Lemma engine_run_blind (cfg : Settings) (ticks : list tick) :
  forall m : Market,
    Forall (fun t : tick =>
              truthy_opt (best_ask (tick_book t))
              && truthy_opt (buy_1500 (tick_var t)) = false) ticks ->
    exists (m' : Market) (log : list (Z * option bool)),
      engine_run cfg ticks m = Some (m', log)
      /\ evaluated log = []
      /\ computed m' = computed m
      /\ spread_bps_hist m' = spread_bps_hist m.
Proof.
  induction ticks as [| t ticks IH]; intros m Hall.
  - exists m, []. auto.
  - inversion Hall as [| ? ? Ht Hall']; subst.
    set (m0 := set_inputs (tick_book t) (tick_var t) m).
    assert (Hstep : engine_market cfg (now_s t) (now_trim t) m0 = Some (m0, None)).
    { unfold engine_market. subst m0. cbn [book var set_inputs].
      destruct (best_ask (tick_book t)) as [a |]; [| reflexivity].
      destruct (buy_1500 (tick_var t)) as [v |]; [| reflexivity].
      cbn [truthy_opt] in Ht. rewrite Ht. reflexivity. }
    destruct (IH m0 Hall') as (m' & log & Hrun & Hlog & Hc & Hh).
    exists m', ((now_s t, None) :: log).
    cbn [engine_run]. fold m0. rewrite Hstep. cbn [mbind option_bind fst snd].
    rewrite Hrun. cbn [mbind option_bind fst snd].
    split; [reflexivity |]. split; [exact Hlog |]. split; assumption.
Qed.

Lemma engine_run_unevaluated (cfg : Settings) (ticks : list tick) :
  forall m : Market,
    exists (m' : Market) (log : list (Z * option bool)),
      engine_run cfg ticks m = Some (m', log)
      /\ (evaluated log = [] ->
          anomaly_state m' = anomaly_state m
          /\ deviation_bps (computed m') = deviation_bps (computed m)).
Proof.
  induction ticks as [| t ticks IH]; intros m.
  - exists m, []. auto.
  - destruct (engine_market_case cfg (now_s t) (now_trim t)
                (set_inputs (tick_book t) (tick_var t) m))
      as (m1 & obs & Hstep & Hcase).
    destruct (IH m1) as (m' & log & Hrun & Hfin).
    exists m', ((now_s t, obs) :: log).
    cbn [engine_run]. rewrite Hstep. cbn [mbind option_bind fst snd].
    rewrite Hrun. cbn [mbind option_bind fst snd].
    split; [reflexivity |].
    rewrite evaluated_cons. intros Hnil.
    apply app_eq_nil in Hnil as [Hobs Hlog].
    destruct (Hfin Hlog) as [Hst Hdev]. rewrite Hst, Hdev.
    destruct Hcase; try discriminate; split; reflexivity.
Qed.

(** Against the reading that a tick with an undefined baseline leaves the
    computed fields alone: on the first tick of a market that has both quotes the history holds one sample, the
    baseline is undefined, and yet [spread_usd] and [spread_bps] are written. *)
Lemma undefined_baseline_overwrites_spread :
  exists m' : Market,
    engine_market settings 1 1 first_wide_market = Some (m', None)
    /\ length (items (spread_bps_hist m')) = 1%nat
    /\ baseline_median_bps (computed m') = None
    /\ baseline_iqr_bps (computed m') = None
    /\ spread_usd (computed first_wide_market) = None
    /\ spread_bps (computed first_wide_market) = None
    /\ spread_usd (computed m') = Some (Fin 1)
    /\ spread_bps (computed m') = Some (Fin (10000 # 100)).
Proof.
  eexists. split; [vm_compute; reflexivity |].
  repeat (split; [vm_compute; reflexivity |]). vm_compute; reflexivity.
Qed.

(** C10, amended.  A tick never raises, and never touches the book, the
    quote, [last_confirm_s] or [confirm].  It stops short of the condition
    exactly when a quote is missing or zero, when no spread in bps comes out,
    or when the baseline is undefined.  With a quote missing or zero the
    market is left as it was, history included.  When the tick stops short
    for another reason, [spread_usd] and [spread_bps] are overwritten with
    the fresh values, [baseline_median_bps] and [baseline_iqr_bps] are left
    alone if no spread in bps came out and are set to [None] if the baseline
    is undefined (fewer than 20 numbers in the history).  In all these cases
    [deviation_bps], [anomaly] and [anomaly_started_s] are as they were; so
    over any run on which no tick evaluates the condition these three fields
    do not change, and a run of ticks without quotes changes nothing. *)
Theorem engine_frame (cfg : Settings) :
  (forall (now nt : Z) (m : Market),
      exists (m' : Market) (obs : option bool),
        engine_market cfg now nt m = Some (m', obs)
        /\ book m' = book m /\ var m' = var m
        /\ last_confirm_s (computed m') = last_confirm_s (computed m)
        /\ confirm (computed m') = confirm (computed m)
        /\ (obs = None <->
            quotes_present m = false
            \/ spread_bps (computed m') = None
            \/ baseline_median_bps (computed m') = None)
        /\ (quotes_present m = false -> m' = m)
        /\ (quotes_present m = true ->
            exists a v : float,
              best_ask (book m) = Some a /\ buy_1500 (var m) = Some v
              /\ spread_usd (computed m') = Some (PyFloat.sub v a)
              /\ spread_bps (computed m') = _calc_bps (PyFloat.sub v a) a)
        /\ (quotes_present m = true -> obs = None ->
            (spread_bps (computed m') = None
             /\ baseline_median_bps (computed m') = baseline_median_bps (computed m)
             /\ baseline_iqr_bps (computed m') = baseline_iqr_bps (computed m)
             /\ spread_bps_hist m' = spread_bps_hist m)
            \/ (spread_bps (computed m') <> None
                /\ baseline_median_bps (computed m') = None
                /\ baseline_iqr_bps (computed m') = None
                /\ (length (Stats.clean (history_values (spread_bps_hist m'))) < 20)%nat))
        /\ (obs = None ->
            deviation_bps (computed m') = deviation_bps (computed m)
            /\ anomaly (computed m') = anomaly (computed m)
            /\ anomaly_started_s (computed m') = anomaly_started_s (computed m)))
  /\ (forall (ticks : list tick) (m : Market),
         exists (m' : Market) (log : list (Z * option bool)),
           engine_run cfg ticks m = Some (m', log)
           /\ (evaluated log = [] ->
               deviation_bps (computed m') = deviation_bps (computed m)
               /\ anomaly (computed m') = anomaly (computed m)
               /\ anomaly_started_s (computed m') = anomaly_started_s (computed m))
           /\ (Forall (fun t : tick =>
                         truthy_opt (best_ask (tick_book t))
                         && truthy_opt (buy_1500 (tick_var t)) = false) ticks ->
               evaluated log = []
               /\ computed m' = computed m
               /\ spread_bps_hist m' = spread_bps_hist m)).
Proof.
  split.
  - intros now nt m.
    destruct (engine_market_case cfg now nt m) as (m' & obs & Hrun & Hcase).
    exists m', obs. split; [exact Hrun |].
    destruct Hcase as [Hq | a v Ha Hv Hq Hbps | a v bps Ha Hv Hq Hbps Hlen
                       | a v bps med iqr Ha Hv Hq Hbps Hlen Hmi].
    + repeat (split; [reflexivity |]).
      split; [split; auto |]. split; [reflexivity |].
      split; [congruence |]. split; [congruence |]. auto.
    + repeat (split; [reflexivity |]).
      split; [split; auto |]. split; [congruence |].
      split; [intros _; exists a, v; rewrite Hbps; auto |].
      split; [| auto]. intros _ _. left. auto.
    + repeat (split; [reflexivity |]).
      split; [split; auto |]. split; [congruence |].
      split; [intros _; exists a, v; rewrite Hbps; auto |].
      split; [| auto]. intros _ _. right.
      split; [discriminate |]. auto.
    + destruct (debounce_others cfg now cond
                  (set_deviation_bps (Some dev)
                     (set_baseline (Some (Fin med)) (Some (Fin iqr))
                        (set_spread (Some (PyFloat.sub v a)) (Some bps) (computed m)))))
        as (Husd & Hb & Hmed & Hiqr & _ & Hlast & Hconf).
      cbn [computed set_computed book var].
      split; [reflexivity |]. split; [reflexivity |].
      split; [rewrite Hlast; reflexivity |]. split; [rewrite Hconf; reflexivity |].
      rewrite Husd, Hb, Hmed.
      cbn [spread_usd spread_bps baseline_median_bps set_deviation_bps
             set_baseline set_spread].
      split.
      { split; [discriminate |]. intros [Hno | [Hno | Hno]]; congruence. }
      split; [congruence |].
      split; [intros _; exists a, v; rewrite Hbps; auto |].
      split; discriminate.
  - intros ticks m.
    destruct (engine_run_unevaluated cfg ticks m) as (m' & log & Hrun & Hquiet).
    exists m', log. split; [exact Hrun |]. split.
    + intros Hnil. destruct (Hquiet Hnil) as [Hst Hdev].
      unfold anomaly_state in Hst. injection Hst as Ha Hs. auto.
    + intros Hall.
      destruct (engine_run_blind cfg ticks m Hall) as (m2 & log2 & Hrun2 & Hrest).
      rewrite Hrun in Hrun2. injection Hrun2 as <- <-. exact Hrest.
Qed.

(** While the feed shows no best ask, a raised flag stays raised: the market
    raised at second 27 is unchanged a thousand seconds of blind ticks later. *)
Example raised_flag_survives_blind_ticks :
  exists m' m'' : Market,
    engine_run settings (wide_tick <$> seqZ 21 7) warm_market
    = Some (m', (fun e : Z * bool => (e.1, Some e.2)) <$> held 21 7)
    /\ anomaly (computed m') = true
    /\ engine_run settings (blind_tick <$> seqZ 28 1000) m'
       = Some (m'', (fun t : Z => (t, None)) <$> seqZ 28 1000)
    /\ computed m'' = computed m'.
Proof.
  eexists _, _.
  split; [vm_compute; reflexivity |].
  split; [vm_compute; reflexivity |].
  split; vm_compute; reflexivity.
Qed.

(** *** The warm-up *)

(** A tick adds at most one sample to the history. *)
Lemma history_after_length (cfg : Settings) (now nt : Z) (bps : float) (m : Market) :
  (length (items (history_after cfg now nt bps m))
   <= length (items (spread_bps_hist m)) + 1)%nat.
Proof.
  unfold history_after, _trim_hist. cbn [items].
  destruct (trim_items_split nt (BASELINE_WINDOW_SEC cfg)
              (items (deque_append (spread_bps_hist m) (now, bps))))
    as (ev & Heq & _).
  apply (f_equal length) in Heq. rewrite length_app in Heq.
  assert (length (items (deque_append (spread_bps_hist m) (now, bps)))
          <= length (items (spread_bps_hist m)) + 1)%nat; [| lia].
  unfold deque_append. cbn [items].
  destruct (maxlen (spread_bps_hist m)) as [n |];
    [destruct (n <? _) |]; rewrite ?length_drop, length_app; simpl; lia.
Qed.

(** [median_iqr] keeps no more entries than it is given. *)
Lemma clean_length (vals : list (option float)) :
  (length (Stats.clean vals) <= length vals)%nat.
Proof.
  unfold Stats.clean. induction vals as [| v vals IH]; [reflexivity |].
  cbn [omap list_omap]. destruct (Stats.keep v); cbn [length]; lia.
Qed.

(** The values are as many as the samples. *)
Lemma history_values_length (h : deque (Z * float)) :
  length (history_values h) = length (items h).
Proof. unfold history_values. rewrite !length_fmap. reflexivity. Qed.

(** A tick that evaluates the condition leaves at least 20 samples. *)
Lemma engine_case_length (cfg : Settings) (now nt : Z) (m m' : Market)
  (obs : option bool) :
  engine_case cfg now nt m m' obs ->
  (length (items (spread_bps_hist m')) <= length (items (spread_bps_hist m)) + 1)%nat
  /\ (obs <> None -> (20 <= length (items (spread_bps_hist m')))%nat).
Proof.
  intros [Hq | a v Ha Hv Hq Hbps | a v bps Ha Hv Hq Hbps Hlen
          | a v bps med iqr Ha Hv Hq Hbps Hlen Hmi];
    cbn [spread_bps_hist set_computed set_spread_bps_hist];
    try (split; [lia || apply history_after_length | intros Hc; contradiction Hc; reflexivity]).
  split; [apply history_after_length |]. intros _.
  pose proof (clean_length (history_values (history_after cfg now nt bps m))) as Hc.
  rewrite history_values_length in Hc. lia.
Qed.

(** X6.  While the samples in the history and the ticks still to come are
    fewer than 20 together, no tick evaluates the condition: over such a run
    [anomaly], [anomaly_started_s] and [deviation_bps] keep their values, and
    the history grows by at most one sample a tick.  A new market cannot be
    flagged during its first 19 ticks. *)
Theorem engine_warm_up (cfg : Settings) (ticks : list tick) (m : Market) :
  (length (items (spread_bps_hist m)) + length ticks < 20)%nat ->
  exists (m' : Market) (log : list (Z * option bool)),
    engine_run cfg ticks m = Some (m', log)
    /\ evaluated log = []
    /\ anomaly (computed m') = anomaly (computed m)
    /\ anomaly_started_s (computed m') = anomaly_started_s (computed m)
    /\ deviation_bps (computed m') = deviation_bps (computed m)
    /\ (length (items (spread_bps_hist m'))
        <= length (items (spread_bps_hist m)) + length ticks)%nat.
Proof.
  revert m. induction ticks as [| t ticks IH]; intros m Hshort.
  - exists m, []. repeat split; simpl; lia.
  - destruct (engine_market_case cfg (now_s t) (now_trim t)
                (set_inputs (tick_book t) (tick_var t) m))
      as (m1 & obs & Hstep & Hcase).
    destruct (engine_case_length _ _ _ _ _ _ Hcase) as [Hlen Hobs].
    cbn [spread_bps_hist set_inputs] in Hlen.
    simpl length in Hshort.
    assert (Hnone : obs = None).
    { destruct obs as [c |]; [| reflexivity].
      assert (20 <= length (items (spread_bps_hist m1)))%nat by (apply Hobs; discriminate).
      lia. }
    subst obs.
    assert (Hkeep : anomaly (computed m1) = anomaly (computed m)
                    /\ anomaly_started_s (computed m1) = anomaly_started_s (computed m)
                    /\ deviation_bps (computed m1) = deviation_bps (computed m)).
    { inversion Hcase; subst; repeat split; reflexivity. }
    destruct Hkeep as (Ha & Hs & Hd).
    destruct (IH m1 ltac:(lia)) as (m' & log & Hrun & Hev & Ha' & Hs' & Hd' & Hl').
    exists m', ((now_s t, None) :: log).
    cbn [engine_run]. rewrite Hstep. cbn [mbind option_bind fst snd].
    rewrite Hrun. cbn [mbind option_bind fst snd].
    split; [reflexivity |]. split; [exact Hev |].
    split; [congruence |]. split; [congruence |]. split; [congruence |].
    simpl length. lia.
Qed.

(** Nineteen wide ticks on a new market. *)
Lemma engine_warm_up_witness :
  exists (m' : Market) (log : list (Z * option bool)),
    engine_run settings (wide_tick <$> seqZ 1 19) (new_Market 1 "ETH" "ETH")
    = Some (m', log)
    /\ evaluated log = []
    /\ anomaly (computed m') = anomaly (computed (new_Market 1 "ETH" "ETH"))
    /\ anomaly_started_s (computed m')
       = anomaly_started_s (computed (new_Market 1 "ETH" "ETH"))
    /\ deviation_bps (computed m') = deviation_bps (computed (new_Market 1 "ETH" "ETH"))
    /\ (length (items (spread_bps_hist m'))
        <= length (items (spread_bps_hist (new_Market 1 "ETH" "ETH")))
           + length (wide_tick <$> seqZ 1 19))%nat.
Proof.
  apply (engine_warm_up settings (wide_tick <$> seqZ 1 19) (new_Market 1 "ETH" "ETH")).
  vm_compute. lia.
Defined.

(** *** The condition of a tick, and the debounce over a run *)

(** The condition and the history of a tick depend on the quotes and on the
    history only. *)
Lemma tick_condition_ext (cfg : Settings) (now nt : Z) (m1 m2 : Market) :
  book m1 = book m2 -> var m1 = var m2 -> spread_bps_hist m1 = spread_bps_hist m2 ->
  tick_condition cfg now nt m1 = tick_condition cfg now nt m2
  /\ tick_history cfg now nt m1 = tick_history cfg now nt m2.
Proof.
  intros Hb Hv Hh.
  unfold tick_condition, tick_history, live_bps, history_after.
  rewrite Hb, Hv, Hh. split; reflexivity.
Qed.

(** What a tick reports is the condition of the tick, and the history that
    it leaves is the history of the tick. *)
Lemma engine_case_condition (cfg : Settings) (now nt : Z) (m m' : Market)
  (obs : option bool) :
  engine_case cfg now nt m m' obs ->
  obs = tick_condition cfg now nt m
  /\ spread_bps_hist m' = tick_history cfg now nt m.
Proof.
  intros Hcase.
  pose proof (engine_case_live_bps _ _ _ _ _ _ Hcase) as Hh.
  unfold tick_condition, tick_history.
  destruct Hcase as [Hq | a v Ha Hv Hq Hbps | a v bps Ha Hv Hq Hbps Hlen
                     | a v bps med iqr Ha Hv Hq Hbps Hlen Hmi].
  - destruct (live_bps m) as [bps |] eqn:Hl; [| split; [reflexivity | exact Hh]].
    exfalso. unfold live_bps, quotes_present in *.
    destruct (best_ask (book m)) as [a |]; [| discriminate].
    destruct (buy_1500 (var m)) as [v |]; [| discriminate].
    cbn [truthy_opt] in Hq. rewrite Hq in Hl. discriminate.
  - assert (Hl : live_bps m = None).
    { unfold live_bps, quotes_present in *. rewrite Ha, Hv in *.
      cbn [truthy_opt] in Hq. rewrite Hq. exact Hbps. }
    rewrite Hl in *. split; [reflexivity | exact Hh].
  - assert (Hl : live_bps m = Some bps).
    { unfold live_bps, quotes_present in *. rewrite Ha, Hv in *.
      cbn [truthy_opt] in Hq. rewrite Hq. exact Hbps. }
    rewrite Hl in *. split; [| exact Hh].
    cbn [mbind option_bind]. rewrite StatsFacts.median_iqr_unfold.
    apply Nat.ltb_lt in Hlen. rewrite Hlen. reflexivity.
  - assert (Hl : live_bps m = Some bps).
    { unfold live_bps, quotes_present in *. rewrite Ha, Hv in *.
      cbn [truthy_opt] in Hq. rewrite Hq. exact Hbps. }
    rewrite Hl in *. split; [| exact Hh].
    cbn [mbind option_bind]. rewrite Hmi. reflexivity.
Qed.

(** The log of a run is made of the conditions of its ticks. *)
Lemma engine_run_conditions (cfg : Settings) (ticks : list tick) (m0 : Market) :
  forall (m m' : Market) (log : list (Z * option bool)),
    engine_run cfg ticks m = Some (m', log) ->
    log = run_conditions cfg ticks (spread_bps_hist m) m0.
Proof.
  induction ticks as [| t ticks IH]; intros m m' log Hrun.
  - cbn in Hrun. injection Hrun as _ <-. reflexivity.
  - cbn [engine_run] in Hrun.
    destruct (engine_market_case cfg (now_s t) (now_trim t)
                (set_inputs (tick_book t) (tick_var t) m))
      as (m1 & obs & Hstep & Hcase).
    rewrite Hstep in Hrun. cbn [mbind option_bind fst snd] in Hrun.
    destruct (engine_run cfg ticks m1) as [[m2 log2] |] eqn:Hrest; [| discriminate].
    cbn [mbind option_bind fst snd] in Hrun. injection Hrun as _ <-.
    destruct (engine_case_condition _ _ _ _ _ _ Hcase) as [Hobs Hhist].
    destruct (tick_condition_ext cfg (now_s t) (now_trim t)
                (set_inputs (tick_book t) (tick_var t) m)
                (set_spread_bps_hist (spread_bps_hist m)
                   (set_inputs (tick_book t) (tick_var t) m0)))
      as [Hc Hh]; try reflexivity.
    cbn [run_conditions]. rewrite <- Hc, <- Hh, <- Hobs, <- Hhist.
    f_equal. eapply IH. exact Hrest.
Qed.

(** C1.  The debounce of the anomaly flag is asymmetric.  A tick evaluates
    the deviation condition of the specification, that of the live spread
    against the baseline of the history with the sample of the tick in it
    and the threshold [max(MIN_DELTA_BPS, 2 × iqr)], exactly when it has a
    spread in bps and a baseline.  On a tick that finds the condition true,
    [anomaly_started_s] keeps its value if it has one and is set to now
    otherwise, and [anomaly] becomes true as soon as now is at least
    [PERSIST_SEC] after that start (it is left alone before).  On a tick
    that finds the condition false the flag is lowered and the start time
    cleared at once.  A tick that does not reach the condition leaves both
    fields alone.  Hence, over any run that starts with the flag down and no
    start time, the two fields are those the specification gives for the
    conditions of the ticks of the run, as the quotes and the history make
    them: the start time is the first evaluation of the current unbroken
    stretch of true conditions, and the flag is up only if some evaluation
    of that stretch came at least [PERSIST_SEC] after it.  In particular the
    flag stays down throughout when the condition holds for
    [PERSIST_SEC - 1] seconds and then goes false; it goes up on the tick
    [PERSIST_SEC] seconds after the first, and down again on the first tick
    that finds the condition false.  On the market with twenty quiet samples,
    a spread of 100 bps on the ticks of the seconds 21 to 26 and none at
    second 27 make the condition true six times and then false, and the
    flag stays down; a seventh wide tick raises it. *)
Theorem anomaly_debounce (cfg : Settings) :
  (forall (now nt : Z) (m : Market),
      let cond := tick_condition cfg now nt m in
      exists m' : Market,
        engine_market cfg now nt m = Some (m', cond)
        /\ match cond with
           | Some true =>
               let t0 := default now (anomaly_started_s (computed m)) in
               anomaly_started_s (computed m') = Some t0
               /\ anomaly (computed m')
                  = anomaly (computed m) || (PERSIST_SEC cfg <=? now - t0)
           | Some false =>
               anomaly (computed m') = false
               /\ anomaly_started_s (computed m') = None
           | None => anomaly_state m' = anomaly_state m
           end)
  /\ (forall (ticks : list tick) (m : Market),
         anomaly_state m = (false, None) ->
         let log := run_conditions cfg ticks (spread_bps_hist m) m in
         exists m' : Market,
           engine_run cfg ticks m = Some (m', log)
           /\ log.*1 = now_s <$> ticks
           /\ anomaly_state m' = anomaly_ref (PERSIST_SEC cfg) (evaluated log)
           /\ (anomaly (computed m') = true ->
               exists t0 t : Z,
                 anomaly_started_s (computed m') = Some t0
                 /\ head (current_run (evaluated log)) = Some t0
                 /\ t ∈ current_run (evaluated log)
                 /\ PERSIST_SEC cfg <= t - t0)
           /\ (forall (t0 : Z) (k : nat),
                  evaluated log = take k (held_then_cleared t0 (PERSIST_SEC cfg)) ->
                  anomaly (computed m') = false)
           /\ (forall t0 : Z,
                  0 <= PERSIST_SEC cfg ->
                  evaluated log = held t0 (S (Z.to_nat (PERSIST_SEC cfg))) ->
                  anomaly_state m' = (true, Some t0))
           /\ (forall (obs : list (Z * bool)) (t : Z),
                  evaluated log = obs ++ [(t, false)] ->
                  anomaly_state m' = (false, None)))
  /\ (evaluated
        (run_conditions settings ((wide_tick <$> seqZ 21 6) ++ [quiet_tick 27])
           (spread_bps_hist warm_market) warm_market)
      = held_then_cleared 21 (PERSIST_SEC settings)
      /\ evaluated
           (run_conditions settings (wide_tick <$> seqZ 21 7)
              (spread_bps_hist warm_market) warm_market)
         = held 21 (S (Z.to_nat (PERSIST_SEC settings)))).
Proof.
  split; [| split].
  - intros now nt m cond.
    destruct (engine_market_case cfg now nt m) as (m' & obs & Hrun & Hcase).
    destruct (engine_case_condition _ _ _ _ _ _ Hcase) as [Hobs _].
    destruct (engine_market_debounce cfg now nt m) as (m'' & obs' & Hrun' & Hst).
    rewrite Hrun in Hrun'. injection Hrun' as <- <-.
    fold cond in Hobs. subst obs.
    exists m'. split; [exact Hrun |].
    destruct cond as [[|] |]; [| | exact Hst];
      unfold anomaly_state, debounce_step in Hst; cbn [fst snd] in Hst;
      injection Hst as Ha Hs; auto.
  - intros ticks m Hm log.
    destruct (engine_run_debounce cfg ticks m [] Hm) as (m' & log' & Hrun & Htimes & Hst).
    rewrite app_nil_l in Hst.
    assert (Hlog : log' = log) by (eapply engine_run_conditions; exact Hrun).
    subst log'.
    exists m'. split; [exact Hrun |]. split; [exact Htimes |].
    split; [exact Hst |].
    split; [| split; [| split]].
    + intros Hup. unfold anomaly_state, anomaly_ref in Hst.
      destruct (current_run (evaluated log)) as [| t0 run] eqn:Hcur.
      { injection Hst as Ha _. congruence. }
      injection Hst as Ha Hs. rewrite Hup in Ha. symmetry in Ha.
      change (existsb (fun t : Z => PERSIST_SEC cfg <=? t - t0) (t0 :: run) = true) in Ha.
      apply existsb_exists in Ha as (t & Hin & Ht).
      exists t0, t. split; [exact Hs |]. split; [reflexivity |].
      split; [apply list_elem_of_In; exact Hin | apply Z.leb_le; exact Ht].
    + intros t0 k Hobs. rewrite Hobs in Hst.
      pose proof (anomaly_ref_held_prefix (PERSIST_SEC cfg) t0 k) as Hdown.
      rewrite <- Hst in Hdown. exact Hdown.
    + intros t0 Hp Hobs. rewrite Hobs, anomaly_ref_held in Hst.
      rewrite Hst. f_equal. apply Z.leb_le. lia.
    + intros obs t Hobs. rewrite Hobs, anomaly_ref_snoc in Hst. exact Hst.
  - split; vm_compute; reflexivity.
Qed.

End EngineFacts.

(** ** The confirmation executor *)

Module ConfirmFacts.

Lemma confirm_market_cases (cfg : Settings) (now now_ms : Z)
  (var_cb vwap_cb : string -> float -> outcome) (b : string) (m : Market) :
  let asked := CONFIRM_NOTIONAL_USD cfg in
  confirm_market cfg now now_ms var_cb vwap_cb b m =
  if due cfg now (computed m) then
    match var_cb b asked, vwap_cb b asked with
    | Returned (Some vb), Returned (Some vw) =>
        (set_computed
           (set_confirmation (fresh_ConfirmInfo cfg now_ms vb vw) now (computed m)) m,
         Confirmed)
    | _, _ => (m, Attempted_failed)
    end
  else (m, NotDue).
Proof.
  unfold confirm_market, due. cbv zeta.
  destruct (anomaly (computed m)); cbn [negb andb]; [| reflexivity].
  match goal with
  | |- context [negb ?g] => destruct g; cbn [negb]; [reflexivity |]
  end.
  destruct (var_cb b (CONFIRM_NOTIONAL_USD cfg)) as [| [vb |]];
    destruct (vwap_cb b (CONFIRM_NOTIONAL_USD cfg)) as [| [vw |]]; reflexivity.
Qed.

Lemma due_spec (cfg : Settings) (c : Q) (now : Z) (cm : Computed) :
  VAR_CONFIRM_COOLDOWN_SEC cfg = Fin c ->
  last_confirm_s cm <> Some 0 ->
  due cfg now cm = true <->
  anomaly cm = true
  /\ (last_confirm_s cm = None
      \/ exists last : Z,
          last_confirm_s cm = Some last /\ (c <= inject_Z (now - last))%Q).
Proof.
  intros Hc Hnz. unfold due. rewrite Hc.
  destruct (anomaly cm); cbn [andb];
    [| split; [discriminate | intros [? _]; discriminate]].
  destruct (last_confirm_s cm) as [last |].
  - assert (Hl : (last =? 0) = false) by (apply Z.eqb_neq; congruence).
    rewrite Hl. cbn [negb andb]. unfold PyFloat.lt, PyFloat.of_Z, PyFloat.cmp, PyFloat.qlt.
    rewrite negb_involutive, Qle_bool_iff. split.
    + intros Hle. split; [reflexivity |]. right. exists last. auto.
    + intros [_ [Hnone | (l & Hl' & Hle)]]; [discriminate |].
      injection Hl' as <-. exact Hle.
  - split; auto.
Qed.

Lemma due_later (cfg : Settings) (c : Q) (now now' : Z) (cm : Computed) :
  VAR_CONFIRM_COOLDOWN_SEC cfg = Fin c ->
  last_confirm_s cm <> Some 0 ->
  now <= now' -> due cfg now cm = true -> due cfg now' cm = true.
Proof.
  intros Hc Hnz Hle Hdue.
  apply (due_spec cfg c now cm Hc Hnz) in Hdue as [Ha Hgate].
  apply (due_spec cfg c now' cm Hc Hnz). split; [exact Ha |].
  destruct Hgate as [Hnone | (last & Hlast & Hcool)]; [left; exact Hnone |].
  right. exists last. split; [exact Hlast |].
  eapply Qle_trans; [exact Hcool |]. rewrite <- Zle_Qle. lia.
Qed.

(** Over a run, each confirmation comes at least the cooldown after the one
    before it. *)
Lemma confirm_run_spaced (cfg : Settings) (c : Q) (b : string)
  (ticks : list confirm_tick) :
  VAR_CONFIRM_COOLDOWN_SEC cfg = Fin c ->
  Forall (fun t : confirm_tick => at_s t <> 0) ticks ->
  forall m : Market,
    last_confirm_s (computed m) <> Some 0 ->
    spaced c (last_confirm_s (computed m)) (confirmed_at (confirm_run cfg b ticks m).2).
Proof.
  intros Hc Hall. induction Hall as [| t ticks Ht _ IH]; intros m Hnz.
  - exact I.
  - cbn [confirm_run fst snd]. unfold confirm_step.
    rewrite confirm_market_cases. cbv zeta.
    set (m0 := set_computed (set_anomaly (flag t) (computed m)) m).
    assert (Hnz0 : last_confirm_s (computed m0) <> Some 0) by exact Hnz.
    destruct (due cfg (at_s t) (computed m0)) eqn:Hdue; [| apply (IH m0 Hnz0)].
    destruct (var_answer t) as [| [vb |]]; try apply (IH m0 Hnz0).
    destruct (vwap_answer t) as [| [vw |]]; try apply (IH m0 Hnz0).
    cbn [fst snd]. unfold confirmed_at. cbn [omap fst snd].
    fold (confirmed_at
            (confirm_run cfg b ticks
               (set_computed
                  (set_confirmation (fresh_ConfirmInfo cfg (at_ms t) vb vw) (at_s t)
                     (computed m0)) m0)).2).
    cbn [spaced]. split.
    + apply (due_spec cfg c (at_s t) (computed m0) Hc Hnz0) in Hdue as [_ Hgate].
      change (last_confirm_s (computed m0)) with (last_confirm_s (computed m)) in Hgate.
      destruct Hgate as [-> | (last & -> & Hcool)]; [exact I | exact Hcool].
    + apply (IH (set_computed
                   (set_confirmation (fresh_ConfirmInfo cfg (at_ms t) vb vw) (at_s t)
                      (computed m0)) m0)).
      cbn. intros [=]. contradiction.
Qed.

(** C3.  With a cooldown that is a number and a clock past the epoch (the
    source takes a [last_confirm_s] of zero for an unset one), the executor
    asks for quotes for a market exactly when its flag is raised and
    [last_confirm_s] is unset or at least the cooldown before now.  When a
    quote source raises or answers [None] the market is left as it was,
    [confirm] and [last_confirm_s] included, so that it is due again at any
    later tick.  Only when both sources answer with a price is [confirm]
    replaced, by a record built from this tick alone, and [last_confirm_s]
    set to now, the rest of the record being kept.  Hence over any run each
    completed confirmation comes at least the cooldown after the previous
    one. *)
Theorem confirmation_gate (cfg : Settings) (c : Q) :
  VAR_CONFIRM_COOLDOWN_SEC cfg = Fin c ->
  (forall (now now_ms : Z) (var_cb vwap_cb : string -> float -> outcome)
          (b : string) (m : Market),
      last_confirm_s (computed m) <> Some 0 ->
      let r := confirm_market cfg now now_ms var_cb vwap_cb b m in
      let var_buy := var_cb b (CONFIRM_NOTIONAL_USD cfg) in
      let vwap := vwap_cb b (CONFIRM_NOTIONAL_USD cfg) in
      (r.2 <> NotDue <->
       anomaly (computed m) = true
       /\ (last_confirm_s (computed m) = None
           \/ exists last : Z,
               last_confirm_s (computed m) = Some last
               /\ (c <= inject_Z (now - last))%Q))
      /\ (r.2 <> Confirmed -> r.1 = m)
      /\ (r.2 = Attempted_failed <->
          r.2 <> NotDue
          /\ (var_buy = Raised \/ var_buy = Returned None
              \/ vwap = Raised \/ vwap = Returned None))
      /\ (r.2 = Attempted_failed ->
          forall (now' now_ms' : Z) (var_cb' vwap_cb' : string -> float -> outcome),
            now <= now' ->
            (confirm_market cfg now' now_ms' var_cb' vwap_cb' b r.1).2 <> NotDue)
      /\ (r.2 = Confirmed <->
          r.2 <> NotDue
          /\ exists vb vw : float,
              var_buy = Returned (Some vb) /\ vwap = Returned (Some vw))
      /\ (forall vb vw : float,
             r.2 = Confirmed ->
             var_buy = Returned (Some vb) -> vwap = Returned (Some vw) ->
             confirm (computed r.1) = Some (fresh_ConfirmInfo cfg now_ms vb vw)
             /\ last_confirm_s (computed r.1) = Some now
             /\ r.1 = set_computed
                        (set_confirmation (fresh_ConfirmInfo cfg now_ms vb vw) now
                           (computed m)) m))
  /\ (forall (b : string) (ticks : list confirm_tick) (m : Market),
         last_confirm_s (computed m) <> Some 0 ->
         Forall (fun t : confirm_tick => at_s t <> 0) ticks ->
         spaced c (last_confirm_s (computed m))
           (confirmed_at (confirm_run cfg b ticks m).2)).
Proof.
  intros Hc. split.
  - intros now now_ms var_cb vwap_cb b m Hnz r var_buy vwap.
    pose proof (due_spec cfg c now (computed m) Hc Hnz) as Hdue.
    assert (Hr : r = if due cfg now (computed m) then
                       match var_buy, vwap with
                       | Returned (Some vb), Returned (Some vw) =>
                           (set_computed
                              (set_confirmation (fresh_ConfirmInfo cfg now_ms vb vw)
                                 now (computed m)) m, Confirmed)
                       | _, _ => (m, Attempted_failed)
                       end
                     else (m, NotDue))
      by apply confirm_market_cases.
    clearbody r var_buy vwap.
    destruct (due cfg now (computed m)) eqn:Hd.
    + assert (Hopen : anomaly (computed m) = true
                      /\ (last_confirm_s (computed m) = None
                          \/ exists last : Z,
                              last_confirm_s (computed m) = Some last
                              /\ (c <= inject_Z (now - last))%Q))
        by (apply Hdue; reflexivity).
      assert (Hagain : forall (now' now_ms' : Z)
                              (var_cb' vwap_cb' : string -> float -> outcome),
                 now <= now' ->
                 (confirm_market cfg now' now_ms' var_cb' vwap_cb' b m).2 <> NotDue).
      { intros now' now_ms' var_cb' vwap_cb' Hle.
        rewrite confirm_market_cases. cbv zeta.
        rewrite (due_later cfg c now now' (computed m) Hc Hnz Hle Hd).
        destruct (var_cb' b (CONFIRM_NOTIONAL_USD cfg)) as [| [|]];
          destruct (vwap_cb' b (CONFIRM_NOTIONAL_USD cfg)) as [| [|]];
          discriminate. }
      assert (Hfailed :
                forall r0 : Market * confirm_event,
                  r0 = (m, Attempted_failed) ->
                  (var_buy = Raised \/ var_buy = Returned None
                   \/ vwap = Raised \/ vwap = Returned None) ->
                  (r0.2 <> NotDue <->
                   anomaly (computed m) = true
                   /\ (last_confirm_s (computed m) = None
                       \/ exists last : Z,
                           last_confirm_s (computed m) = Some last
                           /\ (c <= inject_Z (now - last))%Q))
                  /\ (r0.2 <> Confirmed -> r0.1 = m)
                  /\ (r0.2 = Attempted_failed <->
                      r0.2 <> NotDue
                      /\ (var_buy = Raised \/ var_buy = Returned None
                          \/ vwap = Raised \/ vwap = Returned None))
                  /\ (r0.2 = Attempted_failed ->
                      forall (now' now_ms' : Z)
                             (var_cb' vwap_cb' : string -> float -> outcome),
                        now <= now' ->
                        (confirm_market cfg now' now_ms' var_cb' vwap_cb' b r0.1).2
                        <> NotDue)
                  /\ (r0.2 = Confirmed <->
                      r0.2 <> NotDue
                      /\ exists vb vw : float,
                          var_buy = Returned (Some vb) /\ vwap = Returned (Some vw))
                  /\ (forall vb vw : float,
                         r0.2 = Confirmed ->
                         var_buy = Returned (Some vb) -> vwap = Returned (Some vw) ->
                         confirm (computed r0.1)
                         = Some (fresh_ConfirmInfo cfg now_ms vb vw)
                         /\ last_confirm_s (computed r0.1) = Some now
                         /\ r0.1 = set_computed
                                     (set_confirmation
                                        (fresh_ConfirmInfo cfg now_ms vb vw) now
                                        (computed m)) m)).
      { intros r0 -> Hmiss. cbn [fst snd].
        split; [split; [intros _; exact Hopen | discriminate] |].
        split; [reflexivity |].
        split; [split; [intros _; split; [discriminate | exact Hmiss] | reflexivity] |].
        split; [intros _; exact Hagain |].
        split.
        { split; [discriminate |].
          intros [_ (vb' & vw' & Hvb & Hvw)].
          destruct Hmiss as [Hm | [Hm | [Hm | Hm]]]; congruence. }
        intros vb' vw' Hev. discriminate. }
      destruct var_buy as [| [vb |]];
        [apply Hfailed; [exact Hr | auto] | | apply Hfailed; [exact Hr | auto]].
      destruct vwap as [| [vw |]];
        [apply Hfailed; [exact Hr | auto] | | apply Hfailed; [exact Hr | auto 6]].
      subst r. cbn [fst snd].
      split; [split; [intros _; exact Hopen | discriminate] |].
      split; [congruence |].
      split.
      { split; [discriminate |].
        intros [_ [Hm | [Hm | [Hm | Hm]]]]; discriminate. }
      split; [discriminate |].
      split; [split; [intros _; split; [discriminate | eauto] | reflexivity] |].
      intros vb' vw' _ Hvb Hvw. injection Hvb as <-. injection Hvw as <-. auto.
    + subst r. cbn [fst snd].
      split.
      { split; [congruence |]. intros Hopen. apply Hdue in Hopen. congruence. }
      split; [reflexivity |].
      split; [split; [discriminate | intros [? _]; congruence] |].
      split; [discriminate |].
      split; [split; [discriminate | intros [? _]; congruence] |].
      discriminate.
  - intros b ticks m Hnz Hall.
    apply confirm_run_spaced; assumption.
Qed.

(** The theorem at the default settings, on the run [retry_ticks] of the
    market with the flag raised. *)
Lemma confirmation_gate_witness :
  VAR_CONFIRM_COOLDOWN_SEC settings = Fin 30
  /\ last_confirm_s (computed anomalous_market) <> Some 0
  /\ Forall (fun t : confirm_tick => at_s t <> 0) retry_ticks
  /\ spaced 30 (last_confirm_s (computed anomalous_market))
       (confirmed_at (confirm_run settings "ETH" retry_ticks anomalous_market).2).
Proof.
  assert (Hnz : last_confirm_s (computed anomalous_market) <> Some 0)
    by (vm_compute; discriminate).
  assert (Hall : Forall (fun t : confirm_tick => at_s t <> 0) retry_ticks)
    by (repeat constructor; discriminate).
  split; [reflexivity |]. split; [exact Hnz |]. split; [exact Hall |].
  apply (confirmation_gate settings 30 eq_refl); assumption.
Defined.

(** On that run the secondary source has no quote at second 100 and the
    market is tried again at second 101, where the confirmation completes;
    it is not due at second 130; at second 131 the primary source raises,
    and the market is confirmed again at second 132. *)
Example confirmation_retried_then_spaced :
  (confirm_run settings "ETH" retry_ticks anomalous_market).2
  = [(100, Attempted_failed); (101, Confirmed); (130, NotDue);
     (131, Attempted_failed); (132, Confirmed)].
Proof. vm_compute. reflexivity. Qed.

(** *** Outside the hypotheses of the gate *)

(** X7.  Where the cooldown does not hold a confirmation back.  The source
    tests [last_confirm_s] by its truth value and compares the elapsed time
    with [<]: a market whose flag is raised is asked for quotes at every
    tick, whatever the time elapsed, when its [last_confirm_s] is [0] or when
    [VAR_CONFIRM_COOLDOWN_SEC] is not-a-number. *)
Theorem cooldown_blind_spots (cfg : Settings) (now now_ms : Z)
  (var_cb vwap_cb : string -> float -> outcome) (b : string) (m : Market) :
  anomaly (computed m) = true ->
  last_confirm_s (computed m) = Some 0 \/ VAR_CONFIRM_COOLDOWN_SEC cfg = NaN ->
  (confirm_market cfg now now_ms var_cb vwap_cb b m).2 <> NotDue.
Proof.
  intros Ha Hedge.
  rewrite confirm_market_cases. cbv zeta.
  assert (Hdue : due cfg now (computed m) = true).
  { unfold due. rewrite Ha. cbn [andb].
    destruct Hedge as [-> | Hnan]; [reflexivity |].
    rewrite Hnan. destruct (last_confirm_s (computed m)) as [last |]; [| reflexivity].
    unfold PyFloat.lt, PyFloat.cmp, PyFloat.of_Z. rewrite andb_false_r. reflexivity. }
  rewrite Hdue.
  destruct (var_cb b (CONFIRM_NOTIONAL_USD cfg)) as [| [vb |]];
    destruct (vwap_cb b (CONFIRM_NOTIONAL_USD cfg)) as [| [vw |]]; discriminate.
Qed.

(** One second after a confirmation stamped with second zero, thirty seconds
    of cooldown notwithstanding. *)
Lemma cooldown_blind_spots_witness :
  (confirm_market settings 1 1000
     (fun _ _ => Returned (Some (Fin 101))) (fun _ _ => Returned (Some (Fin 100)))
     "ETH" epoch_confirmed_market).2 <> NotDue.
Proof.
  apply (cooldown_blind_spots settings 1 1000
           (fun _ _ => Returned (Some (Fin 101))) (fun _ _ => Returned (Some (Fin 100)))
           "ETH" epoch_confirmed_market).
  - vm_compute. reflexivity.
  - left. vm_compute. reflexivity.
Defined.

End ConfirmFacts.

(** ** The reconnect loop of the feed *)

Module FeedFacts.

Lemma ws_passes_failures (errs : list string) :
  forall st : ws_loop,
    slept (ws_passes st (Connect_failed <$> errs))
    = slept st ++ delays (backoff st) (length errs)
    /\ backoff (ws_passes st (Connect_failed <$> errs))
       = Nat.iter (length errs) next_backoff (backoff st).
Proof.
  induction errs as [| err errs IH]; intros st.
  - simpl. rewrite app_nil_r. auto.
  - cbn [fmap list_fmap ws_passes ws_attempt length delays].
    destruct (IH (ws_failure err st)) as [Hs Hb].
    rewrite Hs, Hb. cbn [ws_failure slept backoff].
    rewrite <- app_assoc. split; [reflexivity |].
    rewrite Nat.iter_succ_r. reflexivity.
Qed.

Lemma next_backoff_Fin (x : Q) :
  next_backoff (Fin x)
  = Fin (if Qle_bool (x * (16 # 10)) 15 then x * (16 # 10) else 15)%Q.
Proof.
  unfold next_backoff, PyFloat.min, PyFloat.lt, PyFloat.mul, PyFloat.lift2,
    PyFloat.cmp, PyFloat.qlt.
  destruct (Qle_bool (x * (16 # 10)) 15); reflexivity.
Qed.

Lemma next_backoff_closed (i : nat) (x : Q) :
  (x == Qmin (growth i) 15)%Q ->
  PyFloat.eqv (next_backoff (Fin x)) (Fin (Qmin (growth (S i)) 15)).
Proof.
  intros Hx. rewrite next_backoff_Fin. cbn [PyFloat.eqv growth].
  destruct (Qle_bool (x * (16 # 10)) 15) eqn:Hle.
  - apply Qle_bool_iff in Hle.
    destruct (Qlt_le_dec 15 (growth i)) as [Hbig | Hsmall].
    + rewrite (Q.min_r (growth i) 15) in Hx by (apply Qlt_le_weak; exact Hbig).
      rewrite Hx in Hle. exfalso. revert Hle. apply Qlt_not_le. reflexivity.
    + rewrite (Q.min_l (growth i) 15) in Hx by exact Hsmall.
      rewrite Q.min_l by (rewrite <- Hx; exact Hle).
      rewrite Hx. reflexivity.
  - assert (Hgt : (15 < x * (16 # 10))%Q).
    { apply Qnot_le_lt. intros Hc. apply Qle_bool_iff in Hc. congruence. }
    symmetry. apply Q.min_r.
    destruct (Qlt_le_dec 15 (growth i)) as [Hbig | Hsmall].
    + lra.
    + rewrite (Q.min_l (growth i) 15) in Hx by exact Hsmall.
      rewrite <- Hx. apply Qlt_le_weak. exact Hgt.
Qed.

(** The delays of consecutive failures are the powers of [1.6], capped. *)
Lemma delays_closed_form (n : nat) :
  forall (i : nat) (x : Q),
    (x == Qmin (growth i) 15)%Q ->
    Forall2 PyFloat.eqv (delays (Fin x) n)
      ((fun j : nat => Fin (Qmin (growth j) 15)) <$> seq i n).
Proof.
  induction n as [| n IH]; intros i x Hx; cbn [delays seq fmap list_fmap].
  - constructor.
  - constructor; [exact Hx |].
    pose proof (next_backoff_closed i x Hx) as Hnext.
    rewrite next_backoff_Fin in *. cbn [PyFloat.eqv] in Hnext.
    apply IH. exact Hnext.
Qed.

(** C5.  A failed pass sleeps for the current delay and then multiplies it
    by [1.6], clamped at [15.0]; a pass that connects resets the delay to
    [1.0] before anything else, so that a connection that is lost sleeps
    [1.0].  Hence the delays slept through consecutive failures, from the
    start of the loop or after any reconnect, follow the recurrence from
    [1.0]; their values are the powers of [1.6] capped at [15], that is
    [1.0, 1.6, 2.56, 4.096, 6.5536, 10.48576, 15.0, 15.0, ...]. *)
Theorem reconnect_backoff :
  (forall (st : ws_loop) (err : string),
      ws_attempt st (Connect_failed err)
      = ({| backoff := next_backoff (backoff st);
            ws_error := Some err;
            slept := slept st ++ [backoff st] |}, true))
  /\ (forall (st : ws_loop) (acked : bool) (e : session_end),
         backoff (ws_attempt st (Connected acked e)).1
         = match e with
           | Session_error _ => next_backoff (Fin 1)
           | _ => Fin 1
           end
         /\ slept (ws_attempt st (Connected acked e)).1
            = match e with
              | Session_error _ => slept st ++ [Fin 1]
              | _ => slept st
              end)
  /\ (forall errs : list string,
         slept (lighter_ws_loop (Connect_failed <$> errs))
         = delays (Fin 1) (length errs))
  /\ (forall (st : ws_loop) (acked : bool) (err : string) (errs : list string),
         slept (ws_passes st
                  (Connected acked (Session_error err) :: (Connect_failed <$> errs)))
         = slept st ++ delays (Fin 1) (S (length errs)))
  /\ (forall n : nat,
         Forall2 PyFloat.eqv (delays (Fin 1) n)
           ((fun j : nat => Fin (Qmin (growth j) 15)) <$> seq 0 n))
  /\ Forall2 PyFloat.eqv (delays (Fin 1) 8)
       [Fin 1; Fin (16 # 10); Fin (256 # 100); Fin (4096 # 1000);
        Fin (65536 # 10000); Fin (1048576 # 100000); Fin 15; Fin 15].
Proof.
  split; [reflexivity |].
  split; [intros st [|] [err | |]; split; reflexivity |].
  split.
  { intros errs. unfold lighter_ws_loop. cbn [slept].
    destruct (ws_passes_failures errs
                {| backoff := Fin 1; ws_error := None; slept := [] |}) as [Hs _].
    exact Hs. }
  split.
  { intros st acked err errs. cbn [ws_passes ws_attempt].
    destruct (ws_passes_failures errs
                (ws_failure err
                   (if acked then set_error None (set_backoff (Fin 1) st)
                    else set_backoff (Fin 1) st)))
      as [Hs _].
    rewrite Hs. destruct acked;
      cbn [ws_failure set_backoff set_error slept backoff delays];
      rewrite <- app_assoc; reflexivity. }
  split.
  { intros n. apply delays_closed_form. reflexivity. }
  repeat (constructor; [vm_compute; reflexivity |]). constructor.
Qed.

(** In binary64 the same eight delays are within [2^-46] of those values,
    the third to the sixth being off by one or two units in the last place. *)
Lemma reconnect_backoff_binary64 :
  zip_with Binary64.close_to Binary64.first_delays Binary64.decimals
  = replicate 8 true
  /\ zip_with PrimFloat.eqb Binary64.first_delays Binary64.decimals
     = [true; true; false; false; false; false; true; true].
Proof. split; vm_compute; reflexivity. Qed.

(** *** The bounds of the delay, on any trace *)

(** The next delay stays within the bounds. *)
Lemma next_backoff_in_range (d : float) :
  delay_in_range d -> delay_in_range (next_backoff d).
Proof.
  destruct d as [x |]; [| intros []]. intros [Hlo Hhi].
  rewrite next_backoff_Fin. cbn [delay_in_range].
  destruct (Qle_bool (x * (16 # 10)) 15) eqn:Hle.
  - apply Qle_bool_iff in Hle. split; lra.
  - split; discriminate.
Qed.

(** One pass keeps the delay in store and the delays slept within the
    bounds, and sleeps at most once. *)
Lemma ws_attempt_in_range (st : ws_loop) (a : attempt) :
  delay_in_range (backoff st) -> Forall delay_in_range (slept st) ->
  delay_in_range (backoff (ws_attempt st a).1)
  /\ Forall delay_in_range (slept (ws_attempt st a).1)
  /\ (length (slept (ws_attempt st a).1) <= S (length (slept st)))%nat.
Proof.
  intros Hb Hs.
  assert (Hone : delay_in_range (Fin 1)) by (split; discriminate).
  destruct a as [err | | acked [err | |]]; cbn [ws_attempt fst];
    try destruct acked;
    cbn [ws_failure set_backoff set_error backoff slept];
    rewrite ?length_app; cbn [length];
    repeat split;
    try (apply (next_backoff_in_range _ Hb) || apply (next_backoff_in_range _ Hone));
    try (apply Forall_app; split; [exact Hs | repeat constructor; assumption || discriminate]);
    try assumption; try lia; try discriminate.
Qed.

Lemma ws_passes_in_range (trace : list attempt) :
  forall st : ws_loop,
    delay_in_range (backoff st) -> Forall delay_in_range (slept st) ->
    delay_in_range (backoff (ws_passes st trace))
    /\ Forall delay_in_range (slept (ws_passes st trace))
    /\ (length (slept (ws_passes st trace)) <= length (slept st) + length trace)%nat.
Proof.
  induction trace as [| a trace IH]; intros st Hb Hs.
  - simpl. rewrite Nat.add_0_r. auto.
  - destruct (ws_attempt_in_range st a Hb Hs) as (Hb1 & Hs1 & Hl1).
    cbn [ws_passes]. destruct (ws_attempt st a) as [st1 continue].
    cbn [fst] in Hb1, Hs1, Hl1. simpl length.
    destruct continue.
    + destruct (IH st1 Hb1 Hs1) as (Hb2 & Hs2 & Hl2).
      split; [exact Hb2 |]. split; [exact Hs2 | lia].
    + split; [exact Hb1 |]. split; [exact Hs1 | lia].
Qed.

(** X8.  Whatever the passes of the reconnect loop run into, connections
    that fail, that are lost, that are acknowledged or not, every delay slept
    is a number between 1 and 15 seconds, as is the delay in store at the
    end; the loop sleeps at most once a pass; and it exits with a
    [last_error] that is set and not empty, the last error or ["stopped"]. *)
Theorem reconnect_delays_bounded (trace : list attempt) :
  let st := lighter_ws_loop trace in
  Forall delay_in_range (slept st)
  /\ delay_in_range (backoff st)
  /\ (length (slept st) <= length trace)%nat
  /\ exists e : string, ws_error st = Some e /\ e <> ""%string.
Proof.
  intros st. subst st. unfold lighter_ws_loop. cbn [slept backoff ws_error].
  destruct (ws_passes_in_range trace
              {| backoff := Fin 1; ws_error := None; slept := [] |})
    as (Hb & Hs & Hl); [split; discriminate | constructor |].
  cbn [slept length] in Hl.
  split; [exact Hs |]. split; [exact Hb |]. split; [lia |].
  eexists. split; [reflexivity |].
  set (err := ws_error (ws_passes {| backoff := Fin 1; ws_error := None; slept := [] |} trace)).
  destruct (decide (err = Some ""%string)) as [Heq | Hne].
  - rewrite bool_decide_eq_true_2 by exact Heq. discriminate.
  - rewrite bool_decide_eq_false_2 by exact Hne.
    destruct err as [e |]; [| discriminate].
    simpl. intros He. apply Hne. rewrite He. reflexivity.
Qed.

(** *** The resolution of bid and ask *)

Section pick.
Context `{Builtins}.

Lemma pick_first_first_present (d : gmap string pyval) (keys : list string) :
  pick_first d keys = first_present d keys ≫= _to_float.
Proof.
  unfold first_present. induction keys as [| k keys IH]; [reflexivity |].
  cbn [pick_first omap list_omap].
  destruct (d !! k) as [[] |]; try reflexivity; exact IH.
Qed.

Lemma pick_first_insert_other (d : gmap string pyval) (keys : list string)
  (k : string) (v : pyval) :
  k ∉ keys -> pick_first (<[k := v]> d) keys = pick_first d keys.
Proof.
  induction keys as [| k' keys IH]; [reflexivity |].
  intros Hnot. apply not_elem_of_cons in Hnot as [Hne Hnot].
  cbn [pick_first]. rewrite lookup_insert_ne by exact Hne.
  rewrite (IH Hnot). reflexivity.
Qed.

(** Against the reading that the index price serves as a fallback: an entry
    that carries only an index price gets no bid and no ask, although the
    index price converts to a number. *)
Lemma index_price_is_no_fallback :
  @_pick_best_bid_ask no_builtins index_only = (None, None)
  /\ @_to_float no_builtins
       (or_val (dict_get index_only "index_price") (dict_get index_only "indexPrice"))
     = Some (Fin 100).
Proof. split; reflexivity. Qed.

(** C8, amended.  Each side is the conversion of the first of its field
    names, in the order [best_bid, bid, bid_price, bestBid, bestBidPrice]
    (and the ask analogues), that is present and not [None].  A side that
    this leaves unresolved takes the mark price, [mark_price] or else
    [markPrice]; when neither side is resolved both take that one value.
    The index price is never consulted. *)
Theorem bid_ask_resolution (d : gmap string pyval) :
  let mark := _to_float (or_val (dict_get d "mark_price") (dict_get d "markPrice")) in
  let bid := first_present d bid_keys ≫= _to_float in
  let ask := first_present d ask_keys ≫= _to_float in
  bid_keys = ["best_bid"; "bid"; "bid_price"; "bestBid"; "bestBidPrice"]%string
  /\ ask_keys = ["best_ask"; "ask"; "ask_price"; "bestAsk"; "bestAskPrice"]%string
  /\ _pick_best_bid_ask d
     = (match bid with Some _ => bid | None => mark end,
        match ask with Some _ => ask | None => mark end)
  /\ (bid = None -> ask = None -> _pick_best_bid_ask d = (mark, mark))
  /\ (forall v : pyval,
         _pick_best_bid_ask (<["index_price"%string := v]> d) = _pick_best_bid_ask d
         /\ _pick_best_bid_ask (<["indexPrice"%string := v]> d) = _pick_best_bid_ask d).
Proof.
  intros mark bid ask.
  split; [reflexivity |]. split; [reflexivity |].
  assert (Hpick : _pick_best_bid_ask d
                  = (match bid with Some _ => bid | None => mark end,
                     match ask with Some _ => ask | None => mark end)).
  { unfold _pick_best_bid_ask. rewrite !pick_first_first_present.
    fold bid ask mark.
    destruct bid, ask; reflexivity. }
  split; [exact Hpick |].
  split; [intros Hb Ha; rewrite Hpick, Hb, Ha; reflexivity |].
  intros v.
  assert (Hother : forall k : string,
             k ∉ bid_keys -> k ∉ ask_keys ->
             k <> "mark_price"%string -> k <> "markPrice"%string ->
             _pick_best_bid_ask (<[k := v]> d) = _pick_best_bid_ask d).
  { intros k Hb Ha Hm1 Hm2. unfold _pick_best_bid_ask, dict_get.
    rewrite !pick_first_insert_other by assumption.
    rewrite !lookup_insert_ne by congruence. reflexivity. }
  split; apply Hother; try discriminate;
    unfold bid_keys, ask_keys; rewrite !not_elem_of_cons;
    repeat split; try discriminate; apply not_elem_of_nil.
Qed.

End pick.

(** Explicit fields are taken in the order of the names, a [None] being
    passed over; a mark price fills the side that is missing, or both. *)
Example bid_ask_examples :
  @_pick_best_bid_ask no_builtins
    (<["best_bid"%string := PNone]>
     (<["bid"%string := PInt 99]>
     (<["bid_price"%string := PInt 98]>
     (<["bestAsk"%string := PFloat (Fin 101)]> ∅))))
  = (Some (Fin 99), Some (Fin 101))
  /\ @_pick_best_bid_ask no_builtins
       (<["ask"%string := PInt 101]> (<["markPrice"%string := PInt 100]> ∅))
     = (Some (Fin 100), Some (Fin 101))
  /\ @_pick_best_bid_ask no_builtins
       (<["mark_price"%string := PInt 100]> index_only)
     = (Some (Fin 100), Some (Fin 100)).
Proof. repeat split. Qed.

End FeedFacts.

(** ** Batch ingestion and the chart series *)

Module MainFacts.

Lemma alist_get_set_eq {K V : Type} `{EqDecision K} (k : K) (v : V)
  (l : list (K * V)) :
  alist_get k (alist_set k v l) = Some v.
Proof.
  induction l as [| [k' v'] l IH]; simpl.
  - destruct (decide (k = k)); [reflexivity | contradiction].
  - destruct (decide (k = k')) as [-> | Hne]; simpl.
    + destruct (decide (k' = k')); [reflexivity | contradiction].
    + destruct (decide (k = k')); [contradiction | exact IH].
Qed.

Lemma alist_get_set_ne {K V : Type} `{EqDecision K} (k k0 : K) (v : V)
  (l : list (K * V)) :
  k0 <> k -> alist_get k0 (alist_set k v l) = alist_get k0 l.
Proof.
  intros Hne. induction l as [| [k' v'] l IH]; simpl.
  - destruct (decide (k0 = k)); [contradiction | reflexivity].
  - destruct (decide (k = k')) as [-> | Hkk]; simpl.
    + destruct (decide (k0 = k')); [contradiction | reflexivity].
    + destruct (decide (k0 = k')); [reflexivity | exact IH].
Qed.


Section ingest.
Context `{Builtins}.


(** [_compute_spread] does not raise on the float of an integer. *)
Lemma compute_spread_total (app : App) (base : string) (n : Z) (mode : string) :
  exists s : SpreadRow,
    _compute_spread app base (PyFloat.of_Z n) mode = Some s.
Proof.
  unfold _compute_spread. cbv zeta.
  change (_notional_key (PFloat (PyFloat.of_Z n))) with (Some (py_round (inject_Z n))).
  cbn [mbind option_bind].
  repeat match goal with
         | |- context [let '(_, _) := ?x in _] => destruct x
         end.
  eexists. reflexivity.
Qed.

Lemma push_point_frame (app : App) (now_ms : Z) (base mode : string)
  (usd bps : option float) :
  SAMPLE_EVERY_S (_push_point app now_ms base mode usd bps) = SAMPLE_EVERY_S app
  /\ LIGHTER_STATE (_push_point app now_ms base mode usd bps) = LIGHTER_STATE app
  /\ VAR_BATCH (_push_point app now_ms base mode usd bps) = VAR_BATCH app
  /\ ACTIVE_BASES (_push_point app now_ms base mode usd bps) = ACTIVE_BASES app.
Proof.
  unfold _push_point. destruct usd, bps; try (repeat split; reflexivity).
  destruct (bool_decide (strip (upper base) = ""%string)); repeat split; reflexivity.
Qed.

(** The chart points of a stored record are pushed without an exception and
    touch the series only. *)
Lemma push_modes_frame (modes : list string) :
  forall (app : App) (now_ms : Z) (base : string) (n : Z),
    exists app' : App,
      push_modes app now_ms base n modes = Some app'
      /\ SAMPLE_EVERY_S app' = SAMPLE_EVERY_S app
      /\ LIGHTER_STATE app' = LIGHTER_STATE app
      /\ VAR_BATCH app' = VAR_BATCH app
      /\ ACTIVE_BASES app' = ACTIVE_BASES app.
Proof.
  induction modes as [| mode modes IH]; intros app now_ms base n.
  - exists app. repeat split; reflexivity.
  - cbn [push_modes].
    destruct (compute_spread_total app base n mode) as [s Hs].
    rewrite Hs. cbn [mbind option_bind].
    destruct (IH (_push_point app now_ms base mode (row_spread_usd s) (row_spread_bps s))
                now_ms base n) as (app' & Hrun & H1 & H2 & H3 & H4).
    destruct (push_point_frame app now_ms base mode (row_spread_usd s) (row_spread_bps s))
      as (F1 & F2 & F3 & F4).
    exists app'. split; [exact Hrun |].
    repeat split; congruence.
Qed.

(** The whole of the body of the loop, by the path it takes. *)
Lemma ingest_quote_cases (app : App) (now_ms : Z) (q : gmap string pyval) :
  let base := quote_base q in
  ingest_quote app now_ms (Row q) =
  if bool_decide (base = ""%string) then (app, Skipped)
  else
    match _notional_key (quote_notional q) with
    | None => (app, Raised_error)
    | Some n =>
        match _to_f (dict_get q "bid"), _to_f (dict_get q "ask") with
        | Some b, Some a =>
            let bid := if PyFloat.gt b a then a else b in
            let ask := if PyFloat.gt b a then b else a in
            if off_mark (reference_price app base) bid ask then
              (set_ACTIVE_BASES ({[ base ]} ∪ ACTIVE_BASES app) app, Rejected_off_mark)
            else
              let entry :=
                var_entry now_ms base n bid ask
                  (_to_f (dict_get q "mid")) (_to_f (dict_get q "qty_used")) in
              let stored :=
                set_ACTIVE_BASES ({[ base ]} ∪ ACTIVE_BASES app)
                  (set_VAR_BATCH (alist_set (base, n) entry (VAR_BATCH app)) app) in
              match push_modes stored now_ms base n
                      ["lighter_bid_minus_var_sell"%string;
                       "lighter_ask_minus_var_buy"%string] with
              | Some app' => (app', Stored)
              | None => (stored, Raised_error)
              end
        | _, _ => (app, Skipped)
        end
    end.
Proof.
  cbv zeta. unfold ingest_quote.
  fold (quote_base q). fold (quote_notional q).
  destruct (bool_decide (quote_base q = ""%string)); [reflexivity |].
  destruct (_notional_key (quote_notional q)) as [n |]; [| reflexivity].
  destruct (_to_f (dict_get q "bid")) as [b |]; [| reflexivity].
  destruct (_to_f (dict_get q "ask")) as [a |]; [| reflexivity].
  destruct (PyFloat.gt b a); reflexivity.
Qed.


End ingest.

(** The record of the example, served by a freshly started application at
    millisecond 1000. *)
Example eth_quote_stored :
  exists entry : gmap string pyval,
    @ingest_var_batch no_builtins new_App (fun _ => 1000) (Some [Row eth_quote])
    = (set_SPREAD_SERIES (SPREAD_SERIES new_App)
         (set_ACTIVE_BASES {[ "ETH"%string ]}
            (set_VAR_BATCH [(("ETH"%string, 1500), entry)] new_App)), Some 1%nat)
    /\ entry !! "bid"%string = Some (PFloat (Fin 100))
    /\ entry !! "ask"%string = Some (PFloat (Fin 101)).
Proof.
  eexists. split; [| split].
  - unfold ingest_var_batch, ingest_quotes.
    rewrite (ingest_quote_cases new_App 1000 eth_quote).
    vm_compute. reflexivity.
  - reflexivity.
  - reflexivity.
Qed.

(** The same record, served when the feed has ETH at a mark of 200: the
    mean of 100 and 101 is off by half, nothing is stored, and ETH is active. *)
Example eth_quote_off_mark :
  @ingest_var_batch no_builtins eth_at_200 (fun _ => 1000) (Some [Row eth_quote])
  = (set_ACTIVE_BASES {[ "ETH"%string ]} eth_at_200, Some 0%nat).
Proof.
  unfold ingest_var_batch, ingest_quotes.
  rewrite (ingest_quote_cases eth_at_200 1000 eth_quote).
  vm_compute. reflexivity.
Qed.

(** *** The chart series *)

Lemma MAX_POINTS_ge (sample_every : Q) : 50 <= MAX_POINTS sample_every.
Proof.
  unfold MAX_POINTS, py_int.
  set (d := if PyFloat.qlt sample_every (1 # 4) then 1 # 4 else sample_every).
  assert (Hd : (0 < d)%Q).
  { subst d. unfold PyFloat.qlt.
    destruct (Qle_bool (1 # 4) sample_every) eqn:Hle; cbn [negb]; [| reflexivity].
    apply Qle_bool_iff in Hle. eapply Qlt_le_trans; [| exact Hle]. reflexivity. }
  assert (Hq : (0 <= inject_Z MAX_WINDOW_S / d)%Q).
  { apply Qle_shift_div_l; [exact Hd |]. rewrite Qmult_0_l. discriminate. }
  apply Qle_bool_iff in Hq as Hb. rewrite Hb.
  apply Qfloor_resp_le in Hq. change (Qfloor 0) with 0 in Hq. lia.
Qed.

(** Pushing into a buffer of capacity [n >= 1] that is not over capacity. *)
Lemma deque_append_bounded {A : Type} (dq : deque A) (x : A) (n : Z) :
  maxlen dq = Some n -> 1 <= n -> Z.of_nat (length (items dq)) <= n ->
  maxlen (deque_append dq x) = Some n
  /\ Z.of_nat (length (items (deque_append dq x))) <= n
  /\ (Z.of_nat (length (items dq)) < n ->
      items (deque_append dq x) = items dq ++ [x])
  /\ (Z.of_nat (length (items dq)) = n ->
      exists (oldest : A) (rest : list A),
        items dq = oldest :: rest
        /\ items (deque_append dq x) = rest ++ [x]).
Proof.
  intros Hmax Hn Hlen. unfold deque_append. cbn [maxlen items]. rewrite Hmax.
  split; [reflexivity |].
  rewrite length_app. cbn [length].
  destruct (Z.ltb_spec n (Z.of_nat (length (items dq) + 1))) as [Hover | Hfit].
  - split; [rewrite length_drop, length_app; cbn [length]; lia |].
    split; [lia |]. intros _.
    destruct (items dq) as [| oldest rest]; [simpl in *; lia |].
    exists oldest, rest. split; reflexivity.
  - split; [rewrite length_app; cbn [length]; lia |].
    split; [reflexivity | lia].
Qed.

(** After any sequence of pushes into an empty buffer of capacity [n >= 1]
    the buffer holds the last [n] samples pushed, in order. *)
Lemma deque_keeps_last {A : Type} (n : nat) (xs : list A) :
  (1 <= n)%nat ->
  foldl deque_append (Deque (Some (Z.of_nat n)) []) xs
  = Deque (Some (Z.of_nat n)) (drop (length xs - n) xs).
Proof.
  intros Hn. induction xs as [| x xs IH] using rev_ind; [reflexivity |].
  rewrite foldl_app. cbn [foldl]. rewrite IH.
  unfold deque_append. cbn [maxlen items]. f_equal.
  rewrite !length_app, length_drop. cbn [length].
  destruct (Z.ltb_spec (Z.of_nat n) (Z.of_nat (length xs - (length xs - n) + 1)))
    as [Hover | Hfit].
  - rewrite drop_app_le by (rewrite length_drop; lia).
    rewrite drop_drop.
    replace (length xs + 1 - n)%nat with (length xs - n + 1)%nat by lia.
    rewrite drop_app_le by lia. reflexivity.
  - replace (length xs + 1 - n)%nat with 0%nat by lia.
    replace (length xs - n)%nat with 0%nat by lia. reflexivity.
Qed.

Lemma select_points_filter (cutoff_ms : Z) (metric : string)
  (l : list (Z * float * float)) :
  select_points cutoff_ms metric l
  = charted metric
    <$> filter (fun p : Z * float * float => cutoff_ms <= p.1.1) l.
Proof.
  induction l as [| [[t usd] bps] l IH]; [reflexivity |].
  cbn [select_points].
  destruct (Z.ltb_spec t cutoff_ms) as [Hold | Hnew].
  - rewrite filter_cons_False by (cbn; lia). exact IH.
  - rewrite filter_cons_True by (cbn; lia). cbn [fmap list_fmap]. rewrite IH.
    reflexivity.
Qed.

Section series.
Context `{Builtins}.

Lemma push_point_series (app : App) (now_ms : Z) (base mode : string)
  (usd bps : float) :
  (series_key base mode).1 <> ""%string ->
  SPREAD_SERIES (_push_point app now_ms base mode (Some usd) (Some bps))
  = <[series_key base mode :=
        deque_append
          (default (new_series app) (SPREAD_SERIES app !! series_key base mode))
          (now_ms, usd, bps)]> (SPREAD_SERIES app).
Proof.
  unfold series_key, _push_point, new_series. cbn [fst].
  intros Hbase. rewrite bool_decide_eq_false_2 by exact Hbase.
  destruct (SPREAD_SERIES app !! _); reflexivity.
Qed.

(** C9.  A buffer is created by the first push for its key, with the
    capacity [MAX_POINTS], which is at least 50, and a push never changes the
    capacity of a buffer nor touches the buffer of another key.  A push into
    a buffer below its capacity adds the sample at the end; a push into a
    full buffer drops the oldest sample, and only that one, and adds the new
    one at the end; so after any sequence of pushes into a new buffer it
    holds the last [MAX_POINTS] samples in the order of their insertion.  A
    query answers with the retained samples of the addressed buffer whose
    timestamp is not before the cutoff, in the order of their insertion,
    [latest] being the last of them; a sample stamped before the cutoff is
    left out. *)
Theorem series_buffer (app : App) :
  50 <= MAX_POINTS (SAMPLE_EVERY_S app)
  /\ (forall (now_ms : Z) (base mode : string) (usd bps : float),
         (series_key base mode).1 <> ""%string ->
         let key := series_key base mode in
         let app' := _push_point app now_ms base mode (Some usd) (Some bps) in
         let before := default (new_series app) (SPREAD_SERIES app !! key) in
         SAMPLE_EVERY_S app' = SAMPLE_EVERY_S app
         /\ SPREAD_SERIES app' !! key = Some (deque_append before (now_ms, usd, bps))
         /\ maxlen (deque_append before (now_ms, usd, bps)) = maxlen before
         /\ (SPREAD_SERIES app !! key = None ->
             maxlen before = Some (MAX_POINTS (SAMPLE_EVERY_S app))
             /\ items before = [])
         /\ (forall key' : string * string,
                key' <> key -> SPREAD_SERIES app' !! key' = SPREAD_SERIES app !! key'))
  /\ (forall (dq : deque (Z * float * float)) (x : Z * float * float) (n : Z),
         maxlen dq = Some n -> 1 <= n -> Z.of_nat (length (items dq)) <= n ->
         maxlen (deque_append dq x) = Some n
         /\ Z.of_nat (length (items (deque_append dq x))) <= n
         /\ (Z.of_nat (length (items dq)) < n ->
             items (deque_append dq x) = items dq ++ [x])
         /\ (Z.of_nat (length (items dq)) = n ->
             exists (oldest : Z * float * float) (rest : list (Z * float * float)),
               items dq = oldest :: rest
               /\ items (deque_append dq x) = rest ++ [x]))
  /\ (forall (n : nat) (xs : list (Z * float * float)),
         (1 <= n)%nat ->
         foldl deque_append (Deque (Some (Z.of_nat n)) []) xs
         = Deque (Some (Z.of_nat n)) (drop (length xs - n) xs))
  /\ (forall (now_ms : Z) (base window metric mode : string) (win_s : Z),
         _parse_window_s window = Some win_s ->
         let cutoff_ms := now_ms - win_s * 1000 in
         let metric' :=
           strip (lower (if bool_decide (metric = ""%string) then "bps"%string else metric)) in
         let retained :=
           match SPREAD_SERIES app !! query_key base mode with
           | Some dq => items dq
           | None => []
           end in
         exists resp : SeriesResponse,
           chart_series app now_ms base window metric mode = Some resp
           /\ points resp
              = charted metric'
                <$> filter (fun p : Z * float * float => cutoff_ms <= p.1.1) retained
           /\ latest resp = last (points resp)
           /\ count resp = length (points resp)
           /\ forall (oldest : Z * float * float) (rest : list (Z * float * float)),
               retained = oldest :: rest -> oldest.1.1 < cutoff_ms ->
               points resp
               = charted metric'
                 <$> filter (fun p : Z * float * float => cutoff_ms <= p.1.1) rest)
  /\ (forall base mode : string,
         strip mode <> ""%string -> query_key base mode = series_key base mode).
Proof.
  split; [apply MAX_POINTS_ge |].
  split.
  { intros now_ms base mode usd bps Hbase key app' before.
    assert (Hs : SPREAD_SERIES app'
                 = <[key := deque_append before (now_ms, usd, bps)]> (SPREAD_SERIES app))
      by (apply push_point_series; exact Hbase).
    split; [apply (push_point_frame app now_ms base mode (Some usd) (Some bps)) |].
    split; [rewrite Hs; apply lookup_insert_eq |].
    split; [reflexivity |].
    split; [intros Hnone; subst before; rewrite Hnone; split; reflexivity |].
    intros key' Hne. rewrite Hs. apply lookup_insert_ne. congruence. }
  split; [intros dq x n; apply deque_append_bounded |].
  split; [intros n xs; apply deque_keeps_last |].
  split.
  { intros now_ms base window metric mode win_s Hwin cutoff_ms metric' retained.
    unfold chart_series. rewrite Hwin. cbn [mbind option_bind].
    fold (query_key base mode). fold cutoff_ms metric'.
    assert (Hpts :
              match SPREAD_SERIES app !! query_key base mode with
              | Some dq => select_points cutoff_ms metric' (items dq)
              | None => []
              end
              = charted metric'
                <$> filter (fun p : Z * float * float => cutoff_ms <= p.1.1) retained).
    { subst retained. destruct (SPREAD_SERIES app !! query_key base mode);
        [apply select_points_filter | reflexivity]. }
    eexists. split; [reflexivity |]. cbn [points latest count].
    split; [exact Hpts |]. split; [reflexivity |]. split; [reflexivity |].
    intros oldest rest Hret Hold. rewrite Hpts, Hret.
    rewrite filter_cons_False by lia. reflexivity. }
  intros base mode Hmode. unfold query_key, series_key.
  rewrite (bool_decide_eq_false_2 _ Hmode).
  destruct (bool_decide (mode = ""%string)) eqn:Hempty; [| reflexivity].
  apply bool_decide_eq_true in Hempty. subst mode. contradiction Hmode. reflexivity.
Qed.

End series.

(** Of 52 samples pushed into a buffer of capacity 51 the first is gone and
    the others are retained in order; a query with the cutoff at the stamp of
    the oldest retained sample returns all 51, and one millisecond later the
    oldest is left out. *)
Example series_evicts_oldest_only :
  MAX_POINTS (SAMPLE_EVERY_S slow_app) = 51
  /\ (fun dq : deque (Z * float * float) => (maxlen dq, (items dq).*1.*1))
     <$> SPREAD_SERIES pushed_app !! ("ETH"%string, default_mode)
     = Some (Some 51, (fun t : Z => t * 1000) <$> seqZ 2 51)
  /\ (fun r : SeriesResponse => ((points r).*1, fst <$> latest r))
     <$> @chart_series digits_builtins pushed_app 62000 "eth" "1m" "bps" ""
     = Some ((fun t : Z => t * 1000) <$> seqZ 2 51, Some 52000)
  /\ (fun r : SeriesResponse => ((points r).*1, fst <$> latest r))
     <$> @chart_series digits_builtins pushed_app 62001 "eth" "1m" "bps" ""
     = Some ((fun t : Z => t * 1000) <$> seqZ 3 50, Some 52000).
Proof.
  split; [vm_compute; reflexivity |].
  split; [vm_compute; reflexivity |].
  split; vm_compute; reflexivity.
Qed.

(** *** Normal forms of names and of notionals *)

Lemma upper_ascii_idem (c : ascii) : upper_ascii (upper_ascii c) = upper_ascii c.
Proof. destruct c as [[] [] [] [] [] [] [] []]; reflexivity. Qed.

(** What [lstrip] leaves is the end of the string, and does not start with
    white space. *)
Lemma lstrip_chars_suffix (l : list ascii) :
  exists pre : list ascii, l = pre ++ lstrip_chars l.
Proof.
  induction l as [| c l IH]; [exists []; reflexivity |].
  cbn [lstrip_chars]. destruct (is_space c).
  - destruct IH as [pre Hpre]. exists (c :: pre). cbn. f_equal. exact Hpre.
  - exists []. reflexivity.
Qed.

Lemma lstrip_chars_head (l : list ascii) :
  match lstrip_chars l with
  | c :: _ => is_space c = false
  | [] => True
  end.
Proof.
  induction l as [| c l IH]; [exact I |].
  cbn [lstrip_chars]. destruct (is_space c) eqn:Hc; [exact IH | exact Hc].
Qed.

Lemma lstrip_chars_clean (l : list ascii) :
  match l with
  | c :: _ => is_space c = false
  | [] => True
  end ->
  lstrip_chars l = l.
Proof. destruct l as [| c l]; [reflexivity |]. cbn. intros ->. reflexivity. Qed.

(** [strip] and [upper] do nothing to a string that they produced. *)
Lemma strip_chars_idem (l : list ascii) :
  rev (lstrip_chars (rev (lstrip_chars (rev (lstrip_chars (rev (lstrip_chars l)))))))
  = rev (lstrip_chars (rev (lstrip_chars l))).
Proof.
  set (a := lstrip_chars l).
  set (b := lstrip_chars (rev a)).
  assert (Ha : match a with c :: _ => is_space c = false | [] => True end)
    by apply lstrip_chars_head.
  assert (Hb : match b with c :: _ => is_space c = false | [] => True end)
    by apply lstrip_chars_head.
  assert (Hrb : lstrip_chars (rev b) = rev b).
  { apply lstrip_chars_clean.
    destruct (lstrip_chars_suffix (rev a)) as [pre Hpre]. fold b in Hpre.
    destruct b as [| c b'] using rev_ind; [exact I |].
    rewrite rev_app_distr. cbn [rev app].
    apply (f_equal (@rev ascii)) in Hpre.
    rewrite rev_involutive, rev_app_distr, rev_app_distr in Hpre. cbn [rev app] in Hpre.
    rewrite Hpre in Ha. exact Ha. }
  rewrite Hrb, rev_involutive. fold b.
  rewrite (lstrip_chars_clean b Hb). reflexivity.
Qed.

Lemma strip_idem (s : string) : strip (strip s) = strip s.
Proof.
  unfold strip. rewrite list_ascii_of_string_of_list_ascii.
  f_equal. apply strip_chars_idem.
Qed.

Lemma Forall_lstrip_chars (P : ascii -> Prop) (l : list ascii) :
  Forall P l -> Forall P (lstrip_chars l).
Proof.
  intros Hall. destruct (lstrip_chars_suffix l) as [pre Hpre].
  rewrite Hpre in Hall. apply Forall_app in Hall as [_ Hall]. exact Hall.
Qed.

Lemma upper_strip_upper (s : string) : upper (strip (upper s)) = strip (upper s).
Proof.
  unfold upper, strip. rewrite !list_ascii_of_string_of_list_ascii. f_equal.
  set (u := upper_ascii <$> list_ascii_of_string s).
  assert (Hu : Forall (fun c => upper_ascii c = c) u).
  { subst u. rewrite Forall_fmap. apply Forall_true. intros c. apply upper_ascii_idem. }
  assert (Ht : Forall (fun c => upper_ascii c = c)
                 (rev (lstrip_chars (rev (lstrip_chars u))))).
  { apply Forall_rev, Forall_lstrip_chars, Forall_rev, Forall_lstrip_chars, Hu. }
  induction Ht as [| c t Hc Ht IH]; [reflexivity |].
  cbn [fmap list_fmap]. rewrite Hc. f_equal. exact IH.
Qed.

(** A normalised name is normalised to itself. *)
Lemma strip_upper_idem (s : string) :
  strip (upper (strip (upper s))) = strip (upper s).
Proof. rewrite upper_strip_upper. apply strip_idem. Qed.

(** [round] of an integer is that integer, and a tie goes to the even
    neighbour. *)
Lemma py_round_inject_Z (n : Z) : py_round (inject_Z n) = n.
Proof.
  unfold py_round. rewrite Qfloor_Z.
  assert (Hr : Qcompare (inject_Z n - inject_Z n) (1 # 2) = Lt).
  { apply Qlt_alt. ring_simplify (inject_Z n - inject_Z n)%Q. reflexivity. }
  rewrite Hr. reflexivity.
Qed.

Section lookups.
Context `{Builtins}.

Lemma py_round_half (n : Z) :
  py_round (inject_Z n + (1 # 2)) = if Z.even n then n else n + 1.
Proof.
  unfold py_round.
  assert (Hf : Qfloor (inject_Z n + (1 # 2)) = n).
  { pose proof (Qfloor_le (inject_Z n + (1 # 2))) as H1.
    pose proof (Qlt_floor (inject_Z n + (1 # 2))) as H2.
    remember (Qfloor (inject_Z n + (1 # 2))) as f eqn:Ef. clear Ef.
    rewrite inject_Z_plus in H2. change (inject_Z 1) with 1%Q in H2.
    assert (Ha : (inject_Z f < inject_Z (n + 1))%Q)
      by (rewrite inject_Z_plus; change (inject_Z 1) with 1%Q; lra).
    assert (Hb : (inject_Z (n - 1) < inject_Z f)%Q).
    { replace (n - 1) with (n + (-1)) by lia.
      rewrite inject_Z_plus. change (inject_Z (-1)) with (-1)%Q. lra. }
    rewrite <- Zlt_Qlt in Ha, Hb. lia. }
  rewrite Hf.
  assert (Hr : Qcompare (inject_Z n + (1 # 2) - inject_Z n) (1 # 2) = Eq).
  { apply Qeq_alt. ring. }
  rewrite Hr. reflexivity.
Qed.

(** X13.  The key of a notional.  As far as floats hold the integers
    exactly, up to [2^53] either way, an integer and the float of that
    integer have the same key, the integer itself, so that such a key is the
    key of itself, which is what lets [_compute_spread] find under
    [float(key)] the record stored under [key].  A notional half-way between
    two integers, which a float can be below [2^52], goes to the even one.
    A missing notional has the key [0], and a not-a-number one makes [round]
    raise. *)
Theorem notional_key_stable :
  (forall n : Z,
      Z.abs n <= 2 ^ 53 ->
      _notional_key (PInt n) = Some n
      /\ _notional_key (PFloat (PyFloat.of_Z n)) = Some n)
  /\ (forall n : Z,
         Z.abs n < 2 ^ 52 ->
         _notional_key (PFloat (Fin (inject_Z n + (1 # 2))))
         = Some (if Z.even n then n else n + 1))
  /\ _notional_key PNone = Some 0
  /\ _notional_key (PFloat NaN) = None.
Proof.
  split.
  { intros n _. unfold _notional_key. cbn [_to_f PyFloat.of_Z].
    rewrite py_round_inject_Z. auto. }
  split; [| split; reflexivity].
  intros n _. unfold _notional_key. cbn [_to_f]. rewrite py_round_half. reflexivity.
Qed.

(** A stored record is not the empty dict. *)
Lemma var_entry_nonempty (now_ms : Z) (base : string) (n : Z) (bid ask : float)
  (mid qty : option float) :
  var_entry now_ms base n bid ask mid qty <> ∅.
Proof. unfold var_entry. apply insert_non_empty. Qed.

(** A record that is there and not empty is the one returned. *)
Lemma get_var_quote_exact (app : App) (base : string) (n : Z)
  (entry : gmap string pyval) :
  strip (upper base) <> ""%string ->
  alist_get (strip (upper base), n) (VAR_BATCH app) = Some entry ->
  entry <> ∅ ->
  _get_var_quote app base n = Some entry.
Proof.
  intros Hbase Hget Hne. unfold _get_var_quote.
  rewrite bool_decide_eq_false_2 by exact Hbase.
  rewrite Hget. rewrite bool_decide_eq_false_2 by exact Hne. reflexivity.
Qed.

(** X14.  A record that [ingest_var_batch] stores is read back.  When a
    record is stored, its base is not empty, its bid does not exceed its
    ask, and the feed state is untouched; [_get_var_quote] for the base and
    the key of the record returns the stored dict; and [_compute_spread] for
    the base, the float of the key and any mode does not raise and reports
    the stored bid and ask as [var_bid] and [var_ask], next to the bid and
    ask of the feed. *)
Theorem stored_quote_read_back (app : App) (now_ms : Z) (q : gmap string pyval) :
  (ingest_quote app now_ms (Row q)).2 = Stored ->
  let app' := (ingest_quote app now_ms (Row q)).1 in
  let base := quote_base q in
  exists (n : Z) (bid ask : float),
    base <> ""%string
    /\ _notional_key (quote_notional q) = Some n
    /\ PyFloat.gt bid ask = false
    /\ LIGHTER_STATE app' = LIGHTER_STATE app
    /\ _get_var_quote app' base n
       = Some (var_entry now_ms base n bid ask
                 (_to_f (dict_get q "mid")) (_to_f (dict_get q "qty_used")))
    /\ forall mode : string,
        exists row : SpreadRow,
          _compute_spread app' base (PyFloat.of_Z n) mode = Some row
          /\ row_base row = base
          /\ var_bid row = Some bid /\ var_ask row = Some ask
          /\ lighter_bid row = lp_bid (_get_lighter_price app base)
          /\ lighter_ask row = lp_ask (_get_lighter_price app base).
Proof.
  intros Hstored app' base. subst app'.
  rewrite (ingest_quote_cases app now_ms q) in *. cbv zeta in *.
  fold base in Hstored |- *.
  destruct (bool_decide (base = ""%string)) eqn:Hb; [discriminate |].
  apply bool_decide_eq_false in Hb.
  destruct (_notional_key (quote_notional q)) as [n |]; [| discriminate].
  destruct (_to_f (dict_get q "bid")) as [b |]; [| discriminate].
  destruct (_to_f (dict_get q "ask")) as [a |]; [| discriminate].
  set (bid := if PyFloat.gt b a then a else b) in *.
  set (ask := if PyFloat.gt b a then b else a) in *.
  destruct (off_mark (reference_price app base) bid ask); [discriminate |].
  set (entry := var_entry now_ms base n bid ask
                  (_to_f (dict_get q "mid")) (_to_f (dict_get q "qty_used"))) in *.
  set (stored := set_ACTIVE_BASES _ _) in *.
  destruct (push_modes_frame
              ["lighter_bid_minus_var_sell"%string; "lighter_ask_minus_var_buy"%string]
              stored now_ms base n) as (app' & Hpush & _ & Hls & Hvb & _).
  rewrite Hpush in *. cbn [fst].
  assert (Hnorm : strip (upper base) = base) by apply strip_upper_idem.
  assert (Hget : _get_var_quote app' base n = Some entry).
  { apply get_var_quote_exact.
    - rewrite Hnorm. exact Hb.
    - rewrite Hnorm, Hvb. subst stored. cbn [VAR_BATCH set_ACTIVE_BASES set_VAR_BATCH].
      apply alist_get_set_eq.
    - apply var_entry_nonempty. }
  exists n, bid, ask.
  split; [exact Hb |]. split; [reflexivity |].
  split.
  { subst bid ask. unfold PyFloat.gt, PyFloat.lt, PyFloat.cmp, PyFloat.qlt.
    destruct a as [x |], b as [y |]; try reflexivity.
    destruct (Qle_bool y x) eqn:E1; cbn [negb]; [rewrite E1; reflexivity |].
    destruct (Qle_bool x y) eqn:E2; [reflexivity |].
    exfalso.
    assert (~ (y <= x)%Q) by (intros Hc; apply Qle_bool_iff in Hc; congruence).
    assert (~ (x <= y)%Q) by (intros Hc; apply Qle_bool_iff in Hc; congruence).
    lra. }
  split; [rewrite Hls; reflexivity |].
  split; [exact Hget |].
  intros mode. unfold _compute_spread. cbv zeta.
  rewrite Hnorm.
  change (_notional_key (PFloat (PyFloat.of_Z n))) with (Some (py_round (inject_Z n))).
  rewrite py_round_inject_Z. cbn [mbind option_bind].
  rewrite Hget. rewrite bool_decide_eq_false_2 by apply var_entry_nonempty.
  change (_to_f (dict_get entry "bid")) with (Some bid).
  change (_to_f (dict_get entry "ask")) with (Some ask).
  assert (Hlp : _get_lighter_price app' base = _get_lighter_price app base).
  { unfold _get_lighter_price, _get_ws_market_stats. rewrite Hls. reflexivity. }
  rewrite Hlp.
  repeat match goal with
         | |- context [let '(_, _) := ?x in _] => destruct x
         end.
  eexists. split; [reflexivity |]. repeat split.
Qed.

(** *** The nearest notional *)

(** The fallback loop of [_get_var_quote], over a list. *)
Lemma nearest_fold (b : string) (n : Z) (l : list ((string * Z) * gmap string pyval)) :
  match foldl (nearest_step b n) None l with
  | None => Forall (fun e => e.1.1 <> b) l
  | Some (q, d) =>
      exists (pre post : list ((string * Z) * gmap string pyval)) (n' : Z),
        l = pre ++ ((b, n'), q) :: post
        /\ d = Z.abs (n' - n)
        /\ Forall (fun e => e.1.1 = b -> d < Z.abs (e.1.2 - n)) pre
        /\ Forall (fun e => e.1.1 = b -> d <= Z.abs (e.1.2 - n)) post
  end.
Proof.
  induction l as [| [[b' n'] q'] l IH] using rev_ind; [constructor |].
  rewrite foldl_app. cbn [foldl]. unfold nearest_step at 1.
  destruct (decide (b' = b)) as [-> | Hne].
  - rewrite bool_decide_eq_true_2 by reflexivity.
    destruct (foldl (nearest_step b n) None l) as [[q d] |].
    + destruct IH as (pre & post & n0 & Hl & Hd & Hpre & Hpost).
      destruct (Z.ltb_spec (Z.abs (n' - n)) d) as [Hlt | Hge].
      * exists l, [], n'. split; [reflexivity |]. split; [reflexivity |].
        split; [| constructor].
        rewrite Hl. apply Forall_app. split.
        -- eapply Forall_impl; [exact Hpre |]. cbn. intros e He Hb. specialize (He Hb). lia.
        -- constructor; [cbn; intros _; lia |].
           eapply Forall_impl; [exact Hpost |]. cbn. intros e He Hb. specialize (He Hb). lia.
      * exists pre, (post ++ [((b, n'), q')]), n0.
        split; [rewrite Hl, <- app_assoc; reflexivity |].
        split; [exact Hd |]. split; [exact Hpre |].
        apply Forall_app. split; [exact Hpost |].
        constructor; [cbn; intros _; lia | constructor].
    + exists l, [], n'. split; [reflexivity |]. split; [reflexivity |].
      split; [| constructor].
      eapply Forall_impl; [exact IH |]. cbn. intros e He Hb. contradiction.
  - rewrite bool_decide_eq_false_2 by exact Hne.
    destruct (foldl (nearest_step b n) None l) as [[q d] |].
    + destruct IH as (pre & post & n0 & Hl & Hd & Hpre & Hpost).
      exists pre, (post ++ [((b', n'), q')]), n0.
      split; [rewrite Hl, <- app_assoc; reflexivity |].
      split; [exact Hd |]. split; [exact Hpre |].
      apply Forall_app. split; [exact Hpost |].
      constructor; [cbn; intros Hb; contradiction | constructor].
    + apply Forall_app. split; [exact IH |].
      constructor; [exact Hne | constructor].
Qed.

(** An entry that [alist_get] finds is the first under its key. *)
Lemma alist_get_split {K V : Type} `{EqDecision K} (k : K) (v : V) (l : list (K * V)) :
  alist_get k l = Some v ->
  exists pre post : list (K * V),
    l = pre ++ (k, v) :: post /\ Forall (fun e => e.1 <> k) pre.
Proof.
  induction l as [| [k' v'] l IH]; [discriminate |].
  cbn [alist_get]. destruct (decide (k = k')) as [-> | Hne].
  - intros [= ->]. exists [], l. split; [reflexivity | constructor].
  - intros Hget. destruct (IH Hget) as (pre & post & -> & Hpre).
    exists ((k', v') :: pre), post. split; [reflexivity |].
    constructor; [cbn; congruence | exact Hpre].
Qed.

(** X15.  [_get_var_quote] with an empty base returns [None].  Otherwise it
    returns [None] exactly when no record has the base, and else the record
    of the base whose notional is nearest to the one asked for, the first
    stored among those that are equally near; a record under the very key
    asked for, if not empty, is that record. *)
Theorem var_quote_nearest (app : App) (base : string) (n : Z) :
  let b := strip (upper base) in
  (b = ""%string -> _get_var_quote app base n = None)
  /\ (b <> ""%string ->
      match _get_var_quote app base n with
      | None => Forall (fun e => e.1.1 <> b) (VAR_BATCH app)
      | Some q => first_nearest b n (VAR_BATCH app) q
      end)
  /\ (forall exact : gmap string pyval,
         b <> ""%string -> exact <> ∅ ->
         alist_get (b, n) (VAR_BATCH app) = Some exact ->
         _get_var_quote app base n = Some exact).
Proof.
  intros b. unfold _get_var_quote. fold b.
  split; [intros ->; reflexivity |].
  split.
  - intros Hb. rewrite bool_decide_eq_false_2 by exact Hb.
    assert (Hnear :
              match fst <$> foldl (nearest_step b n) None (VAR_BATCH app) with
              | None => Forall (fun e => e.1.1 <> b) (VAR_BATCH app)
              | Some q => first_nearest b n (VAR_BATCH app) q
              end).
    { pose proof (nearest_fold b n (VAR_BATCH app)) as Hf.
      destruct (foldl (nearest_step b n) None (VAR_BATCH app)) as [[q d] |];
        cbn [fmap option_fmap option_map fst]; [| exact Hf].
      destruct Hf as (pre & post & n' & Hl & -> & Hpre & Hpost).
      exists pre, post, n'. auto. }
    destruct (alist_get (b, n) (VAR_BATCH app)) as [exact |] eqn:Hget; [| exact Hnear].
    destruct (bool_decide (exact = ∅)); [exact Hnear |].
    destruct (alist_get_split _ _ _ Hget) as (pre & post & Hl & Hpre).
    exists pre, post, n. split; [exact Hl |].
    replace (n - n) with 0 by lia. cbn [Z.abs].
    split.
    + eapply Forall_impl; [exact Hpre |]. intros [[b' n'] q'] He Hb'. cbn in *.
      subst b'. assert (n' <> n) by congruence. lia.
    + apply Forall_true. intros e _. lia.
  - intros exact Hb Hne Hget.
    rewrite bool_decide_eq_false_2 by exact Hb.
    rewrite Hget, bool_decide_eq_false_2 by exact Hne. reflexivity.
Qed.

(** *** What a batch leaves in place *)

Lemma extends_refl (app : App) : extends app app.
Proof. repeat split; auto. Qed.

Lemma extends_trans (a b c : App) : extends a b -> extends b c -> extends a c.
Proof.
  intros (H1 & H2 & H3 & H4 & H5) (G1 & G2 & G3 & G4 & G5).
  repeat split; try congruence; auto. etrans; eassumption.
Qed.

(** [d[k] = v] adds at most one key and removes none. *)
Lemma alist_set_length {K V : Type} `{EqDecision K} (k : K) (v : V) (l : list (K * V)) :
  (length l <= length (alist_set k v l) <= length l + 1)%nat.
Proof.
  induction l as [| [k' v'] l IH]; cbn [alist_set length]; [lia |].
  destruct (decide (k = k')); cbn [length]; lia.
Qed.

Lemma alist_set_is_Some {K V : Type} `{EqDecision K} (k k0 : K) (v : V)
  (l : list (K * V)) :
  is_Some (alist_get k0 l) -> is_Some (alist_get k0 (alist_set k v l)).
Proof.
  destruct (decide (k0 = k)) as [-> | Hne].
  - rewrite alist_get_set_eq. eauto.
  - rewrite alist_get_set_ne by exact Hne. auto.
Qed.

(** A push keeps the series that are there. *)
Lemma push_point_series_keys (app : App) (now_ms : Z) (base mode : string)
  (usd bps : option float) (k : string * string) :
  is_Some (SPREAD_SERIES app !! k) ->
  is_Some (SPREAD_SERIES (_push_point app now_ms base mode usd bps) !! k).
Proof.
  unfold _push_point. destruct usd, bps; try (intros Hk; exact Hk).
  destruct (bool_decide (strip (upper base) = ""%string)); [intros Hk; exact Hk |].
  cbn [SPREAD_SERIES set_SPREAD_SERIES]. intros Hk.
  match goal with
  | |- is_Some (<[?key := _]> _ !! _) =>
      rewrite lookup_insert_is_Some; destruct (decide (key = k)); auto
  end.
Qed.

(** The pushes of a stored record touch the series only, and only add. *)
Lemma push_modes_extends (modes : list string) :
  forall (app : App) (now_ms : Z) (base : string) (n : Z),
    exists app' : App,
      push_modes app now_ms base n modes = Some app'
      /\ extends app app' /\ VAR_BATCH app' = VAR_BATCH app
      /\ ACTIVE_BASES app' = ACTIVE_BASES app.
Proof.
  induction modes as [| mode modes IH]; intros app now_ms base n.
  - exists app. split; [reflexivity |]. split; [apply extends_refl | auto].
  - cbn [push_modes].
    destruct (compute_spread_total app base n mode) as [s Hs].
    rewrite Hs. cbn [mbind option_bind].
    set (app1 := _push_point app now_ms base mode (row_spread_usd s) (row_spread_bps s)).
    destruct (IH app1 now_ms base n) as (app' & Hrun & Hext & Hvb & Hab).
    destruct (push_point_frame app now_ms base mode
                (row_spread_usd s) (row_spread_bps s)) as (F1 & F2 & F3 & F4).
    fold app1 in F1, F2, F3, F4.
    exists app'. split; [exact Hrun |].
    split; [| split; congruence].
    eapply extends_trans; [| exact Hext].
    repeat split; try assumption.
    + rewrite F4. reflexivity.
    + intros k. rewrite F3. auto.
    + intros k. apply push_point_series_keys.
Qed.

(** One record: nothing is removed, and at most one key is added, by a
    record that is stored. *)
Lemma ingest_quote_extends (app : App) (now_ms : Z) (item : quote_item) :
  let r := ingest_quote app now_ms item in
  extends app r.1
  /\ (length (VAR_BATCH app) <= length (VAR_BATCH r.1))%nat
  /\ (length (VAR_BATCH r.1)
      <= length (VAR_BATCH app) + match r.2 with Stored => 1 | _ => 0 end)%nat
  /\ (r.2 = Skipped -> r.1 = app).
Proof.
  cbv zeta. destruct item as [| q].
  { cbn. split; [apply extends_refl |]. split; [lia |]. split; [lia | reflexivity]. }
  rewrite ingest_quote_cases. cbv zeta.
  assert (Hsame : forall e : ingest_event,
             extends app (app, e).1
             /\ (length (VAR_BATCH app) <= length (VAR_BATCH (app, e).1))%nat
             /\ (length (VAR_BATCH (app, e).1)
                 <= length (VAR_BATCH app)
                    + match (app, e).2 with Stored => 1 | _ => 0 end)%nat
             /\ ((app, e).2 = Skipped -> (app, e).1 = app)).
  { intros e. cbn [fst snd]. split; [apply extends_refl |].
    split; [lia |]. split; [lia | reflexivity]. }
  destruct (bool_decide (quote_base q = ""%string)); [apply Hsame |].
  destruct (_notional_key (quote_notional q)) as [n |]; [| apply Hsame].
  destruct (_to_f (dict_get q "bid")) as [b |]; [| apply Hsame].
  destruct (_to_f (dict_get q "ask")) as [a |]; [| apply Hsame].
  destruct (off_mark _ _ _).
  { cbn [fst snd]. split; [| split; [cbn; lia | split; [cbn; lia | discriminate]]].
    repeat split; try reflexivity; auto.
    cbn [ACTIVE_BASES set_ACTIVE_BASES]. apply union_subseteq_r. }
  set (entry := var_entry _ _ _ _ _ _ _).
  set (stored := set_ACTIVE_BASES _ _).
  assert (Hst : extends app stored).
  { subst stored. repeat split; try reflexivity.
    - cbn [ACTIVE_BASES set_ACTIVE_BASES]. apply union_subseteq_r.
    - intros k. cbn [VAR_BATCH set_ACTIVE_BASES set_VAR_BATCH]. apply alist_set_is_Some.
    - auto. }
  pose proof (alist_set_length (quote_base q, n) entry (VAR_BATCH app)) as Hlen.
  destruct (push_modes_extends
              ["lighter_bid_minus_var_sell"%string; "lighter_ask_minus_var_buy"%string]
              stored now_ms (quote_base q) n) as (app' & Hpush & Hext & Hvb & _).
  rewrite Hpush. cbn [fst snd].
  split; [eapply extends_trans; eassumption |].
  rewrite Hvb. subst stored. cbn [VAR_BATCH set_ACTIVE_BASES set_VAR_BATCH].
  split; [lia |]. split; [lia | discriminate].
Qed.

Lemma ingest_quotes_extends (quotes : list quote_item) :
  forall (app : App) (clock : nat -> Z) (i stored : nat),
    let r := ingest_quotes app clock i stored quotes in
    extends app r.1
    /\ (length (VAR_BATCH app) <= length (VAR_BATCH r.1))%nat
    /\ forall c : nat,
        r.2 = Some c ->
        (stored <= c <= stored + length quotes)%nat
        /\ (length (VAR_BATCH r.1) + stored <= length (VAR_BATCH app) + c)%nat.
Proof.
  induction quotes as [| item quotes IH]; intros app clock i stored; cbv zeta.
  - cbn. split; [apply extends_refl |]. split; [lia |].
    intros c [= <-]. lia.
  - cbn [ingest_quotes].
    destruct (ingest_quote_extends app (clock i) item) as (Hext & Hlo & Hhi & _).
    destruct (ingest_quote app (clock i) item) as [app1 e]. cbn [fst snd] in *.
    destruct e.
    + destruct (IH app1 clock (S i) stored) as (Hext' & Hlo' & Hc).
      split; [eapply extends_trans; eassumption |]. split; [lia |].
      intros c Hr. destruct (Hc c Hr). cbn [length]. lia.
    + destruct (IH app1 clock (S i) stored) as (Hext' & Hlo' & Hc).
      split; [eapply extends_trans; eassumption |]. split; [lia |].
      intros c Hr. destruct (Hc c Hr). cbn [length]. lia.
    + destruct (IH app1 clock (S i) (S stored)) as (Hext' & Hlo' & Hc).
      split; [eapply extends_trans; eassumption |]. split; [lia |].
      intros c Hr. destruct (Hc c Hr). cbn [length]. lia.
    + cbn [fst snd]. split; [exact Hext |]. split; [lia |]. discriminate.
Qed.

(** X16.  A request to [ingest_var_batch] only adds.  Whatever the payload,
    and also when an exception ends the request half-way, the feed state and
    the sampling period are as before, and every active base, every key of
    [VAR_BATCH] and every chart series that was there is still there.  A
    payload without a list of quotes changes nothing and counts [0].  The
    count returned is at most the number of records sent, and [VAR_BATCH]
    has grown by at most the count. *)
Theorem batch_only_adds (app : App) (clock : nat -> Z)
  (quotes : option (list quote_item)) :
  let r := ingest_var_batch app clock quotes in
  extends app r.1
  /\ (length (VAR_BATCH app) <= length (VAR_BATCH r.1))%nat
  /\ (quotes = None -> r = (app, Some 0%nat))
  /\ (forall c : nat,
         r.2 = Some c ->
         (c <= length (default [] quotes))%nat
         /\ (length (VAR_BATCH r.1) <= length (VAR_BATCH app) + c)%nat).
Proof.
  cbv zeta. destruct quotes as [quotes |]; cbn [ingest_var_batch default].
  - destruct (ingest_quotes_extends quotes app clock 0 0) as (Hext & Hlo & Hc).
    split; [exact Hext |]. split; [exact Hlo |]. split; [discriminate |].
    intros c Hr. destruct (Hc c Hr) as [H1 H2]. unfold id. split; lia.
  - split; [apply extends_refl |]. split; [cbn; lia |]. split; [reflexivity |].
    intros c [= <-]. cbn. split; lia.
Qed.

End lookups.

(** The record [{base: "eth", notional_usd: 1499.6, bid: 101, ask: 100}],
    stored while the feed knows nothing of ETH. *)
Lemma stored_quote_read_back_witness :
  let app' := (@ingest_quote no_builtins new_App 1000 (Row eth_quote)).1 in
  let base := @quote_base no_builtins eth_quote in
  exists (n : Z) (bid ask : float),
    base <> ""%string
    /\ @_notional_key no_builtins (quote_notional eth_quote) = Some n
    /\ PyFloat.gt bid ask = false
    /\ LIGHTER_STATE app' = LIGHTER_STATE new_App
    /\ @_get_var_quote app' base n
       = Some (var_entry 1000 base n bid ask
                 (@_to_f no_builtins (dict_get eth_quote "mid"))
                 (@_to_f no_builtins (dict_get eth_quote "qty_used")))
    /\ forall mode : string,
        exists row : SpreadRow,
          @_compute_spread no_builtins app' base (PyFloat.of_Z n) mode = Some row
          /\ row_base row = base
          /\ var_bid row = Some bid /\ var_ask row = Some ask
          /\ lighter_bid row = lp_bid (@_get_lighter_price no_builtins new_App base)
          /\ lighter_ask row = lp_ask (@_get_lighter_price no_builtins new_App base).
Proof.
  apply (@stored_quote_read_back no_builtins new_App 1000 eth_quote).
  vm_compute. reflexivity.
Defined.

(** *** The batch against the receipt of its records *)

Section ingest_batch.
Context `{Builtins}.







End ingest_batch.


End MainFacts.

(** ** The message handler and the shared state of the feed *)

Module HandlerFacts.

Section with_builtins.
Context `{Builtins}.
Variable int_of_str : string -> option Z.

(** [_to_f] reads back what the handler wrote. *)
Lemma to_f_of_opt (o : option float) : _to_f (of_opt o) = o.
Proof. destruct o; reflexivity. Qed.

Lemma or_val_of_opt (a b : option float) :
  _to_f (or_val (of_opt a) (of_opt b)) = or_opt a b.
Proof.
  unfold or_val, or_opt. destruct a as [x |]; cbn [of_opt truthy_val truthy_opt].
  - destruct (PyFloat.truthy x); [reflexivity | apply to_f_of_opt].
  - apply to_f_of_opt.
Qed.

Lemma omap_length_le {A B : Type} (f : A -> option B) (l : list A) :
  (length (omap f l) <= length l)%nat.
Proof.
  induction l as [| x l IH]; [reflexivity |].
  cbn [omap list_omap]. destruct (f x); cbn [length]; lia.
Qed.

(** An item leads to an update. *)
Lemma handle_item_update (k : string) (v : json) (c : call) :
  handle_item int_of_str k v = Some c ->
  exists (mid : Z) (out : gmap string pyval), c = Update_market mid out.
Proof.
  destruct v; try discriminate. unfold handle_item.
  destruct (item_market_id int_of_str k _) as [mid |]; [| discriminate].
  cbn [mbind option_bind]. destruct (_pick_best_bid_ask _) as [bid ask].
  intros Hc. injection Hc as <-. eauto.
Qed.

(** X9.  What a message leads to.  The handler raises only for a message
    that is an object, not an acknowledgement, and whose [channel] is a
    number or a boolean that is not zero or false, on which the test
    ["market_stats" not in channel] raises [TypeError].  An acknowledgement,
    an object whose [type] is ["connected"], sets the session id and clears
    the error, and does nothing else even if it carries market stats.  Any
    other message leads to updates of markets only, and to none at all
    unless it is an object whose channel contains ["market_stats"] and whose
    [market_stats] is an object, with at most one update for each of its
    items.  A message that does not decode, or is no object, is ignored. *)
Theorem handle_message_outcomes (msg : option json) :
  match _handle_message int_of_str msg with
  | None =>
      exists members : list (string * json),
        msg = Some (JDict members)
        /\ is_str (jget (dict_of members) "type") "connected" = false
        /\ truthy_val (val_of (jget (dict_of members) "channel")) = true
        /\ match jget (dict_of members) "channel" with
           | JBool _ | JInt _ | JFloat _ => True
           | _ => False
           end
  | Some calls =>
      (exists members : list (string * json),
          msg = Some (JDict members)
          /\ is_str (jget (dict_of members) "type") "connected" = true
          /\ calls = [Set_session (jget (dict_of members) "session_id");
                      Set_error None])
      \/ (Forall (fun c : call =>
                    exists (mid : Z) (out : gmap string pyval),
                      c = Update_market mid out) calls
          /\ (calls <> [] ->
              exists members stats : list (string * json),
                msg = Some (JDict members)
                /\ contains "market_stats"
                     (jor (jget (dict_of members) "channel") (JStr ""))
                   = Some true
                /\ jget (dict_of members) "market_stats" = JDict stats
                /\ (length calls <= length (dict_of stats))%nat))
  end.
Proof.
  assert (Hnone : forall l : list call,
             l = [] ->
             Forall (fun c : call =>
                       exists (mid : Z) (out : gmap string pyval),
                         c = Update_market mid out) l
             /\ (l <> [] ->
                 exists members stats : list (string * json),
                   msg = Some (JDict members)
                   /\ contains "market_stats"
                        (jor (jget (dict_of members) "channel") (JStr ""))
                      = Some true
                   /\ jget (dict_of members) "market_stats" = JDict stats
                   /\ (length l <= length (dict_of stats))%nat)).
  { intros l ->. split; [constructor | intros Hc; contradiction Hc; reflexivity]. }
  destruct msg as [[| | | | | | members] |]; cbn [_handle_message];
    try (right; apply Hnone; reflexivity).
  set (d := dict_of members).
  destruct (is_str (jget d "type") "connected") eqn:Hconn.
  { left. exists members. auto. }
  destruct (contains "market_stats" (jor (jget d "channel") (JStr ""))) as [inside |] eqn:Hin;
    cbn [mbind option_bind].
  - destruct inside; cbn [negb]; [| right; apply Hnone; reflexivity].
    destruct (jget d "market_stats") as [| | | | | | stats] eqn:Hstats;
      try (right; apply Hnone; reflexivity).
    right. split.
    + rewrite Forall_forall. intros c Hc.
      apply list_elem_of_omap in Hc as ([k v] & _ & Hc).
      eapply handle_item_update. exact Hc.
    + intros _. exists members, stats. fold d.
      split; [reflexivity |]. split; [exact Hin |]. split; [exact Hstats |].
      apply omap_length_le.
  - exists members. fold d. split; [reflexivity |]. split; [exact Hconn |].
    unfold jor in Hin.
    destruct (truthy_val (val_of (jget d "channel"))) eqn:Ht; [| discriminate].
    split; [reflexivity |].
    destruct (jget d "channel"); try discriminate; exact I.
Qed.


(** X11.  An entry written by the handler is read back by [_get_lighter_price]
    of [app.main].  When the entry is the first of the feed state under the
    symbol asked for, the bid and the ask returned are those that
    [_pick_best_bid_ask] resolved from the item, and the mark is the mark
    price of the item, [mark_price] or else [markPrice], unless that is
    missing or zero, in which case it is the index price, [index_price] or
    else [indexPrice]. *)
Theorem feed_entry_read_back (k : string) (members : list (string * json))
  (mid mid' : Z) (out : gmap string pyval) (app : App) (st : LighterWSState)
  (base : string) :
  handle_item int_of_str k (JDict members) = Some (Update_market mid out) ->
  LIGHTER_STATE app = Some st ->
  List.find (fun kv : Z * gmap string pyval =>
               bool_decide (symbol_of kv.2 = strip (upper base)))
    (market_stats st) = Some (mid', out) ->
  let v := entry_of members in
  symbol_of out = strip (upper (py_str (or_val (dict_get v "symbol") (PStr ""))))
  /\ _get_lighter_price app base = {|
       lp_bid := (_pick_best_bid_ask v).1;
       lp_ask := (_pick_best_bid_ask v).2;
       lp_mark :=
         or_opt
           (_to_float (or_val (dict_get v "mark_price") (dict_get v "markPrice")))
           (_to_float (or_val (dict_get v "index_price") (dict_get v "indexPrice")))
     |}.
Proof.
  intros Hitem Hst Hfind v.
  unfold handle_item in Hitem. fold v in Hitem.
  destruct (item_market_id int_of_str k v) as [m |]; [| discriminate].
  cbn [mbind option_bind] in Hitem.
  destruct (_pick_best_bid_ask v) as [bid ask].
  injection Hitem as <- <-.
  split; [reflexivity |].
  unfold _get_lighter_price, _get_ws_market_stats. rewrite Hst, Hfind.
  match goal with
  | |- context [dict_get ?o "best_bid"] =>
      change (dict_get o "best_bid") with (of_opt bid);
      change (dict_get o "best_ask") with (of_opt ask);
      change (dict_get o "mark_price")
        with (of_opt (_to_float (or_val (dict_get v "mark_price")
                                        (dict_get v "markPrice"))));
      change (dict_get o "index_price")
        with (of_opt (_to_float (or_val (dict_get v "index_price")
                                        (dict_get v "indexPrice"))))
  end.
  rewrite !to_f_of_opt. f_equal.
  apply or_val_of_opt.
Qed.

End with_builtins.

(** A market-stats message leads to the update of the one item that is an
    object with a usable id; an acknowledgement to the two calls, market
    stats or not; a numeric channel makes the handler raise; a channel that
    is a list is searched for the string itself; a message that is no
    object is ignored. *)
Example stats_message_handled :
  @_handle_message no_builtins digits_int (Some stats_message)
  = Some [Update_market 7 eth_entry]
  /\ @_handle_message no_builtins digits_int
       (Some (JDict [("type", JStr "connected"); ("session_id", JStr "s1");
                     ("market_stats", JDict [("7", JDict eth_item)])]%string))
     = Some [Set_session (JStr "s1"); Set_error None]
  /\ @_handle_message no_builtins digits_int
       (Some (JDict [("channel", JInt 5)]%string)) = None
  /\ @_handle_message no_builtins digits_int
       (Some (JDict [("channel", JList [JStr "market_stats"]);
                     ("market_stats", JDict [("7", JDict eth_item)])]%string))
     = Some [Update_market 7 eth_entry]
  /\ @_handle_message no_builtins digits_int (Some (JList [stats_message])) = Some [].
Proof.
  split; [vm_compute; reflexivity |].
  split; [vm_compute; reflexivity |].
  split; [vm_compute; reflexivity |].
  split; vm_compute; reflexivity.
Qed.

(** The same item, read back by [app.main] under the name ["eth"]. *)
Lemma feed_entry_read_back_witness :
  let v := entry_of eth_item in
  @symbol_of no_builtins eth_entry
  = strip (upper (@py_str no_builtins (or_val (dict_get v "symbol") (PStr ""))))
  /\ @_get_lighter_price no_builtins eth_feed_app "eth" = {|
       lp_bid := (@_pick_best_bid_ask no_builtins v).1;
       lp_ask := (@_pick_best_bid_ask no_builtins v).2;
       lp_mark :=
         or_opt
           (@_to_float no_builtins
              (or_val (dict_get v "mark_price") (dict_get v "markPrice")))
           (@_to_float no_builtins
              (or_val (dict_get v "index_price") (dict_get v "indexPrice")))
     |}.
Proof.
  apply (@feed_entry_read_back no_builtins digits_int "7" eth_item 7 7
           eth_entry eth_feed_app
           (WSState.update_market (Fin 1) 7 eth_entry WSState.new) "eth").
  - vm_compute. reflexivity.
  - reflexivity.
  - vm_compute. reflexivity.
Defined.

(** *** The shared state *)

(** The keys after [d[k] = v]. *)
Lemma alist_set_keys {K V : Type} `{EqDecision K} (k : K) (v : V) (l : list (K * V)) :
  (alist_set k v l).*1 = if decide (k ∈ l.*1) then l.*1 else l.*1 ++ [k].
Proof.
  induction l as [| [k' v'] l IH]; cbn [alist_set fmap list_fmap fst].
  - rewrite decide_False by apply not_elem_of_nil. reflexivity.
  - destruct (decide (k = k')) as [-> | Hne]; cbn [fmap list_fmap fst].
    + rewrite decide_True by apply list_elem_of_here. reflexivity.
    + rewrite IH. destruct (decide (k ∈ l.*1)) as [Hin | Hout].
      * rewrite decide_True by (apply list_elem_of_further; exact Hin). reflexivity.
      * rewrite decide_False; [reflexivity |].
        intros Hc. apply elem_of_cons in Hc as [-> | Hc]; [apply Hne; reflexivity |].
        apply Hout. exact Hc.
Qed.

(** X12.  The shared state of the feed after any sequence of calls of its
    methods, from the state at start-up.  The ids in [market_stats] are
    distinct and are exactly the ids in [markets_seen], so that the two
    counts of [snapshot] agree; [last_message_ts] is set exactly when some
    market was updated; and the entry under an id is the one of the last
    update for that id, the updates for other ids and the calls of
    [set_error] and [set_session] leaving it alone. *)
Theorem feed_state_invariants (calls : list method) :
  let st := foldl run_method WSState.new calls in
  NoDup (market_stats st).*1
  /\ markets_seen st = list_to_set (market_stats st).*1
  /\ WSState.market_stats_keys (WSState.snapshot st)
     = WSState.snap_markets_seen (WSState.snapshot st)
  /\ (last_message_ts st = None <-> market_stats st = [])
  /\ (forall market_id : Z,
         alist_get market_id (market_stats st)
         = alist_get market_id (updates_of calls)).
Proof.
  cbv zeta.
  assert (Hinv : NoDup (market_stats (foldl run_method WSState.new calls)).*1
                 /\ markets_seen (foldl run_method WSState.new calls)
                    = list_to_set (market_stats (foldl run_method WSState.new calls)).*1
                 /\ (last_message_ts (foldl run_method WSState.new calls) = None
                     <-> market_stats (foldl run_method WSState.new calls) = [])
                 /\ (forall market_id : Z,
                        alist_get market_id
                          (market_stats (foldl run_method WSState.new calls))
                        = alist_get market_id (updates_of calls))).
  { induction calls as [| c calls IH] using rev_ind.
    - cbn. split; [constructor |]. split; [reflexivity |]. split; [tauto | reflexivity].
    - rewrite foldl_app. cbn [foldl].
      set (st := foldl run_method WSState.new calls) in *.
      destruct IH as (Hnd & Hseen & Hts & Hget).
      assert (Hup : updates_of (calls ++ [c])
                    = match c with
                      | Call_update_market _ market_id stats => [(market_id, stats)]
                      | _ => []
                      end ++ updates_of calls).
      { unfold updates_of. rewrite omap_app, rev_app_distr.
        destruct c; reflexivity. }
      rewrite Hup.
      destruct c as [err | sid | now id stats];
        cbn [run_method WSState.set_error WSState.set_session WSState.update_market
               market_stats markets_seen last_message_ts app];
        [auto | auto |].
      rewrite alist_set_keys.
      split; [| split; [| split]].
      + destruct (decide (id ∈ (market_stats st).*1)); [exact Hnd |].
        apply NoDup_app. split; [exact Hnd |].
        split; [| apply NoDup_singleton].
        intros x Hx Hx'. apply list_elem_of_singleton in Hx'. subst x. contradiction.
      + rewrite Hseen. destruct (decide (id ∈ (market_stats st).*1)) as [Hin | Hout].
        * apply set_eq. intros x. rewrite elem_of_union, elem_of_singleton,
            elem_of_list_to_set. split; [intros [-> | Hx]; assumption | auto].
        * rewrite list_to_set_snoc_L. apply union_comm_L.
      + split; [discriminate |].
        destruct (market_stats st) as [| [k' v'] l]; cbn [alist_set];
          [discriminate | destruct (decide (id = k')); discriminate].
      + intros market_id. cbn [alist_get].
        destruct (decide (market_id = id)) as [-> | Hne].
        * apply MainFacts.alist_get_set_eq.
        * rewrite MainFacts.alist_get_set_ne by exact Hne. apply Hget. }
  destruct Hinv as (Hnd & Hseen & Hts & Hget).
  split; [exact Hnd |]. split; [exact Hseen |].
  split; [| split; [exact Hts | exact Hget]].
  cbn [WSState.snapshot WSState.market_stats_keys WSState.snap_markets_seen].
  rewrite Hseen, size_list_to_set by exact Hnd.
  rewrite length_fmap. reflexivity.
Qed.

End HandlerFacts.

(** ** The way of a stored record to the chart *)

Module SpreadFacts.

Section chart.
Context `{Builtins}.

(** [_compute_spread] looks at the feed state and at the quotes only. *)
Lemma compute_spread_ext (a b : App) (base : string) (x : float) (mode : string) :
  LIGHTER_STATE a = LIGHTER_STATE b -> VAR_BATCH a = VAR_BATCH b ->
  _compute_spread a base x mode = _compute_spread b base x mode.
Proof.
  intros Hl Hv. unfold _compute_spread, _get_lighter_price, _get_ws_market_stats,
    _get_var_quote. rewrite Hl, Hv. reflexivity.
Qed.

(** The last item that passes a filter. *)
Lemma last_filter_snoc {A : Type} (P : A -> Prop) `{forall x, Decision (P x)}
  (l : list A) (x : A) :
  P x -> last (filter P (l ++ [x])) = Some x.
Proof.
  intros Hx. rewrite filter_app, filter_cons_True by exact Hx.
  rewrite filter_nil. apply last_snoc.
Qed.

(** A deque with room for one item ends with the item appended. *)
Lemma deque_append_last {A : Type} (dq : deque A) (x : A) :
  match maxlen dq with Some cap => 1 <= cap | None => True end ->
  exists l : list A, items (deque_append dq x) = l ++ [x].
Proof.
  intros Hcap. unfold deque_append. cbn [items].
  destruct (maxlen dq) as [cap |]; [| eauto].
  destruct (Z.ltb_spec cap (Z.of_nat (length (items dq ++ [x])))) as [Hover | Hfit];
    [| eauto].
  destruct (items dq) as [| y l]; [cbn in Hover; lia |].
  exists l. reflexivity.
Qed.

(** X18.  A stored record reaches the chart.  When [ingest_var_batch]
    stores a record, then for each of the two modes that it pushes, the
    spread that [_compute_spread] finds for the base and the key of the
    record is appended, with the time of the request, to the series of the
    base and the mode, if both [spread_usd] and [spread_bps] are there; the
    series is as before if one of them is missing.  The series of other
    bases and of other modes are as before.  And when the point was
    appended, [chart_series] for the base and the mode, asked with a window
    that reaches back to the time of the request, answers with that point
    as its latest. *)
Theorem stored_quote_charted (app : App) (now_ms : Z) (q : gmap string pyval)
  (mode : string) :
  (ingest_quote app now_ms (Row q)).2 = Stored ->
  mode ∈ pushed_modes ->
  let app' := (ingest_quote app now_ms (Row q)).1 in
  let base := quote_base q in
  let before := default (new_series app) (SPREAD_SERIES app !! (base, mode)) in
  exists (n : Z) (row : SpreadRow),
    _notional_key (quote_notional q) = Some n
    /\ _compute_spread app' base (PyFloat.of_Z n) mode = Some row
    /\ match row_spread_usd row, row_spread_bps row with
       | Some usd, Some bps =>
           SPREAD_SERIES app' !! (base, mode)
           = Some (deque_append before (now_ms, usd, bps))
       | _, _ => SPREAD_SERIES app' !! (base, mode) = SPREAD_SERIES app !! (base, mode)
       end
    /\ (forall key : string * string,
           key.1 <> base \/ key.2 ∉ pushed_modes ->
           SPREAD_SERIES app' !! key = SPREAD_SERIES app !! key)
    /\ (forall (usd bps : float) (now' : Z) (window metric : string) (w : Z),
           row_spread_usd row = Some usd -> row_spread_bps row = Some bps ->
           match maxlen before with Some cap => 1 <= cap | None => True end ->
           _parse_window_s window = Some w -> now' - w * 1000 <= now_ms ->
           exists resp : SeriesResponse,
             chart_series app' now' base window metric mode = Some resp
             /\ latest resp
                = Some (charted
                          (strip (lower (if bool_decide (metric = ""%string)
                                         then "bps"%string else metric)))
                          (now_ms, usd, bps))).
Proof.
  intros Hstored Hmode app' base before. subst app'.
  rewrite (MainFacts.ingest_quote_cases app now_ms q) in *. cbv zeta in *.
  fold base in Hstored |- *.
  destruct (bool_decide (base = ""%string)) eqn:Hb; [discriminate |].
  apply bool_decide_eq_false in Hb.
  destruct (_notional_key (quote_notional q)) as [n |]; [| discriminate].
  destruct (_to_f (dict_get q "bid")) as [b |]; [| discriminate].
  destruct (_to_f (dict_get q "ask")) as [a |]; [| discriminate].
  destruct (off_mark _ _ _); [discriminate |].
  set (stored := set_ACTIVE_BASES _ _) in *.
  assert (Hnorm : strip (upper base) = base) by apply MainFacts.strip_upper_idem.
  (* the two pushes *)
  cbn [push_modes] in *.
  destruct (MainFacts.compute_spread_total stored base n "lighter_bid_minus_var_sell")
    as [r1 Hr1].
  rewrite Hr1 in *. cbn [mbind option_bind] in *.
  set (app1 := _push_point stored now_ms base "lighter_bid_minus_var_sell"
                 (row_spread_usd r1) (row_spread_bps r1)) in *.
  destruct (MainFacts.push_point_frame stored now_ms base "lighter_bid_minus_var_sell"
              (row_spread_usd r1) (row_spread_bps r1)) as (F1 & F2 & F3 & _).
  fold app1 in F1, F2, F3.
  destruct (MainFacts.compute_spread_total app1 base n "lighter_ask_minus_var_buy")
    as [r2 Hr2].
  rewrite Hr2 in *. cbn [mbind option_bind fst snd] in *.
  set (app2 := _push_point app1 now_ms base "lighter_ask_minus_var_buy"
                 (row_spread_usd r2) (row_spread_bps r2)) in *.
  destruct (MainFacts.push_point_frame app1 now_ms base "lighter_ask_minus_var_buy"
              (row_spread_usd r2) (row_spread_bps r2)) as (_ & G2 & G3 & _).
  fold app2 in G2, G3.
  assert (Hrow : forall m : string,
             _compute_spread app2 base (PyFloat.of_Z n) m
             = _compute_spread stored base (PyFloat.of_Z n) m).
  { intros m. apply compute_spread_ext; congruence. }
  assert (Hrow1 : forall m : string,
             _compute_spread app1 base (PyFloat.of_Z n) m
             = _compute_spread stored base (PyFloat.of_Z n) m).
  { intros m. apply compute_spread_ext; congruence. }
  rewrite Hrow1 in Hr2.
  (* the series after the two pushes *)
  assert (Hss : forall (m : string) (usd bps : option float) (x : App),
             strip m = m -> m <> ""%string ->
             SPREAD_SERIES (_push_point x now_ms base m usd bps)
             = match usd, bps with
               | Some u, Some p =>
                   <[(base, m) :=
                       deque_append
                         (default (new_series x) (SPREAD_SERIES x !! (base, m)))
                         (now_ms, u, p)]> (SPREAD_SERIES x)
               | _, _ => SPREAD_SERIES x
               end).
  { intros m usd bps x Hm Hne. unfold _push_point.
    destruct usd as [u |], bps as [p |]; try reflexivity.
    rewrite Hnorm, Hm. rewrite bool_decide_eq_false_2 by exact Hb.
    rewrite bool_decide_eq_false_2 by exact Hne.
    unfold new_series. destruct (SPREAD_SERIES x !! (base, m)); reflexivity. }
  assert (Hs1 := Hss "lighter_bid_minus_var_sell"%string (row_spread_usd r1)
                   (row_spread_bps r1) stored eq_refl ltac:(discriminate)).
  assert (Hs2 := Hss "lighter_ask_minus_var_buy"%string (row_spread_usd r2)
                   (row_spread_bps r2) app1 eq_refl ltac:(discriminate)).
  fold app1 in Hs1. fold app2 in Hs2.
  change (SPREAD_SERIES stored) with (SPREAD_SERIES app) in Hs1.
  change (new_series stored) with (new_series app) in Hs1.
  assert (Hnew : new_series app1 = new_series app)
    by (unfold new_series; rewrite F1; reflexivity).
  rewrite Hnew in Hs2.
  exists n.
  assert (Hkey : forall key : string * string,
             key.1 <> base \/ key.2 ∉ pushed_modes ->
             SPREAD_SERIES app2 !! key = SPREAD_SERIES app !! key).
  { intros [kb km] Hk. cbn [fst snd] in Hk.
    assert (Hne1 : (base, "lighter_bid_minus_var_sell"%string) <> (kb, km)).
    { intros [= <- <-]. destruct Hk as [Hk | Hk]; [apply Hk; reflexivity |].
      apply Hk. unfold pushed_modes. apply list_elem_of_here. }
    assert (Hne2 : (base, "lighter_ask_minus_var_buy"%string) <> (kb, km)).
    { intros [= <- <-]. destruct Hk as [Hk | Hk]; [apply Hk; reflexivity |].
      apply Hk. unfold pushed_modes. apply list_elem_of_further, list_elem_of_here. }
    rewrite Hs2, Hs1.
    destruct (row_spread_usd r2), (row_spread_bps r2),
      (row_spread_usd r1), (row_spread_bps r1);
      rewrite ?lookup_insert_ne by assumption; reflexivity. }
  assert (Hchart : forall (row : SpreadRow) (usd bps : float) (now' : Z)
                          (window metric : string) (w : Z),
             SPREAD_SERIES app2 !! (base, mode)
             = Some (deque_append before (now_ms, usd, bps)) ->
             match maxlen before with Some cap => 1 <= cap | None => True end ->
             _parse_window_s window = Some w -> now' - w * 1000 <= now_ms ->
             exists resp : SeriesResponse,
               chart_series app2 now' base window metric mode = Some resp
               /\ latest resp
                  = Some (charted
                            (strip (lower (if bool_decide (metric = ""%string)
                                           then "bps"%string else metric)))
                            (now_ms, usd, bps))).
  { intros row usd bps now' window metric w Hser Hcap Hw Hcut.
    unfold chart_series. rewrite Hw. cbn [mbind option_bind].
    rewrite Hnorm.
    assert (Hm : strip (if bool_decide (mode = ""%string) then default_mode else mode)
                 = mode).
    { unfold pushed_modes in Hmode.
      apply elem_of_cons in Hmode as [-> | Hmode]; [reflexivity |].
      apply elem_of_cons in Hmode as [-> | Hmode]; [reflexivity |].
      apply elem_of_nil in Hmode. contradiction. }
    rewrite Hm, Hser.
    eexists. split; [reflexivity |]. cbn [latest].
    rewrite MainFacts.select_points_filter.
    destruct (deque_append_last before (now_ms, usd, bps) Hcap) as [l Hl].
    rewrite Hl, fmap_last, last_filter_snoc by (cbn; lia).
    reflexivity. }
  unfold pushed_modes in Hmode.
  apply elem_of_cons in Hmode as Hcases.
  destruct Hcases as [-> | Hcases].
  - exists r1. split; [reflexivity |].
    split; [rewrite Hrow; exact Hr1 |].
    assert (Hser : SPREAD_SERIES app2 !! (base, "lighter_bid_minus_var_sell"%string)
                   = SPREAD_SERIES app1 !! (base, "lighter_bid_minus_var_sell"%string)).
    { rewrite Hs2. destruct (row_spread_usd r2), (row_spread_bps r2); try reflexivity.
      apply lookup_insert_ne. discriminate. }
    assert (Hser1 : match row_spread_usd r1, row_spread_bps r1 with
                    | Some usd, Some bps =>
                        SPREAD_SERIES app2 !! (base, "lighter_bid_minus_var_sell"%string)
                        = Some (deque_append before (now_ms, usd, bps))
                    | _, _ =>
                        SPREAD_SERIES app2 !! (base, "lighter_bid_minus_var_sell"%string)
                        = SPREAD_SERIES app !! (base, "lighter_bid_minus_var_sell"%string)
                    end).
    { rewrite Hser, Hs1.
      destruct (row_spread_usd r1), (row_spread_bps r1); try reflexivity.
      apply lookup_insert_eq. }
    split; [exact Hser1 |]. split; [exact Hkey |].
    intros usd bps now' window metric w Hu Hp. rewrite Hu, Hp in Hser1.
    apply (Hchart r1). exact Hser1.
  - apply elem_of_cons in Hcases as [-> | Hcases];
      [| apply elem_of_nil in Hcases; contradiction].
    exists r2. split; [reflexivity |].
    split; [rewrite Hrow; exact Hr2 |].
    assert (Hser1 : SPREAD_SERIES app1 !! (base, "lighter_ask_minus_var_buy"%string)
                    = SPREAD_SERIES app !! (base, "lighter_ask_minus_var_buy"%string)).
    { rewrite Hs1. destruct (row_spread_usd r1), (row_spread_bps r1); try reflexivity.
      apply lookup_insert_ne. discriminate. }
    assert (Hser2 : match row_spread_usd r2, row_spread_bps r2 with
                    | Some usd, Some bps =>
                        SPREAD_SERIES app2 !! (base, "lighter_ask_minus_var_buy"%string)
                        = Some (deque_append before (now_ms, usd, bps))
                    | _, _ =>
                        SPREAD_SERIES app2 !! (base, "lighter_ask_minus_var_buy"%string)
                        = SPREAD_SERIES app !! (base, "lighter_ask_minus_var_buy"%string)
                    end).
    { rewrite Hs2. subst before.
      destruct (row_spread_usd r2), (row_spread_bps r2); try exact Hser1.
      rewrite lookup_insert_eq, Hser1. reflexivity. }
    split; [exact Hser2 |]. split; [exact Hkey |].
    intros usd bps now' window metric w Hu Hp. rewrite Hu, Hp in Hser2.
    apply (Hchart r2). exact Hser2.
Qed.

End chart.

(** The record for ETH near the mark, stored at second one while the feed
    knows ETH, and the first of the two modes. *)
Lemma stored_quote_charted_witness :
  let app' := (@ingest_quote no_builtins eth_feed_app 1000 (Row eth_near_quote)).1 in
  let base := @quote_base no_builtins eth_near_quote in
  let mode := "lighter_bid_minus_var_sell"%string in
  let before :=
    default (new_series eth_feed_app) (SPREAD_SERIES eth_feed_app !! (base, mode)) in
  exists (n : Z) (row : SpreadRow),
    @_notional_key no_builtins (quote_notional eth_near_quote) = Some n
    /\ @_compute_spread no_builtins app' base (PyFloat.of_Z n) mode = Some row
    /\ match row_spread_usd row, row_spread_bps row with
       | Some usd, Some bps =>
           SPREAD_SERIES app' !! (base, mode)
           = Some (deque_append before (1000, usd, bps))
       | _, _ =>
           SPREAD_SERIES app' !! (base, mode)
           = SPREAD_SERIES eth_feed_app !! (base, mode)
       end
    /\ (forall key : string * string,
           key.1 <> base \/ key.2 ∉ pushed_modes ->
           SPREAD_SERIES app' !! key = SPREAD_SERIES eth_feed_app !! key)
    /\ (forall (usd bps : float) (now' : Z) (window metric : string) (w : Z),
           row_spread_usd row = Some usd -> row_spread_bps row = Some bps ->
           match maxlen before with Some cap => 1 <= cap | None => True end ->
           @_parse_window_s no_builtins window = Some w ->
           now' - w * 1000 <= 1000 ->
           exists resp : SeriesResponse,
             @chart_series no_builtins app' now' base window metric mode = Some resp
             /\ latest resp
                = Some (charted
                          (strip (lower (if bool_decide (metric = ""%string)
                                         then "bps"%string else metric)))
                          (1000, usd, bps))).
Proof.
  apply (@stored_quote_charted no_builtins eth_feed_app 1000 eth_near_quote
           "lighter_bid_minus_var_sell").
  - vm_compute. reflexivity.
  - apply list_elem_of_here.
Defined.

End SpreadFacts.

(** ** Rankings by volume *)

Module RankingFacts.

(** The sort rearranges. *)
Lemma insert_by_Permutation {A : Type} (lt : A -> A -> bool) (x : A) (l : list A) :
  Permutation (x :: l) (insert_by lt x l).
Proof.
  induction l as [| y l IH]; [reflexivity |].
  cbn [insert_by]. destruct (lt y x); [| reflexivity].
  rewrite <- IH. apply perm_swap.
Qed.

Lemma sort_by_Permutation {A : Type} (lt : A -> A -> bool) (l : list A) :
  Permutation l (sort_by lt l).
Proof.
  induction l as [| x l IH]; [reflexivity |].
  cbn [sort_by foldr]. rewrite <- insert_by_Permutation.
  constructor. exact IH.
Qed.

(** Where [lt] is asymmetric and its negation transitive on the items, the
    sort puts them in order. *)
Lemma sort_by_StronglySorted {A : Type} (lt : A -> A -> bool) (P : A -> Prop)
  (l : list A) :
  (forall x y : A, P x -> P y -> lt x y = true -> lt y x = false) ->
  (forall x y z : A,
      P x -> P y -> P z -> lt y x = false -> lt z y = false -> lt z x = false) ->
  Forall P l ->
  StronglySorted (fun x y => lt y x = false) (sort_by lt l).
Proof.
  intros Hasym Htrans Hall.
  induction Hall as [| x l Hx Hall IH]; [constructor |].
  cbn [sort_by foldr]. fold (sort_by lt l).
  assert (HP : Forall P (sort_by lt l)).
  { rewrite <- (sort_by_Permutation lt l). exact Hall. }
  revert IH HP. generalize (sort_by lt l). clear l Hall.
  induction l as [| y l IHl]; intros Hs HP.
  - cbn. constructor; constructor.
  - cbn [insert_by]. apply StronglySorted_inv in Hs as [Hs Hy].
    apply Forall_cons in HP as [HPy HP].
    destruct (lt y x) eqn:Hyx.
    + constructor; [apply IHl; assumption |].
      assert (Hin : Forall (fun z => lt z y = false) (x :: l)).
      { constructor; [apply Hasym; assumption | exact Hy]. }
      rewrite (insert_by_Permutation lt x l) in Hin. exact Hin.
    + constructor; [constructor; assumption |].
      constructor; [exact Hyx |].
      rewrite Forall_forall in Hy, HP |- *. intros z Hz.
      apply (Htrans x y z); auto.
Qed.

(** A prefix of a list in order is in order. *)
Lemma StronglySorted_take {A : Type} (R : A -> A -> Prop) (n : nat) (l : list A) :
  StronglySorted R l -> StronglySorted R (take n l).
Proof.
  intros Hs. revert n. induction Hs as [| x l Hs IH Hx]; intros [| n]; cbn;
    try constructor; [apply IH |].
  rewrite Forall_forall in Hx |- *. intros y Hy.
  apply Hx. eapply subseteq_take. exact Hy.
Qed.

Lemma StronglySorted_impl {A : Type} (R S : A -> A -> Prop) (P : A -> Prop)
  (l : list A) :
  (forall x y : A, P x -> P y -> R x y -> S x y) ->
  Forall P l -> StronglySorted R l -> StronglySorted S l.
Proof.
  intros Himp HP Hs. induction Hs as [| x l Hs IH Hx]; [constructor |].
  apply Forall_cons in HP as [HPx HP].
  constructor; [apply IH; exact HP |].
  rewrite Forall_forall in Hx, HP |- *. intros y Hy. apply Himp; auto.
Qed.

Section ws_rows_facts.
Context `{Builtins}.
Variable int_of_str : string -> option Z.

(** The key of [_pick_ws_rows] orders the rows by [ranks_before]. *)
Lemma lt_key_order (r1 r2 : WsRow) :
  lighter_daily_quote_volume r1 <> Some NaN ->
  lighter_daily_quote_volume r2 <> Some NaN ->
  lt_key (sk r2) (sk r1) = false <-> ranks_before r1 r2.
Proof.
  unfold lt_key, sk, ranks_before. cbn [fst snd].
  destruct (lighter_daily_quote_volume r1) as [[x1 |] |],
           (lighter_daily_quote_volume r2) as [[x2 |] |];
    intros H1 H2; try congruence;
    cbv [default from_option id neg float_eqb PyFloat.lt PyFloat.cmp PyFloat.qlt].
  all: match goal with
       | |- (if Qeq_bool ?a ?b then _ else _) = false <-> _ =>
           destruct (Qeq_bool a b) eqn:He;
           [apply Qeq_bool_iff in He | apply Qeq_bool_neq in He]
       end.
  all: rewrite ?Z.ltb_ge, ?negb_false_iff, ?Qle_bool_iff.
  all: split; [intros Hle | intros [Hlt | [Heq Hle]]]; try lra; try lia;
    try (right; split; [lra | lia]); try (left; lra).
Qed.

Lemma ranks_before_total (r1 r2 : WsRow) :
  lighter_daily_quote_volume r1 <> Some NaN ->
  lighter_daily_quote_volume r2 <> Some NaN ->
  ranks_before r1 r2 \/ ranks_before r2 r1.
Proof.
  unfold ranks_before.
  destruct (lighter_daily_quote_volume r1) as [[x1 |] |],
           (lighter_daily_quote_volume r2) as [[x2 |] |];
    intros H1 H2; try congruence; cbv [default from_option id].
  all: match goal with
       | |- ((?b < ?a)%Q \/ _) \/ _ =>
           destruct (Q_dec a b) as [[Hlt | Hgt] | Heq];
           [right; left; exact Hlt | left; left; exact Hgt |];
           destruct (Z.le_ge_cases (lighter_market_id r1) (lighter_market_id r2));
           [left; right; split; [exact Heq | assumption]
           | right; right; split; [symmetry; exact Heq | assumption]]
       end.
Qed.

Lemma ranks_before_trans (r1 r2 r3 : WsRow) :
  ranks_before r1 r2 -> ranks_before r2 r3 -> ranks_before r1 r3.
Proof.
  unfold ranks_before.
  destruct (default (Fin (-1)) (lighter_daily_quote_volume r1)) as [x1 |],
           (default (Fin (-1)) (lighter_daily_quote_volume r2)) as [x2 |],
           (default (Fin (-1)) (lighter_daily_quote_volume r3)) as [x3 |];
    try tauto.
  intros [H12 | [E12 L12]] [H23 | [E23 L23]].
  - left. lra.
  - left. lra.
  - left. lra.
  - right. split; [lra | lia].
Qed.

(** X19.  The rows of [top_bases].  [_pick_ws_rows] raises only when [int]
    raises on the market id of an entry of the feed that has a symbol.
    Otherwise it returns at most 200 rows, at most [top_n] of them and none
    for a negative [top_n], and at most one for each entry of the feed;
    every row has a name and is the row of an entry of the feed; and where
    no volume is a not-a-number the rows are in order: a larger volume
    first, the rows without a volume after those with one, and the smaller
    market id first among equal volumes. *)
Theorem ws_rows_top (app : App) (top_n : Z) :
  let stats := _get_ws_market_stats app in
  match _pick_ws_rows int_of_str app top_n with
  | None =>
      exists kv : Z * gmap string pyval,
        kv ∈ stats /\ ws_row int_of_str kv.1 kv.2 = Some None
  | Some rows =>
      (length rows <= 200)%nat
      /\ Z.of_nat (length rows) <= Z.max 0 top_n
      /\ (length rows <= length stats)%nat
      /\ Forall (fun r : WsRow =>
                   ws_base r <> ""%string
                   /\ exists kv : Z * gmap string pyval,
                       kv ∈ stats /\ ws_row int_of_str kv.1 kv.2 = Some (Some r))
            rows
      /\ (Forall (fun kv : Z * gmap string pyval =>
                    _to_f (dict_get kv.2 "daily_quote_volume") <> Some NaN) stats ->
          StronglySorted ranks_before rows)
  end.
Proof.
  intros stats. unfold _pick_ws_rows. fold stats.
  set (named := omap (fun kv : Z * gmap string pyval => ws_row int_of_str kv.1 kv.2) stats).
  destruct (mapM id named) as [rows |] eqn:Hrows; cbn [mbind option_bind].
  2:{ apply mapM_None_1, Exists_exists in Hrows as (o & Ho & Hnone).
      unfold id in Hnone. subst o.
      apply list_elem_of_omap in Ho as (kv & Hkv & Hrow). eauto. }
  set (lt := fun r1 r2 : WsRow => lt_key (sk r1) (sk r2)).
  set (n := Z.to_nat (Z.max 0 (Z.min top_n 200))).
  assert (Hlen : length rows = length named) by (symmetry; eapply length_mapM; exact Hrows).
  assert (Hnamed : (length named <= length stats)%nat).
  { subst named. clear. induction stats as [| kv l IH]; [reflexivity |].
    cbn [omap list_omap]. destruct (ws_row int_of_str kv.1 kv.2); cbn [length]; lia. }
  assert (Hsl : length (sort_by lt rows) = length rows)
    by (symmetry; apply Permutation_length, sort_by_Permutation).
  assert (Horigin : Forall (fun r : WsRow =>
                      ws_base r <> ""%string
                      /\ exists kv : Z * gmap string pyval,
                          kv ∈ stats /\ ws_row int_of_str kv.1 kv.2 = Some (Some r))
                      rows).
  { apply mapM_Some_1 in Hrows. rewrite Forall_forall. intros r Hr.
    apply list_elem_of_lookup in Hr as [i Hi].
    destruct (Forall2_lookup_r _ _ _ i r Hrows Hi) as (o & Ho & Hor).
    unfold id in Hor. subst o.
    apply list_elem_of_lookup_2, list_elem_of_omap in Ho as (kv & Hkv & Hrow).
    split; [| eauto].
    unfold ws_row in Hrow.
    destruct (bool_decide (strip (upper (py_str (or_val (dict_get kv.2 "symbol") (PStr ""))))
                           = ""%string)) eqn:Hb; [discriminate |].
    apply bool_decide_eq_false in Hb.
    injection Hrow as Hrow.
    destruct (match _to_f (default (PInt kv.1) (kv.2 !! "market_id"%string)) with
              | Some _ => py_int_of int_of_str (default (PInt kv.1) (kv.2 !! "market_id"%string))
              | None => Some kv.1
              end); [| discriminate].
    cbn [mbind option_bind] in Hrow. injection Hrow as <-. exact Hb. }
  split; [rewrite length_take; lia |].
  split; [rewrite length_take; lia |].
  split; [rewrite length_take; lia |].
  split.
  { rewrite Forall_forall in Horigin |- *. intros r Hr. apply Horigin.
    rewrite (sort_by_Permutation lt rows). eapply subseteq_take. exact Hr. }
  intros Hnan.
  assert (HP : Forall (fun r : WsRow => lighter_daily_quote_volume r <> Some NaN) rows).
  { rewrite Forall_forall in Horigin |- *. intros r Hr.
    destruct (Horigin r Hr) as (_ & kv & Hkv & Hrow).
    pose proof (proj1 (Forall_forall _ _) Hnan kv Hkv) as Hnan'. cbv beta in Hnan'.
    clear Hnan. rename Hnan' into Hnan. unfold ws_row in Hrow.
    destruct (bool_decide _); [discriminate |]. injection Hrow as Hrow.
    destruct (match _to_f _ with Some _ => _ | None => _ end); [| discriminate].
    cbn [mbind option_bind] in Hrow. injection Hrow as <-. exact Hnan. }
  apply StronglySorted_take.
  apply (StronglySorted_impl (fun x y => lt y x = false) ranks_before
           (fun r : WsRow => lighter_daily_quote_volume r <> Some NaN)).
  - intros x y Hx Hy Hxy. apply lt_key_order; assumption.
  - rewrite <- (sort_by_Permutation lt rows). exact HP.
  - apply (sort_by_StronglySorted lt
             (fun r : WsRow => lighter_daily_quote_volume r <> Some NaN)).
    + intros x y Hx Hy Hlt. apply lt_key_order; [assumption | assumption |].
      destruct (ranks_before_total x y Hx Hy) as [Hb | Hb]; [exact Hb |].
      apply lt_key_order in Hb; [| assumption | assumption].
      subst lt. cbv beta in Hlt. congruence.
    + intros x y z Hx Hy Hz Hyx Hzy.
      apply lt_key_order; [assumption | assumption |].
      apply (ranks_before_trans x y z); apply lt_key_order; assumption.
    + exact HP.
Qed.

End ws_rows_facts.

(** A list in order stays so with an item at the end that all precede. *)
Lemma StronglySorted_snoc {A : Type} (R : A -> A -> Prop) (k : list A) (x : A) :
  StronglySorted R k -> Forall (fun y => R y x) k -> StronglySorted R (k ++ [x]).
Proof.
  induction 1 as [| y k Hs IH Hy]; intros Hx; cbn.
  - constructor; constructor.
  - inversion Hx as [| ? ? Hyx Hx']; subst.
    constructor; [apply IH; exact Hx' |].
    apply Forall_app; split; [exact Hy | constructor; [exact Hyx | constructor]].
Qed.

Lemma StronglySorted_rev {A : Type} (R : A -> A -> Prop) (l : list A) :
  StronglySorted R l -> StronglySorted (fun x y => R y x) (rev l).
Proof.
  induction 1 as [| x l Hs IH Hx]; [constructor |].
  cbn [rev]. apply StronglySorted_snoc; [exact IH |].
  apply Forall_rev. exact Hx.
Qed.

(** The two parts of a list in order. *)
Lemma StronglySorted_app_inv {A : Type} (R : A -> A -> Prop) (l1 l2 : list A) :
  StronglySorted R (l1 ++ l2) ->
  StronglySorted R l1 /\ forall x y, x ∈ l1 -> y ∈ l2 -> R x y.
Proof.
  induction l1 as [| a l1 IH]; cbn; intros Hs.
  - split; [constructor |]. intros x y Hx. inversion Hx.
  - inversion Hs as [| ? ? Hs' Ha]; subst.
    destruct (IH Hs') as [IH1 IH2].
    apply Forall_app in Ha as [Ha1 Ha2].
    split; [constructor; assumption |].
    intros x y Hx Hy. apply elem_of_cons in Hx as [-> | Hx].
    + rewrite Forall_forall in Ha2. apply Ha2. exact Hy.
    + apply IH2; assumption.
Qed.

(** A slice from the start is a prefix. *)
Lemma py_take_sublist {A : Type} (n : Z) (l : list A) :
  exists m : nat, py_take n l = take m l.
Proof. unfold py_take. destruct (0 <=? n); eexists; reflexivity. Qed.

(** The rows that [_top_bases_from_lighter] collects. *)
Lemma volume_rows_spec (markets : list (string * Market)) (b : string) (v : float) :
  (b, v) ∈ volume_rows markets <->
  exists m : Market,
    (b, m) ∈ markets /\ daily_quote_volume (stats m) = Some v
    /\ _is_crypto_symbol b = true.
Proof.
  unfold volume_rows. rewrite list_elem_of_omap. split.
  - intros [[b' m] [Hin Hrow]]. cbn [fst snd] in Hrow.
    destruct (_is_crypto_symbol b') eqn:Hc; cbn [negb] in Hrow; [| discriminate].
    destruct (daily_quote_volume (stats m)) as [v' |] eqn:Hv; [| discriminate].
    cbn in Hrow. injection Hrow as -> ->. exists m. auto.
  - intros (m & Hin & Hv & Hc). exists (b, m). split; [exact Hin |].
    cbn [fst snd]. rewrite Hc, Hv. reflexivity.
Qed.

(** X20.  The bases handed to the poller.  [_top_bases_from_lighter] returns
    the names of the first [limit] rows of a ranking of the candidates, the
    markets that have a volume and whose name does not look like a currency
    pair: the rows chosen and the rows left out make up the candidates; for
    a negative [limit] that many rows are dropped from the end of the
    ranking instead; and where no volume is a not-a-number the rows chosen
    are in descending order of volume and no row left out has a larger
    volume than a row chosen. *)
Theorem top_bases_ranked (markets : list (string * Market)) (limit : Z) :
  let candidates := volume_rows markets in
  exists rows rest : list (string * float),
    _top_bases_from_lighter markets limit = rows.*1
    /\ Permutation candidates (rows ++ rest)
    /\ Z.of_nat (length rows)
       = (if 0 <=? limit then Z.min limit (Z.of_nat (length candidates))
          else Z.max 0 (Z.of_nat (length candidates) + limit))
    /\ (forall (b : string) (v : float),
          (b, v) ∈ candidates <->
          exists m : Market,
            (b, m) ∈ markets /\ daily_quote_volume (stats m) = Some v
            /\ _is_crypto_symbol b = true)
    /\ (Forall (fun r : string * float => r.2 <> NaN) candidates ->
        StronglySorted volume_ge rows
        /\ forall r r' : string * float, r ∈ rows -> r' ∈ rest -> volume_ge r r').
Proof.
  intros candidates.
  set (sorted := sort_rows candidates).
  assert (Hperm : Permutation candidates sorted).
  { unfold sorted, sort_rows. rewrite <- Permutation_rev.
    rewrite <- sort_by_Permutation. apply Permutation_rev. }
  assert (Hlen : length sorted = length candidates).
  { symmetry. apply Permutation_length. exact Hperm. }
  destruct (py_take_sublist limit sorted) as [n Hn].
  exists (take n sorted), (drop n sorted).
  split; [unfold _top_bases_from_lighter; fold candidates; fold sorted;
          rewrite Hn; reflexivity |].
  split; [rewrite take_drop; exact Hperm |].
  split.
  { rewrite <- Hn. unfold py_take.
    destruct (0 <=? limit) eqn:Hl.
    - apply Z.leb_le in Hl. rewrite length_take, Hlen. lia.
    - apply Z.leb_gt in Hl. rewrite length_take, Hlen. lia. }
  split; [intros b v; apply volume_rows_spec |].
  intros Hnan.
  assert (Hnan' : Forall (fun r : string * float => r.2 <> NaN) sorted).
  { rewrite <- Hperm. exact Hnan. }
  assert (Hs : StronglySorted volume_ge sorted).
  { apply (StronglySorted_impl
             (fun x y : string * float => PyFloat.lt x.2 y.2 = false)
             volume_ge (fun r => r.2 <> NaN)); [| exact Hnan' |].
    - intros [b1 [x1 |]] [b2 [x2 |]]; cbn [snd]; try congruence.
      intros _ _. unfold volume_ge. cbn [snd].
      cbv [PyFloat.lt PyFloat.cmp PyFloat.qlt].
      rewrite negb_false_iff, Qle_bool_iff. trivial.
    - unfold sorted, sort_rows.
      apply (StronglySorted_rev
               (fun x y : string * float => PyFloat.lt y.2 x.2 = false)).
      apply (sort_by_StronglySorted _ (fun r => r.2 <> NaN)).
      + intros [b1 [x1 |]] [b2 [x2 |]]; cbn [snd]; try congruence.
        intros _ _. cbv [PyFloat.lt PyFloat.cmp PyFloat.qlt].
        rewrite negb_true_iff, negb_false_iff.
        intros Hlt. apply Qle_bool_iff.
        destruct (Qle_bool x2 x1) eqn:Hle; [discriminate |].
        destruct (Qlt_le_dec x2 x1) as [Hx | Hx]; [| exact Hx].
        apply Qlt_le_weak in Hx. apply Qle_bool_iff in Hx. congruence.
      + intros [b1 [x1 |]] [b2 [x2 |]] [b3 [x3 |]]; cbn [snd]; try congruence.
        intros _ _ _. cbv [PyFloat.lt PyFloat.cmp PyFloat.qlt].
        rewrite !negb_false_iff, !Qle_bool_iff. intros H1 H2. lra.
      + apply Forall_rev. exact Hnan. }
  rewrite <- (take_drop n sorted) in Hs.
  apply StronglySorted_app_inv in Hs. exact Hs.
Qed.

End RankingFacts.

(** ** The cache of the market list *)

Module CacheFacts.

(** X21.  The cache of the market list.  A call that finds the cache empty or
    sixty seconds old, and whose request answers with a list, returns that
    list.  The calls that follow within sixty seconds of it, at whatever
    times in whatever order and whatever the upstream would answer, each
    return the same list without a request, and leave the cache as it
    is. *)
Theorem markets_cache_window (t0 : Q) (items : list json) (stale : MarketsCache)
  (calls : list (float * option json)) :
  (forall data : json, cache_data stale = Some data ->
     PyFloat.lt (PyFloat.sub (Fin t0) (cache_ts stale)) CACHE_TTL_SEC = false) ->
  Forall (fun call : float * option json =>
            exists t : Q, call.1 = Fin t /\ (t - t0 < 60)%Q) calls ->
  let '(r0, cache, requested) :=
    fetch_lighter_markets (Fin t0) (Some (JList items)) stale in
  r0 = JList items /\ requested = true
  /\ fetch_calls calls cache
     = ((fun _ => (JList items, false)) <$> calls, cache).
Proof.
  intros Hstale Hcalls.
  assert (Hfetch : fetch_lighter_markets (Fin t0) (Some (JList items)) stale
                   = (JList items,
                      {| cache_ts := Fin t0; cache_data := Some (JList items) |},
                      true)).
  { unfold fetch_lighter_markets.
    destruct (cache_data stale) as [data |] eqn:Hd; [| reflexivity].
    rewrite (Hstale data eq_refl). reflexivity. }
  rewrite Hfetch. split; [reflexivity |]. split; [reflexivity |].
  induction Hcalls as [| [now response] calls (t & Hnow & Ht) Hcalls IH];
    [reflexivity |].
  cbn [fst] in Hnow. subst now.
  cbn [fetch_calls fmap list_fmap].
  assert (Hhit : fetch_lighter_markets (Fin t) response
                   {| cache_ts := Fin t0; cache_data := Some (JList items) |}
                 = (JList items,
                    {| cache_ts := Fin t0; cache_data := Some (JList items) |},
                    false)).
  { unfold fetch_lighter_markets. cbn [cache_data cache_ts].
    assert (Hlt : PyFloat.lt (PyFloat.sub (Fin t) (Fin t0)) CACHE_TTL_SEC = true).
    { cbv [PyFloat.lt PyFloat.cmp PyFloat.qlt PyFloat.sub PyFloat.lift2
             CACHE_TTL_SEC PyFloat.of_Z].
      apply negb_true_iff. destruct (Qle_bool (inject_Z 60) (t - t0)) eqn:Hle;
        [| reflexivity].
      apply Qle_bool_iff in Hle. change (inject_Z 60) with 60%Q in Hle. lra. }
    rewrite Hlt. reflexivity. }
  rewrite Hhit. fold (@fmap list _ _ _ (fun _ : float * option json => (JList items, false)) calls).
  rewrite IH. reflexivity.
Qed.

(** A fetch at second one hundred over the old cache, then calls at seconds
    130 and 159, the upstream failing for the first. *)
Lemma markets_cache_window_witness :
  let '(r0, cache, requested) :=
    fetch_lighter_markets (Fin 100) (Some (JList [JInt 1])) old_cache in
  r0 = JList [JInt 1] /\ requested = true
  /\ fetch_calls [(Fin 130, None); (Fin 159, Some (JList []))] cache
     = ((fun _ => (JList [JInt 1], false))
          <$> [(Fin 130, None); (Fin 159, Some (JList []))], cache).
Proof.
  apply (markets_cache_window 100 [JInt 1] old_cache
           [(Fin 130, None); (Fin 159, Some (JList []))]).
  - intros data _. vm_compute. reflexivity.
  - repeat constructor; eexists; (split; [reflexivity | cbn [fst]; lra]).
Defined.

End CacheFacts.
